(** * python_ifconfig: a shallow embedding of the interface reporter

    The repository holds three drafts of one tool: [if_8.py], its hardened
    successor [if_8v2.py] and the configurable rewrite [if_v4.py].  Each
    prints, per network interface, the IPv4 configuration and the MTU, and
    then the receive and transmit byte counters read from the kernel's
    statistics table.

    Layout of this development:
    - [Py]: the Python built-ins the scripts rely on (string splitting and
      stripping, [int], [float] and the [.1f] format, [struct]);
    - the printing monad and the shared byte formatter [format_bytes_with];
    - [host]: what the operating system answers (interface list, address
      table, the SIOCGIFMTU request, files);
    - [If_8v2], [If_v4] and [If_8], function by function;
    - the vocabulary of the specification, then its properties, and
      further properties of the three drafts.

    Conventions.  Text is modelled as [string], a sequence of 8-bit
    characters: the kernel's interface names and statistics table are ASCII,
    and a character above 127 is neither white space nor a digit here.
    Standard output is the list of the arguments of the successive [print]
    calls.  A Python exception is a value [Raise e]; [KeyboardInterrupt],
    which a signal delivers asynchronously, is not modelled. *)

From Stdlib Require Import ZArith Lia DecimalString.
From Stdlib Require DecimalPos DecimalZ DecimalFacts.
From Stdlib.Strings Require Import Ascii String Byte.
From stdpp Require Import gmap strings list.

Local Open Scope string_scope.
Local Open Scope list_scope.
Local Open Scope Z_scope.

(** ** Exceptions and results *)

Inductive exn_class :=
  | OSError          (* also IOError, FileNotFoundError, PermissionError *)
  | ValueError       (* also UnicodeError *)
  | IndexError
  | KeyError
  | OverflowError
  | StructError      (* struct.error *)
  | OtherException.  (* any other subclass of Exception *)

Global Instance exn_class_eq_dec : EqDecision exn_class.
Proof. solve_decision. Defined.

(** An exception object: its class and the text [str(e)] shows. *)
Record exn := Exn { exn_cls : exn_class; exn_str : string }.

Inductive result (A : Type) :=
  | Ok (a : A)
  | Raise (e : exn).
Arguments Ok {A} a.
Arguments Raise {A} e.

Definition rbind {A B} (r : result A) (k : A -> result B) : result B :=
  match r with
  | Ok a => k a
  | Raise e => Raise e
  end.

(** [except (C1, C2, ...)]: does the handler match the exception? *)
Definition handles (cs : list exn_class) (e : exn) : bool :=
  bool_decide (exn_cls e ∈ cs).

(** ** Python built-ins *)

Module Py.

(** *** Characters *)

Definition code (c : ascii) : Z := Z.of_nat (nat_of_ascii c).

(** [str.isspace] on one ASCII character: TAB, LF, VT, FF, CR, the four
    separators FS, GS, RS, US, and the space. *)
Definition isspace (c : ascii) : bool :=
  let n := code c in
  ((9 <=? n) && (n <=? 13)) || ((28 <=? n) && (n <=? 32)).

Definition isdigit (c : ascii) : bool :=
  let n := code c in (48 <=? n) && (n <=? 57).

Definition digit_val (c : ascii) : option Z :=
  if isdigit c then Some (code c - 48) else None.

Definition is_empty (s : string) : bool :=
  match s with
  | EmptyString => true
  | String _ _ => false
  end.

(** *** [str.strip], [str.split(sep)], [str.split()] *)

Fixpoint lstrip (s : string) : string :=
  match s with
  | EmptyString => EmptyString
  | String c r => if isspace c then lstrip r else s
  end.

Fixpoint rstrip (s : string) : string :=
  match s with
  | EmptyString => EmptyString
  | String c r =>
      let r' := rstrip r in
      if isspace c && is_empty r' then EmptyString else String c r'
  end.

Definition strip (s : string) : string := lstrip (rstrip s).

(** Cut [s] at every character satisfying [p]; the pieces between the cuts,
    empty ones included, in order.  Never the empty list. *)
Fixpoint split_at (p : ascii -> bool) (s : string) : list string :=
  match s with
  | EmptyString => [EmptyString]
  | String c r =>
      if p c then EmptyString :: split_at p r
      else match split_at p r with
           | [] => [String c EmptyString]
           | h :: t => String c h :: t
           end
  end.

(** [s.split(sep)] for a one-character separator. *)
Definition split (sep : ascii) (s : string) : list string :=
  split_at (fun c => bool_decide (c = sep)) s.

(** [s.split()]: runs of white space separate, no empty piece is kept. *)
Definition split_ws (s : string) : list string :=
  List.filter (fun t => negb (is_empty t)) (split_at isspace s).

(** *** Reading text files *)

Definition LF : ascii := ascii_of_nat 10.
Definition CR : ascii := ascii_of_nat 13.

(** Text mode with the default [newline=None]: CR LF and a lone CR are read
    as LF.  [prev_cr] tells that the previous character was a CR. *)
Fixpoint universal_newlines (prev_cr : bool) (s : string) : string :=
  match s with
  | EmptyString => EmptyString
  | String c r =>
      if bool_decide (c = CR) then String LF (universal_newlines true r)
      else if bool_decide (c = LF) then
        if prev_cr then universal_newlines false r
        else String LF (universal_newlines false r)
      else String c (universal_newlines false r)
  end.

(** [f.read()] *)
Definition read (content : string) : string := universal_newlines false content.

Fixpoint lines_keepends (s : string) : list string :=
  match s with
  | EmptyString => [EmptyString]
  | String c r =>
      if bool_decide (c = LF) then String c EmptyString :: lines_keepends r
      else match lines_keepends r with
           | [] => [String c EmptyString]
           | h :: t => String c h :: t
           end
  end.

(** [f.readlines()]: every line keeps its terminating LF; no empty last
    line. *)
Definition readlines (content : string) : list string :=
  List.filter (fun t => negb (is_empty t)) (lines_keepends (read content)).

(** *** [int(s)] and [str(n)] *)

(** Decimal digits, single underscores allowed between two digits.
    [prev] tells that the previous character was a digit. *)
Fixpoint parse_digits (s : string) (acc : Z) (prev : bool) : option Z :=
  match s with
  | EmptyString => if prev then Some acc else None
  | String c r =>
      match digit_val c with
      | Some d => parse_digits r (10 * acc + d) true
      | None =>
          if bool_decide (c = "_"%char) && prev then parse_digits r acc false
          else None
      end
  end.

(** The white space [int] drops around a numeral: TAB, LF, VT, FF, CR and
    the space.  The separators FS to US, which [str.strip] removes, are no
    white space for [int]. *)
Definition isspace_int (c : ascii) : bool :=
  let n := code c in
  ((9 <=? n) && (n <=? 13)) || (n =? 32).

Fixpoint lstrip_int (s : string) : string :=
  match s with
  | EmptyString => EmptyString
  | String c r => if isspace_int c then lstrip_int r else s
  end.

Fixpoint rstrip_int (s : string) : string :=
  match s with
  | EmptyString => EmptyString
  | String c r =>
      let r' := rstrip_int r in
      if isspace_int c && is_empty r' then EmptyString else String c r'
  end.

(** The number of decimal digits in [s]. *)
Fixpoint count_digits (s : string) : Z :=
  match s with
  | EmptyString => 0
  | String c r => (if isdigit c then 1 else 0) + count_digits r
  end.

(** [sys.int_info.default_max_str_digits]: [int] refuses a numeral of more
    digits (CPython since 3.11, and the later releases of 3.7 to 3.10). *)
Definition max_str_digits : Z := 4300.

(** The numeral after the sign. *)
Definition int_digits (r : string) : option Z :=
  if max_str_digits <? count_digits r then None
  else parse_digits r 0 false.

(** [int(s)]: surrounding white space is dropped, one sign is allowed.
    [None] stands for the [ValueError] Python raises. *)
Definition int (s : string) : option Z :=
  match lstrip_int (rstrip_int s) with
  | String "+" r => int_digits r
  | String "-" r => Z.opp <$> int_digits r
  | t => int_digits t
  end.

(** [str(n)] for an integer. *)
Definition str (n : Z) : string := NilZero.string_of_int (Z.to_int n).

(** *** [float] *)

(** The floats the formatter meets are integers divided by powers of two:
    [Dy m k] is the real number [m / 2^k]. *)
Record float := Dy { fnum : Z; fexp : Z }.

(** Nearest multiple of [2^sh] of [a >= 0], ties to the even quotient. *)
Definition round_shift (a sh : Z) : Z :=
  if sh <=? 0 then a
  else
    let q := Z.shiftr a sh in
    let r := a - Z.shiftl q sh in
    let half := Z.shiftl 1 (sh - 1) in
    let q' := if (half <? r) || ((r =? half) && Z.odd q) then q + 1 else q in
    Z.shiftl q' sh.

(** The nearest binary64 value of the magnitude [a]: 53 significant bits. *)
Definition round53 (a : Z) : Z := round_shift a (Z.log2 a + 1 - 53).

(** [float(n)] for an integer [n]. *)
Definition float_of_int (n : Z) : result float :=
  let m := round53 (Z.abs n) in
  if 2 ^ 1024 <=? m
  then Raise (Exn OverflowError "int too large to convert to float")
  else Ok (Dy (Z.sgn n * m) 0).

(** [x >= c] for an integer constant [c]. *)
Definition float_ge (x : float) (c : Z) : bool :=
  c * 2 ^ fexp x <=? fnum x.

(** [x / 1024]: exact in binary64, the callers divide values of at least
    1024 only. *)
Definition float_div1024 (x : float) : float := Dy (fnum x) (fexp x + 10).

(** [f"{x:.1f}"]: the decimal with one fractional digit nearest to the exact
    value of [x], ties to the even last digit. *)
Definition format_1f (x : float) : string :=
  let d := 2 ^ fexp x in
  let t := 10 * Z.abs (fnum x) in
  let q := t / d in
  let r := t mod d in
  let q' := if (d <? 2 * r) || ((2 * r =? d) && Z.odd q) then q + 1 else q in
  (if fnum x <? 0 then "-" else "")
    +:+ str (q' / 10) +:+ "." +:+ str (q' mod 10).

(** *** [struct] and byte strings (native order: little endian) *)

(** [s.encode()] on ASCII text. *)
Definition encode (s : string) : list byte := list_byte_of_string s.

Definition byte_val (b : byte) : Z := Z.of_N (Byte.to_N b).

Definition byte_of_Z (n : Z) : byte :=
  match Byte.of_N (Z.to_N (n mod 256)) with
  | Some b => b
  | None => "000"%byte
  end.

(** The ['16s'] field: the first 16 bytes, padded with NUL bytes. *)
Definition pack_s (width : nat) (b : list byte) : list byte :=
  take width (b ++ replicate width "000"%byte).

(** The ['H'] field, for a value in range. *)
Definition pack_H (v : Z) : list byte := [byte_of_Z v; byte_of_Z (v / 256)].

(** [struct.unpack('H', b)[0]] *)
Definition unpack_H (b : list byte) : result Z :=
  match b with
  | [lo; hi] => Ok (byte_val lo + 256 * byte_val hi)
  | _ => Raise (Exn StructError "unpack requires a buffer of 2 bytes")
  end.

(** [b[i:j]] for [0 <= i <= j]. *)
Definition slice {A} (i j : nat) (l : list A) : list A := take (j - i) (drop i l).

End Py.

(** ** Printing and raising *)

(** A computation that prints and then returns or raises: the printed lines,
    in order, and the outcome. *)
Definition io (A : Type) : Type := (list string * result A)%type.

Definition ret {A} (a : A) : io A := ([], Ok a).
Definition lift {A} (r : result A) : io A := ([], r).
Definition print (s : string) : io unit := ([s], Ok tt).

Definition bind {A B} (m : io A) (k : A -> io B) : io B :=
  match m with
  | (out, Ok a) => let '(out', r) := k a in (out ++ out', r)
  | (out, Raise e) => (out, Raise e)
  end.

Notation "'let*' x ':=' m 'in' k" := (bind m (fun x => k))
  (at level 10, x pattern, m at level 100, k at level 200).
Notation "m '>>' k" := (bind m (fun _ => k))
  (at level 100, k at level 200, right associativity).

(** [try: m  except (cs) as e: h e]; an exception of another class goes on. *)
Definition try_except {A} (m : io A) (cs : list exn_class) (h : exn -> io A) : io A :=
  match m with
  | (out, Raise e) =>
      if handles cs e then let '(out', r) := h e in (out ++ out', r)
      else (out, Raise e)
  | returned => returned
  end.

(** [try: m  except Exception as e: h e]: every modelled exception. *)
Definition try_except_Exception {A} (m : io A) (h : exn -> io A) : io A :=
  match m with
  | (out, Raise e) => let '(out', r) := h e in (out ++ out', r)
  | returned => returned
  end.

(** [for x in l: body x]; a [continue] is a body that returns early. *)
Fixpoint for_each {A} (l : list A) (body : A -> io unit) : io unit :=
  match l with
  | [] => ret tt
  | x :: r => body x >> for_each r body
  end.

(** [l[i]] *)
Definition index {A} (l : list A) (i : nat) : result A :=
  match l !! i with
  | Some a => Ok a
  | None => Raise (Exn IndexError "list index out of range")
  end.

(** [int(s)] with its exception (the message quotes [s] roughly as [repr]
    does; no modelled handler prints it). *)
Definition int_of (s : string) : result Z :=
  match Py.int s with
  | Some n => Ok n
  | None =>
      Raise (Exn ValueError
               ("invalid literal for int() with base 10: '" +:+ s +:+ "'"))
  end.

(** ** The byte formatter *)

(** The loop of [format_bytes].  [remaining] is its variant
    [len(units) - 1 - unit_index]: the test [unit_index < len(units) - 1]
    holds exactly when it is not zero. *)
Fixpoint scale (remaining : nat) (readable_size : Py.float) (unit_index : nat)
  : Py.float * nat :=
  match remaining with
  | O => (readable_size, unit_index)
  | S remaining' =>
      if Py.float_ge readable_size 1024
      then scale remaining' (Py.float_div1024 readable_size) (S unit_index)
      else (readable_size, unit_index)
  end.

(** [format_bytes], the list of units left open: the three drafts differ in
    where that list comes from only. *)
Definition format_bytes_with (units : list string) (size : Z) : result string :=
  rbind (Py.float_of_int size) (fun readable_size =>
  let '(readable_size, unit_index) := scale (length units - 1) readable_size 0 in
  rbind (index units unit_index) (fun unit =>
  Ok (Py.format_1f readable_size +:+ " " +:+ unit))).

(** ** The host *)

Definition ESC : string := String (ascii_of_nat 27) EmptyString.

(** A system call that fails raises [OSError]. *)
Inductive os_reply (A : Type) :=
  | Done (a : A)
  | Errno (msg : string).
Arguments Done {A} a.
Arguments Errno {A} msg.

Definition os_result {A} (r : os_reply A) : result A :=
  match r with
  | Done a => Ok a
  | Errno msg => Raise (Exn OSError msg)
  end.

Inductive file :=
  | Absent                      (* no such path *)
  | Unreadable (msg : string)   (* the path exists, [open] raises [OSError] *)
  | Text (content : string).

(** One entry of the address table: a dictionary such as
    [{'addr': ..., 'netmask': ..., 'broadcast': ...}]. *)
Abbreviation addr_entry := (gmap string string).

Record host := Host {
  (* [sys.platform] *)
  sys_platform : string;
  (* [netifaces.interfaces()] *)
  netifaces_interfaces : result (list string);
  (* [netifaces.ifaddresses(name)]: address family to entries *)
  netifaces_ifaddresses : string -> result (gmap Z (list addr_entry));
  (* [socket.socket(AF_INET, SOCK_DGRAM)] *)
  socket_socket : os_reply unit;
  (* [fcntl.ioctl(fd, 0x8921, request)]: SIOCGIFMTU *)
  fcntl_ioctl : list byte -> os_reply (list byte);
  (* the file system, by path *)
  fs : string -> file
}.

Definition AF_INET : Z := 2.

(** [os.path.exists(path)] *)
Definition path_exists (h : host) (path : string) : bool :=
  match fs h path with
  | Absent => false
  | _ => true
  end.

(** [open(path)] followed by reading the whole file with [rd]. *)
Definition open_and {A} (h : host) (path : string) (rd : string -> A) : result A :=
  match fs h path with
  | Absent =>
      Raise (Exn OSError
               ("[Errno 2] No such file or directory: '" +:+ path +:+ "'"))
  | Unreadable msg => Raise (Exn OSError msg)
  | Text content => Ok (rd content)
  end.

(** Python's truth value of an optional integer: [None] and [0] are false. *)
Definition truthy (v : option Z) : bool :=
  match v with
  | Some n => negb (n =? 0)
  | None => false
  end.

(** [f"{v}"] for an optional integer. *)
Definition str_of (v : option Z) : string :=
  match v with
  | Some n => Py.str n
  | None => "None"
  end.

(** ** [if_8v2.py] *)

Module If_8v2.

Definition RESET_COLOR : string := ESC +:+ "[0m".
Definition GREY_COLOR : string := ESC +:+ "[38;5;250m".
Definition SEP_COLOR : string := ESC +:+ "[38;5;130m".

Definition units : list string := ["B"; "KiB"; "MiB"; "GiB"; "TiB"].

Definition format_bytes (size : Z) : result string :=
  format_bytes_with units size.

(** The request is the name cut to 16 bytes in a 256-byte buffer; the MTU
    is bytes 16 and 17 of the reply. *)
Definition get_mtu (h : host) (interface : string) : io (option Z) :=
  try_except
    (let* _ := lift (os_result (socket_socket h)) in
     let* reply :=
       lift (os_result
               (fcntl_ioctl h (Py.pack_s 256 (take 16 (Py.encode interface))))) in
     let mtu := Py.slice 16 18 reply in
     let* v := lift (Py.unpack_H mtu) in
     ret (Some v))
    [OSError]
    (fun e =>
       print ("Error retrieving MTU for interface '" +:+ interface +:+ "': "
                +:+ exn_str e) >>
       ret None).

(** The [try] block of [get_interface_info] (lines 40 to 53). *)
Definition interface_details (h : host) (interface : string) : io unit :=
  let* addrs := lift (netifaces_ifaddresses h interface) in
  let* iface_flags := lift (index (default [∅] (addrs !! AF_INET)) 0) in
  let ip_address := default "N/A" (iface_flags !! "addr") in
  let netmask := default "N/A" (iface_flags !! "netmask") in
  let broadcast := default "N/A" (iface_flags !! "broadcast") in
  print ("    inet: " +:+ ip_address) >>
  print ("    netmask: " +:+ netmask) >>
  print ("    broadcast: " +:+ broadcast) >>
  let* mtu := get_mtu h interface in
  if truthy mtu
  then print ("    MTU: " +:+ str_of mtu)
  else print "    MTU: Unable to retrieve".

Definition get_interface_info (h : host) (interface : string) : io unit :=
  print (SEP_COLOR +:+ interface +:+ ":" +:+ RESET_COLOR) >>
  try_except_Exception
    (interface_details h interface)
    (fun e =>
       print ("    Error retrieving interface information: " +:+ exn_str e)).

Definition display_network_info (h : host) : io unit :=
  print (GREY_COLOR +:+ "Network Interfaces:" +:+ RESET_COLOR) >>
  let* interfaces := lift (netifaces_interfaces h) in
  for_each interfaces (get_interface_info h).

Definition NEWLINE : string := String Py.LF EmptyString.

(** The end of one turn of the loop (lines 99 to 104): format both counters,
    then print the entry. *)
Definition report (iface : string) (rx_bytes tx_bytes : Z) : io unit :=
  let* rx_formatted := lift (format_bytes rx_bytes) in
  let* tx_formatted := lift (format_bytes tx_bytes) in
  print (SEP_COLOR +:+ "  " +:+ iface +:+ ":" +:+ RESET_COLOR) >>
  print ("    RX: "
           +:+ (if rx_bytes =? 0 then GREY_COLOR +:+ "No traffic"
                else GREY_COLOR +:+ rx_formatted)
           +:+ RESET_COLOR) >>
  print ("    TX: "
           +:+ (if tx_bytes =? 0 then GREY_COLOR +:+ "No traffic"
                else GREY_COLOR +:+ tx_formatted)
           +:+ RESET_COLOR).

(** One turn of the loop over the table's lines. *)
Definition traffic_line (line : string) : io unit :=
  if Py.is_empty (Py.strip line) then ret tt else
  let parts := Py.split ":" line in
  if (length parts <? 2)%nat then ret tt else
  let* part0 := lift (index parts 0) in
  let iface := Py.strip part0 in
  let* part1 := lift (index parts 1) in
  let stats := Py.split_ws part1 in
  if (length stats <? 9)%nat then ret tt else
  let* parsed :=
    try_except
      (let* s0 := lift (index stats 0) in
       let* rx_bytes := lift (int_of s0) in
       let* s8 := lift (index stats 8) in
       let* tx_bytes := lift (int_of s8) in
       ret (Some (rx_bytes, tx_bytes)))
      [ValueError]
      (fun _ =>
         print ("Skipping invalid stats for interface: " +:+ iface) >>
         ret None) in
  match parsed with
  | None => ret tt
  | Some (rx_bytes, tx_bytes) => report iface rx_bytes tx_bytes
  end.

Definition display_traffic_stats (h : host) : io unit :=
  if negb (path_exists h "/proc/net/dev") then
    print "Unable to read /proc/net/dev. Make sure you are running this on a Linux system."
  else
    try_except_Exception
      (let* lines := lift (open_and h "/proc/net/dev" Py.readlines) in
       print (GREY_COLOR +:+ NEWLINE +:+ "Traffic Statistics:" +:+ RESET_COLOR) >>
       for_each (drop 2 lines) traffic_line)
      (fun e => print ("Error reading traffic stats: " +:+ exn_str e)).

(** The output and the exit status of the process. *)
Definition main (h : host) : list string * Z :=
  if negb (String.prefix "linux" (sys_platform h)) then
    (["This script is designed for Linux systems."], 1)
  else
    match display_network_info h >> display_traffic_stats h with
    | (out, Ok _) => (out, 0)
    | (out, Raise e) => (out, 1)   (* the interpreter's traceback *)
    end.

End If_8v2.

(** ** [if_v4.py] *)

Module If_v4.

(** The [config] namespace. *)
Record Config := {
  FILTER_INTERFACES : option (gset string);   (* [None] disables filtering *)
  COLOR_OUTPUT : bool;
  BYTE_UNITS : list string;
  PROC_NET_DEV : string;
  SYSFS_NET_PATH : string
}.

Definition config : Config := {|
  FILTER_INTERFACES := Some {[ "eth0"; "wlan0" ]};
  COLOR_OUTPUT := true;
  BYTE_UNITS := ["B"; "KiB"; "MiB"; "GiB"; "TiB"];
  PROC_NET_DEV := "/proc/net/dev";
  SYSFS_NET_PATH := "/sys/class/net"
|}.

(** The class attributes of [Colors]; [main] may replace them once, before
    anything else runs, so the functions below take them as an argument. *)
Record Colors := {
  RESET : string;
  GREY : string;
  SEPIA : string;
  RED : string;
  GREEN : string
}.

Definition Colors_initial : Colors := {|
  RESET := ESC +:+ "[0m";
  GREY := ESC +:+ "[38;5;250m";
  SEPIA := ESC +:+ "[38;5;130m";
  RED := ESC +:+ "[31m";
  GREEN := ESC +:+ "[32m"
|}.

(** [Colors.disable()] *)
Definition disable (_ : Colors) : Colors :=
  {| RESET := ""; GREY := ""; SEPIA := ""; RED := ""; GREEN := "" |}.

Definition format_bytes (cfg : Config) (size : Z) : result string :=
  format_bytes_with (BYTE_UNITS cfg) size.

(** The class [InterfaceTraffic]. *)
Record InterfaceTraffic := {
  name : string;
  rx_bytes : Z;
  tx_bytes : Z
}.

Definition InterfaceTraffic_init (name : string) : InterfaceTraffic :=
  {| name := name; rx_bytes := 0; tx_bytes := 0 |}.

Definition update (self : InterfaceTraffic) (rx tx : Z) : InterfaceTraffic :=
  {| name := name self; rx_bytes := rx; tx_bytes := tx |}.

Definition rx_human (cfg : Config) (self : InterfaceTraffic) : result string :=
  format_bytes cfg (rx_bytes self).

Definition tx_human (cfg : Config) (self : InterfaceTraffic) : result string :=
  format_bytes cfg (tx_bytes self).

(** Method 1 of [get_mtu]: the 18-byte request ['16sH'] and bytes 16 and 17
    of the reply. *)
Definition get_mtu_ioctl (h : host) (interface : string) : result Z :=
  rbind (os_result (socket_socket h)) (fun _ =>
  let ifr := Py.pack_s 16 (Py.encode interface) ++ Py.pack_H 0 in
  rbind (os_result (fcntl_ioctl h ifr)) (fun reply =>
  let mtu := Py.slice 16 18 reply in
  Py.unpack_H mtu)).

(** Method 2 of [get_mtu]: the sysfs node. *)
Definition get_mtu_sysfs (cfg : Config) (h : host) (interface : string) : result Z :=
  rbind (open_and h (SYSFS_NET_PATH cfg +:+ "/" +:+ interface +:+ "/mtu") Py.read)
        int_of.

Definition get_mtu (cfg : Config) (h : host) (interface : string) : io (option Z) :=
  try_except
    (let* v := lift (get_mtu_ioctl h interface) in ret (Some v))
    [OSError; StructError]
    (fun _ =>
       try_except
         (let* v := lift (get_mtu_sysfs cfg h interface) in ret (Some v))
         [OSError; ValueError]
         (fun _ => ret None)).

(** The [try] block of [get_interface_info] (lines 86 to 94). *)
Definition interface_details (cfg : Config) (h : host) (interface : string) : io unit :=
  let* addrs := lift (netifaces_ifaddresses h interface) in
  let* ipv4 := lift (index (default [∅] (addrs !! AF_INET)) 0) in
  print ("    inet: " +:+ default "N/A" (ipv4 !! "addr")) >>
  print ("    netmask: " +:+ default "N/A" (ipv4 !! "netmask")) >>
  print ("    broadcast: " +:+ default "N/A" (ipv4 !! "broadcast")) >>
  let* mtu := get_mtu cfg h interface in
  if truthy mtu
  then print ("    MTU: " +:+ str_of mtu)
  else ret tt.

Definition get_interface_info (cfg : Config) (col : Colors) (h : host)
    (interface : string) : io unit :=
  print (SEPIA col +:+ interface +:+ ":" +:+ RESET col) >>
  try_except_Exception
    (interface_details cfg h interface)
    (fun e => print (RED col +:+ "    Error: " +:+ exn_str e +:+ RESET col)).

(** [config.FILTER_INTERFACES and iface not in config.FILTER_INTERFACES]:
    [None] and the empty set are false. *)
Definition filtered_out (cfg : Config) (iface : string) : bool :=
  match FILTER_INTERFACES cfg with
  | None => false
  | Some allowed => bool_decide (allowed ≠ ∅) && bool_decide (iface ∉ allowed)
  end.

Definition display_network_info (cfg : Config) (col : Colors) (h : host) : io unit :=
  print (GREY col +:+ "Network Interfaces:" +:+ RESET col) >>
  let* interfaces := lift (netifaces_interfaces h) in
  for_each interfaces (fun interface =>
    if filtered_out cfg interface then ret tt
    else get_interface_info cfg col h interface).

Definition NEWLINE : string := String Py.LF EmptyString.

(** [[l.strip() for l in lines if l.strip()]] *)
Definition stripped (lines : list string) : list string :=
  Py.strip <$> List.filter (fun l => negb (Py.is_empty (Py.strip l))) lines.

(** [[l.strip() for l in f.readlines()[2:] if l.strip()]] *)
Definition data_lines (content : string) : list string :=
  stripped (drop 2 (Py.readlines content)).

(** The three [print] calls of one entry (lines 129 to 131); each size is
    formatted when its line is printed. *)
Definition report (cfg : Config) (col : Colors) (traffic : InterfaceTraffic) : io unit :=
  print (SEPIA col +:+ "  " +:+ name traffic +:+ ":" +:+ RESET col) >>
  let* rx_h := lift (rx_human cfg traffic) in
  print ("    RX: " +:+ GREY col +:+ rx_h +:+ RESET col) >>
  let* tx_h := lift (tx_human cfg traffic) in
  print ("    TX: " +:+ GREY col +:+ tx_h +:+ RESET col).

(** One turn of the loop over the stripped lines. *)
Definition traffic_line (cfg : Config) (col : Colors) (line : string) : io unit :=
  let* part0 := lift (index (Py.split ":" line) 0) in
  let iface := Py.strip part0 in
  let* part1 := lift (index (Py.split ":" line) 1) in
  let stats := Py.split_ws part1 in
  if filtered_out cfg iface then ret tt else
  try_except
    (let traffic := InterfaceTraffic_init iface in
     let* s0 := lift (index stats 0) in
     let* rx := lift (int_of s0) in
     let* s8 := lift (index stats 8) in
     let* tx := lift (int_of s8) in
     let traffic := update traffic rx tx in
     report cfg col traffic)
    [IndexError; ValueError]
    (fun _ => ret tt).

Definition display_traffic_stats (cfg : Config) (col : Colors) (h : host) : io unit :=
  if negb (path_exists h (PROC_NET_DEV cfg)) then
    print (RED col +:+ "Error: " +:+ PROC_NET_DEV cfg +:+ " not found" +:+ RESET col)
  else
    try_except_Exception
      (let* lines := lift (open_and h (PROC_NET_DEV cfg) data_lines) in
       print (GREY col +:+ NEWLINE +:+ "Traffic Statistics:" +:+ RESET col) >>
       for_each lines (traffic_line cfg col))
      (fun e => print (RED col +:+ "Error reading stats: " +:+ exn_str e +:+ RESET col)).

(** The output and the exit status of the process.  (The handler of
    [KeyboardInterrupt] has nothing to catch in this model.) *)
Definition main (cfg : Config) (h : host) : list string * Z :=
  let col := Colors_initial in
  if negb (String.prefix "linux" (sys_platform h)) then
    ([RED col +:+ "Error: Linux-only script" +:+ RESET col], 1)
  else
    let col := if negb (COLOR_OUTPUT cfg) then disable col else col in
    match display_network_info cfg col h >> display_traffic_stats cfg col h with
    | (out, Ok _) => (out, 0)
    | (out, Raise e) =>
        (out ++ [RED col +:+ "Critical error: " +:+ exn_str e +:+ RESET col], 1)
    end.

End If_v4.

(** ** [if_8.py] *)

(** The first draft; [if_8v2.py] supersedes its reporting functions, the byte
    formatter is the one all three drafts share. *)
Module If_8.

Definition units : list string := ["B"; "KiB"; "MiB"; "GiB"; "TiB"].

Definition format_bytes (size : Z) : result string :=
  format_bytes_with units size.

Definition RESET_COLOR : string := ESC +:+ "[0m".
Definition GREY_COLOR : string := ESC +:+ "[38;5;250m".
Definition SEP_COLOR : string := ESC +:+ "[38;5;130m".

(** [d[key]] on a dictionary; [shown] is [repr(key)], the text of the
    [KeyError]. *)
Definition getitem `{Countable K} {V} (d : gmap K V) (key : K) (shown : string)
  : result V :=
  match d !! key with
  | Some v => Ok v
  | None => Raise (Exn KeyError shown)
  end.

(** The request is the first 15 characters of the name in a 256-byte
    buffer; nothing is caught here. *)
Definition get_mtu (h : host) (interface : string) : result Z :=
  rbind (os_result (socket_socket h)) (fun _ =>
  rbind (os_result
           (fcntl_ioctl h
              (Py.pack_s 256 (Py.encode (String.substring 0 15 interface)))))
        (fun reply =>
  let mtu := Py.slice 16 18 reply in
  Py.unpack_H mtu)).

(** The [try] block of [get_interface_info] (lines 35 to 45). *)
Definition interface_details (h : host) (interface : string) : io unit :=
  let* addrs := lift (netifaces_ifaddresses h interface) in
  let* entries := lift (getitem addrs AF_INET "2") in
  let* iface_flags := lift (index entries 0) in
  let* ip_address := lift (getitem iface_flags "addr" "'addr'") in
  let* netmask := lift (getitem iface_flags "netmask" "'netmask'") in
  let broadcast := default "N/A" (iface_flags !! "broadcast") in
  print (SEP_COLOR +:+ "    inet: " +:+ ip_address +:+ RESET_COLOR) >>
  print (SEP_COLOR +:+ "    netmask: " +:+ netmask +:+ RESET_COLOR) >>
  print (SEP_COLOR +:+ "    broadcast: " +:+ broadcast +:+ RESET_COLOR) >>
  let* mtu := lift (get_mtu h interface) in
  print (SEP_COLOR +:+ "    MTU: " +:+ Py.str mtu +:+ RESET_COLOR).

Definition get_interface_info (h : host) (interface : string) : io unit :=
  print (SEP_COLOR +:+ interface +:+ ":" +:+ RESET_COLOR) >>
  try_except
    (interface_details h interface)
    [KeyError]
    (fun _ => print "    No IPv4 address found.").

Definition display_network_info (h : host) : io unit :=
  print (GREY_COLOR +:+ "Network Interfaces:" +:+ RESET_COLOR) >>
  let* interfaces := lift (netifaces_interfaces h) in
  for_each interfaces (get_interface_info h).

Definition NEWLINE : string := String Py.LF EmptyString.

(** One turn of the loop over the table's lines (lines 68 to 90). *)
Definition traffic_line (line : string) : io unit :=
  if Py.is_empty (Py.strip line) then ret tt else
  let parts := Py.split ":" line in
  let* part0 := lift (index parts 0) in
  let iface := Py.strip part0 in
  let* part1 := lift (index parts 1) in
  let stats := Py.split_ws part1 in
  let* s0 := lift (index stats 0) in
  let* rx_bytes := lift (int_of s0) in
  let* s8 := lift (index stats 8) in
  let* tx_bytes := lift (int_of s8) in
  let* rx_formatted := lift (format_bytes rx_bytes) in
  let* tx_formatted := lift (format_bytes tx_bytes) in
  print (SEP_COLOR +:+ "  " +:+ iface +:+ ":" +:+ RESET_COLOR) >>
  (if rx_bytes =? 0
   then print ("    RX: " +:+ GREY_COLOR +:+ "No traffic" +:+ RESET_COLOR)
   else print ("    RX: " +:+ GREY_COLOR +:+ rx_formatted +:+ RESET_COLOR)) >>
  (if tx_bytes =? 0
   then print ("    TX: " +:+ GREY_COLOR +:+ "No traffic" +:+ RESET_COLOR)
   else print ("    TX: " +:+ GREY_COLOR +:+ tx_formatted +:+ RESET_COLOR)).

(** The handler is for [FileNotFoundError], which [open] raises for a path
    that does not exist and nothing else in the block raises: another
    [OSError] of [open], and whatever a line of the table raises, leave the
    function. *)
Definition display_traffic_stats (h : host) : io unit :=
  match fs h "/proc/net/dev" with
  | Absent =>
      print "Unable to read /proc/net/dev. Make sure you are running this on a Linux system."
  | Unreadable msg => lift (Raise (Exn OSError msg))
  | Text content =>
      let lines := Py.readlines content in
      print (GREY_COLOR +:+ NEWLINE +:+ "Traffic Statistics:" +:+ RESET_COLOR) >>
      for_each (drop 2 lines) traffic_line
  end.

(** The output and the exit status of the process. *)
Definition main (h : host) : list string * Z :=
  match display_network_info h >> display_traffic_stats h with
  | (out, Ok _) => (out, 0)
  | (out, Raise e) => (out, 1)   (* the interpreter's traceback *)
  end.

End If_8.

(** * Vocabulary of the specification *)

(** ** Strings *)

(** Every character of [s] satisfies [p]. *)
Fixpoint all_chars (p : ascii -> bool) (s : string) : bool :=
  match s with
  | EmptyString => true
  | String c r => p c && all_chars p r
  end.

(** No character of [s] is [c]. *)
Definition free_of (c : ascii) (s : string) : bool :=
  all_chars (fun x => negb (bool_decide (x = c))) s.

Definition nonempty (t : string) : bool := negb (Py.is_empty t).

(** ** Formatted sizes *)

(** What the specification asks of a formatted size: digits, a point, one
    digit, a space, a unit of the ladder. *)
Definition size_string (units : list string) (s : string) : Prop :=
  exists whole frac unit,
    s = whole +:+ "." +:+ String frac "" +:+ " " +:+ unit /\
    whole <> "" /\ all_chars Py.isdigit whole = true /\
    Py.isdigit frac = true /\ unit ∈ units.

(** ** The statistics table *)

(** Token [i] after the colon, read as an integer. *)
Definition field (fields : string) (i : nat) : option Z :=
  Py.split_ws fields !! i ≫= Py.int.

(** A data line [<name>: <fields>] of the statistics table: one colon, and
    the tokens 0 and 8 after it are the numerals of [rx] and [tx]. *)
Record data_line (name fields : string) (rx tx : Z) : Prop := {
  name_no_colon : free_of ":" name = true;
  fields_no_colon : free_of ":" fields = true;
  rx_field : field fields 0 = Some rx;
  tx_field : field fields 8 = Some tx
}.

(** The three ways the specification lets a data line be malformed. *)
Inductive malformation := NoColon | TooFewFields | NotNumeric.

(** What may follow the fields of a line: the end of the line, or a further
    colon and any text. *)
Definition beyond (more : option string) : string :=
  match more with
  | None => ""
  | Some text => ":" +:+ text
  end.

(** A malformed line.  The fields of a line with a colon are the text
    between its first colon and the next one, or the end of the line when
    there is no other colon: the parsers cut the line at every colon and
    read the second piece. *)
Inductive malformed : malformation -> string -> Prop :=
  | malformed_no_colon line :
      free_of ":" line = true ->
      malformed NoColon line
  | malformed_short name fields more :
      free_of ":" name = true -> free_of ":" fields = true ->
      (length (Py.split_ws fields) < 9)%nat ->
      malformed TooFewFields (name +:+ ":" +:+ fields +:+ beyond more)
  | malformed_numeric name fields more :
      free_of ":" name = true -> free_of ":" fields = true ->
      (9 <= length (Py.split_ws fields))%nat ->
      field fields 0 = None \/ field fields 8 = None ->
      malformed NotNumeric (name +:+ ":" +:+ fields +:+ beyond more).

(** The text left of the first colon, trimmed. *)
Definition name_of (line : string) : string :=
  Py.strip (default "" (head (Py.split ":" line))).

(** What [if_8v2.py] prints for a malformed line. *)
Definition diagnostic (k : malformation) (line : string) : list string :=
  match k with
  | NotNumeric => ["Skipping invalid stats for interface: " +:+ name_of line]
  | _ => []
  end.

(** ** Interfaces *)

(** What [get_mtu] of [if_v4.py] resolves: the device-control answer, else
    the sysfs value, else [None]. *)
Definition resolved_mtu (cfg : If_v4.Config) (h : host) (interface : string) : option Z :=
  match If_v4.get_mtu_ioctl h interface with
  | Ok v => Some v
  | Raise _ =>
      match If_v4.get_mtu_sysfs cfg h interface with
      | Ok v => Some v
      | Raise _ => None
      end
  end.

(** The three address lines of an entry of the address table. *)
Definition address_lines (ipv4 : gmap string string) : list string :=
  ["    inet: " +:+ default "N/A" (ipv4 !! "addr");
   "    netmask: " +:+ default "N/A" (ipv4 !! "netmask");
   "    broadcast: " +:+ default "N/A" (ipv4 !! "broadcast")].

(** The interfaces the filter lets through. *)
Definition kept (cfg : If_v4.Config) (interfaces : list string) : list string :=
  List.filter (fun i => negb (If_v4.filtered_out cfg i)) interfaces.

(** The members of the filter among [interfaces], in order. *)
Definition members (allowed : gset string) (interfaces : list string) : list string :=
  List.filter (fun i => bool_decide (i ∈ allowed)) interfaces.

(** The colours [main] of [if_v4.py] runs the two pipelines with. *)
Definition main_colors (cfg : If_v4.Config) : If_v4.Colors :=
  if negb (If_v4.COLOR_OUTPUT cfg) then If_v4.disable If_v4.Colors_initial
  else If_v4.Colors_initial.

(** ** The kernel's answer to SIOCGIFMTU *)

(** A 32-bit [int] in memory, little endian. *)
Definition int32_le (n : Z) : list byte :=
  [Py.byte_of_Z n; Py.byte_of_Z (n / 256);
   Py.byte_of_Z (n / 65536); Py.byte_of_Z (n / 16777216)].

(** Linux on a little-endian machine: [struct ifreq] holds the interface
    name in bytes 0 to 15 and the [int] field [ifr_mtu] from byte 16 on.
    The kernel looks the name up ([mtu_of], on the 16 name bytes), stores the
    MTU in bytes 16 to 19, and [fcntl.ioctl] hands back as many bytes as the
    request had. *)
Definition linux_SIOCGIFMTU (mtu_of : list byte -> option Z) (request : list byte)
  : os_reply (list byte) :=
  match mtu_of (take 16 request) with
  | None => Errno "[Errno 19] No such device"
  | Some mtu =>
      Done (take (length request)
                 (take 16 request ++ int32_le mtu ++ drop 20 request))
  end.

(** ** Sample texts and hosts *)

Definition LFs : string := String Py.LF "".

(** The table made of two header lines and the text [rest]. *)
Definition table (hd1 hd2 rest : string) : string :=
  hd1 +:+ LFs +:+ hd2 +:+ LFs +:+ rest.

(** The fields of the sample line of the specification, as [readlines]
    returns them. *)
Definition eth0_fields : string :=
  " 100 0 0 0 0 0 0 0 200 0 0 0 0 0 0 0" +:+ LFs.

(** Sixteen counters, all 0. *)
Definition zero_fields : string :=
  " 0 0 0 0 0 0 0 0 0 0 0 0 0 0 0 0" +:+ LFs.

(** The sample table of the specification. *)
Definition sample_table : string :=
  table "Inter-|  Receive..." " face |bytes ..." ("  eth0:" +:+ eth0_fields).

(** A host that has the statistics table [content] and nothing else. *)
Definition table_host (content : string) : host := {|
  sys_platform := "linux";
  netifaces_interfaces := Ok [];
  netifaces_ifaddresses := fun _ => Ok ∅;
  socket_socket := Done tt;
  fcntl_ioctl := fun _ => Errno "[Errno 19] No such device";
  fs := fun path =>
          if bool_decide (path = "/proc/net/dev") then Text content else Absent
|}.

(** A Linux host with two interfaces and no statistics table. *)
Definition bare_host : host := {|
  sys_platform := "linux";
  netifaces_interfaces := Ok ["lo"; "eth0"];
  netifaces_ifaddresses := fun _ => Ok ∅;
  socket_socket := Done tt;
  fcntl_ioctl := fun _ => Errno "[Errno 19] No such device";
  fs := fun _ => Absent
|}.

(** A host on which the device-control query fails for every interface;
    [sysfs] gives the MTU node of eth0. *)
Definition no_ioctl_host (sysfs : file) : host := {|
  sys_platform := "linux";
  netifaces_interfaces := Ok ["eth0"];
  netifaces_ifaddresses := fun _ => Ok ∅;
  socket_socket := Done tt;
  fcntl_ioctl := fun _ => Errno "[Errno 1] Operation not permitted";
  fs := fun path =>
          if bool_decide (path = "/sys/class/net/eth0/mtu") then sysfs
          else Absent
|}.

(** A host whose first interface cannot be resolved and whose second one
    has no IPv4 entry. *)
Definition faulty_host : host := {|
  sys_platform := "linux";
  netifaces_interfaces := Ok ["tun0"; "eth0"];
  netifaces_ifaddresses := fun i =>
    if bool_decide (i = "tun0")
    then Raise (Exn ValueError "You must specify a valid interface name.")
    else Ok ∅;
  socket_socket := Done tt;
  fcntl_ioctl := fun _ => Errno "[Errno 19] No such device";
  fs := fun _ => Absent
|}.

(** The loopback interface of a Linux host, with the kernel's default MTU of
    65536. *)
Definition lo_host : host := {|
  sys_platform := "linux";
  netifaces_interfaces := Ok ["lo"];
  netifaces_ifaddresses := fun _ =>
    Ok {[ AF_INET := [ {[ "addr" := "127.0.0.1"; "netmask" := "255.0.0.0" ]} ] ]};
  socket_socket := Done tt;
  fcntl_ioctl :=
    linux_SIOCGIFMTU (fun name =>
      if bool_decide (Py.byte_val <$> name
                        = Py.byte_val <$> Py.pack_s 16 (Py.encode "lo"))
      then Some 65536 else None);
  fs := fun _ => Absent
|}.

(** [if_v4.py] configured with the filter [{"eth0"}]. *)
Definition config_eth0 : If_v4.Config := {|
  If_v4.FILTER_INTERFACES := Some {[ "eth0" ]};
  If_v4.COLOR_OUTPUT := true;
  If_v4.BYTE_UNITS := ["B"; "KiB"; "MiB"; "GiB"; "TiB"];
  If_v4.PROC_NET_DEV := "/proc/net/dev";
  If_v4.SYSFS_NET_PATH := "/sys/class/net"
|}.

(** A host with wlan0 and eth0, both in the enumeration and in the
    statistics table. *)
Definition two_interfaces_host : host := {|
  sys_platform := "linux";
  netifaces_interfaces := Ok ["wlan0"; "eth0"];
  netifaces_ifaddresses := fun _ => Ok ∅;
  socket_socket := Done tt;
  fcntl_ioctl := fun _ => Errno "[Errno 19] No such device";
  fs := fun path =>
          if bool_decide (path = "/proc/net/dev")
          then Text (table "Inter-|  Receive..." " face |bytes ..."
                           (" wlan0:" +:+ eth0_fields +:+ "  eth0:" +:+ eth0_fields))
          else Absent
|}.

(** ** Further vocabulary *)

(** The two exceptions the traffic loops meet. *)
Definition overflow : exn := Exn OverflowError "int too large to convert to float".
Definition out_of_range : exn := Exn IndexError "list index out of range".

(** A character that is not white space. *)
Definition nonspace (c : ascii) : bool := negb (Py.isspace c).

(** A well-formed data line of the table. *)
Definition well_formed (line : string) : Prop :=
  exists name fields rx tx,
    line = name +:+ ":" +:+ fields /\ data_line name fields rx tx.

(** The integers [float] accepts. *)
Definition float_range (n : Z) : Prop := Z.abs n < 2 ^ 1024 - 2 ^ 970.

(** A line at which no traffic loop ends: a blank line, or a well-formed
    data line whose two counters [float] accepts. *)
Definition passable (line : string) : Prop :=
  Py.is_empty (Py.strip line) = true \/
  exists name fields rx tx,
    line = name +:+ ":" +:+ fields /\ data_line name fields rx tx /\
    float_range rx /\ float_range tx.

(** ** Further sample hosts and configurations *)

(** A data line whose receive counter is [2^1024]. *)
Definition oversize_line : string :=
  " wlan0: " +:+ Py.str (2 ^ 1024) +:+ " 0 0 0 0 0 0 0 0 0 0 0 0 0 0 0" +:+ LFs.

(** A Linux host whose interfaces cannot be enumerated and which has no
    statistics table. *)
Definition no_enumeration_host : host := {|
  sys_platform := "linux";
  netifaces_interfaces := Raise (Exn OSError "[Errno 24] Too many open files");
  netifaces_ifaddresses := fun _ => Ok ∅;
  socket_socket := Done tt;
  fcntl_ioctl := fun _ => Errno "[Errno 19] No such device";
  fs := fun _ => Absent
|}.

(** A host whose statistics table exists and may not be read. *)
Definition locked_table_host : host := {|
  sys_platform := "linux";
  netifaces_interfaces := Ok [];
  netifaces_ifaddresses := fun _ => Ok ∅;
  socket_socket := Done tt;
  fcntl_ioctl := fun _ => Errno "[Errno 19] No such device";
  fs := fun _ => Unreadable "[Errno 13] Permission denied: '/proc/net/dev'"
|}.

(** A host whose loopback has no IPv4 entry and whose eth0 has one, the
    MTU query failing for every interface. *)
Definition no_device_host : host := {|
  sys_platform := "linux";
  netifaces_interfaces := Ok ["lo"; "eth0"];
  netifaces_ifaddresses := fun i =>
    if bool_decide (i = "lo") then Ok ∅
    else Ok {[ AF_INET := [ {[ "addr" := "10.0.0.2";
                               "netmask" := "255.255.255.0";
                               "broadcast" := "10.0.0.255" ]} ] ]};
  socket_socket := Done tt;
  fcntl_ioctl := fun _ => Errno "[Errno 19] No such device";
  fs := fun _ => Absent
|}.

(** [if_v4.py] configured with an empty filter set and without colours. *)
Definition config_empty_filter : If_v4.Config := {|
  If_v4.FILTER_INTERFACES := Some ∅;
  If_v4.COLOR_OUTPUT := false;
  If_v4.BYTE_UNITS := ["B"; "KiB"; "MiB"; "GiB"; "TiB"];
  If_v4.PROC_NET_DEV := "/proc/net/dev";
  If_v4.SYSFS_NET_PATH := "/sys/class/net"
|}.

(** [if_v4.py] configured with an empty unit ladder. *)
Definition config_no_units : If_v4.Config := {|
  If_v4.FILTER_INTERFACES := None;
  If_v4.COLOR_OUTPUT := true;
  If_v4.BYTE_UNITS := [];
  If_v4.PROC_NET_DEV := "/proc/net/dev";
  If_v4.SYSFS_NET_PATH := "/sys/class/net"
|}.

(** A Linux host with one configured interface, eth0, of MTU 1500. *)
Definition eth0_host : host := {|
  sys_platform := "linux";
  netifaces_interfaces := Ok ["eth0"];
  netifaces_ifaddresses := fun _ =>
    Ok {[ AF_INET := [ {[ "addr" := "10.0.0.2";
                          "netmask" := "255.255.255.0";
                          "broadcast" := "10.0.0.255" ]} ] ]};
  socket_socket := Done tt;
  fcntl_ioctl :=
    linux_SIOCGIFMTU (fun name =>
      if bool_decide (Py.byte_val <$> name
                        = Py.byte_val <$> Py.pack_s 16 (Py.encode "eth0"))
      then Some 1500 else None);
  fs := fun _ => Absent
|}.

(** * Properties *)

(** ** Strings *)

Lemma app_nil_str (s : string) : "" +:+ s = s.
Proof. reflexivity. Qed.

Lemma app_cons_str c (s t : string) : String c s +:+ t = String c (s +:+ t).
Proof. reflexivity. Qed.

Lemma app_assoc_str (s t u : string) : (s +:+ t) +:+ u = s +:+ (t +:+ u).
Proof.
  induction s as [|c s IH]; [done|].
  by rewrite !app_cons_str, IH.
Qed.

Lemma all_chars_app p s t :
  all_chars p (s +:+ t) = all_chars p s && all_chars p t.
Proof.
  induction s as [|c s IH]; [done|].
  rewrite app_cons_str. simpl. rewrite IH. by destruct (p c).
Qed.

Lemma uint_digits d : all_chars Py.isdigit (NilEmpty.string_of_uint d) = true.
Proof. induction d; simpl; try done; by rewrite IHd. Qed.

Lemma str_digits n :
  0 <= n -> all_chars Py.isdigit (Py.str n) = true /\ Py.str n <> "".
Proof.
  intros Hn. unfold Py.str.
  destruct n as [|p|p]; [by split | | lia].
  simpl. destruct (Pos.to_uint p) eqn:E; simpl; split; try done;
    try (rewrite <- E; apply uint_digits || (intros ->; discriminate));
    apply uint_digits.
Qed.

Lemma str_one_digit d :
  0 <= d < 10 -> exists c, Py.str d = String c "" /\ Py.isdigit c = true.
Proof.
  intros Hd.
  assert (d = 0 \/ d = 1 \/ d = 2 \/ d = 3 \/ d = 4 \/ d = 5 \/ d = 6 \/
          d = 7 \/ d = 8 \/ d = 9) as Hc by lia.
  repeat destruct Hc as [-> | Hc]; try subst d; eexists; split; reflexivity.
Qed.

(** ** The byte formatter *)

(** Rounding to 53 bits never gains more than one binade. *)
Lemma round_shift_le a sh :
  0 <= a -> 0 < sh -> a < 2 ^ (53 + sh) -> Py.round_shift a sh <= 2 ^ (53 + sh).
Proof.
  intros Ha Hsh Hlt. unfold Py.round_shift.
  destruct (Z.leb_spec sh 0) as [?|_]; [lia|].
  rewrite Z.shiftr_div_pow2, !Z.shiftl_mul_pow2 by lia.
  assert (0 < 2 ^ sh) as HP by (apply Z.pow_pos_nonneg; lia).
  assert (a / 2 ^ sh < 2 ^ 53) as Hq.
  { apply Z.div_lt_upper_bound; [lia|]. by rewrite <- Z.pow_add_r, (Z.add_comm sh) by lia. }
  rewrite (Z.pow_add_r 2 53 sh) by lia.
  destruct (_ || _); nia.
Qed.

(** [float] accepts every integer below [2^1024 - 2^970], the midpoint
    between the largest binary64 value and [2^1024]. *)
Lemma round53_finite b :
  0 <= b < 2 ^ 1024 - 2 ^ 970 -> Py.round53 b < 2 ^ 1024.
Proof.
  intros [Hb0 Hb]. unfold Py.round53.
  destruct (Z.eq_dec b 0) as [->|Hnz]; [by vm_compute|].
  assert (0 < b) as Hpos by lia.
  destruct (Z.log2_spec b Hpos) as [Hlo Hhi].
  set (L := Z.log2 b) in *.
  assert (0 <= L) as HL by apply Z.log2_nonneg.
  assert (L < 1024) as HL'.
  { apply (Z.pow_lt_mono_r_iff 2); [lia..|]. 
    assert (0 < 2^970) by (apply Z.pow_pos_nonneg; lia). lia. }
  destruct (Z.le_gt_cases (L + 1 - 53) 0) as [Hsh|Hsh].
  { unfold Py.round_shift. destruct (Z.leb_spec (L + 1 - 53) 0); [|lia].
    assert (0 < 2^970) by (apply Z.pow_pos_nonneg; lia). lia. }
  destruct (Z.eq_dec L 1023) as [HL3|HL3].
  - rewrite HL3. change (1023 + 1 - 53) with 971.
    unfold Py.round_shift. change (971 <=? 0) with false. cbv iota.
    rewrite Z.shiftr_div_pow2, !Z.shiftl_mul_pow2 by lia.
    change (971 - 1) with 970. rewrite Z.mul_1_l.
    assert (2 ^ 1024 = 2 ^ 53 * 2 ^ 971) as E1 by (by rewrite <- Z.pow_add_r by lia).
    assert (2 ^ 971 = 2 * 2 ^ 970) as E2 by (by rewrite <- (Z.pow_succ_r 2 970) by lia).
    assert (0 < 2 ^ 970) as HP by (apply Z.pow_pos_nonneg; lia).
    set (P := 2 ^ 970) in *. rewrite E1, E2 in *. clearbody P.
    set (K := 2 ^ 53) in *. assert (2 <= K) by (by vm_compute). clearbody K.
    pose proof (Z.div_mod b (2 * P) ltac:(lia)) as Hdm.
    pose proof (Z.mod_pos_bound b (2 * P) ltac:(lia)) as Hm.
    set (q := b / (2 * P)) in *. clearbody q.
    assert (q < K) by nia.
    destruct (Z.ltb_spec P (b - q * (2 * P))) as [H1|H1]; simpl.
    + nia.
    + destruct (Z.eqb_spec (b - q * (2 * P)) P) as [H2|H2]; simpl.
      * destruct (Z.odd q); nia.
      * nia.
  - pose proof (round_shift_le b (L + 1 - 53) Hb0 Hsh) as Hr.
    replace (53 + (L + 1 - 53)) with (L + 1) in Hr by lia.
    specialize (Hr Hhi).
    assert (2 ^ (L + 1) <= 2 ^ 1023) by (apply Z.pow_le_mono_r; lia).
    assert (2 ^ 1023 < 2 ^ 1024) by (apply Z.pow_lt_mono_r; lia).
    lia.
Qed.

(** From the midpoint [2^1024 - 2^970] on, the nearest binary64 value is
    out of range. *)
Lemma round53_overflow b :
  2 ^ 1024 - 2 ^ 970 <= b -> 2 ^ 1024 <= Py.round53 b.
Proof.
  intros Hb.
  assert (0 < 2 ^ 970) as HP by (apply Z.pow_pos_nonneg; lia).
  assert (2 ^ 1024 = 2 ^ 53 * 2 ^ 971) as E1 by (by rewrite <- Z.pow_add_r by lia).
  assert (2 ^ 971 = 2 * 2 ^ 970) as E2 by (by rewrite <- (Z.pow_succ_r 2 970) by lia).
  assert (2 ^ 1023 = 2 ^ 52 * 2 ^ 971) as E3 by (by rewrite <- Z.pow_add_r by lia).
  assert (2 ^ 53 = 2 * 2 ^ 52) as E4 by (by vm_compute).
  assert (2 <= 2 ^ 52) as HK by (by vm_compute).
  assert (2 ^ 1023 <= b) as Hb' by nia.
  assert (0 < b) as Hpos by nia.
  destruct (Z.log2_spec b Hpos) as [Hlo Hhi].
  assert (1023 <= Z.log2 b) as HL by (apply Z.log2_le_pow2; lia).
  unfold Py.round53.
  remember (Z.log2 b) as L eqn:EL.
  destruct (Z.eq_dec L 1023) as [->|HL3].
  - (* the last binade: the quotient is [2^53 - 1], the rest at least a half *)
    change (1023 + 1 - 53) with 971. change (Z.succ 1023) with 1024 in Hhi.
    unfold Py.round_shift. change (971 <=? 0) with false. cbv iota.
    rewrite Z.shiftr_div_pow2, !Z.shiftl_mul_pow2 by lia.
    change (971 - 1) with 970. rewrite Z.mul_1_l.
    assert (Z.odd (2 ^ 53 - 1) = true) as Hodd by (by vm_compute).
    rewrite E1, E2 in *. clear E1 E2 E3 Hb' Hlo.
    set (P := 2 ^ 970) in *. clearbody P.
    set (K := 2 ^ 53) in *. clearbody K.
    pose proof (Z.div_mod b (2 * P) ltac:(lia)) as Hdm.
    pose proof (Z.mod_pos_bound b (2 * P) ltac:(lia)) as Hm.
    set (q := b / (2 * P)) in *. clearbody q.
    assert (q < K) by nia.
    assert (K - 2 < q) by nia.
    assert (q = K - 1) as -> by lia.
    destruct (Z.ltb_spec P (b - (K - 1) * (2 * P))) as [H1|H1]; simpl.
    + nia.
    + destruct (Z.eqb_spec (b - (K - 1) * (2 * P)) P) as [H2|H2]; simpl.
      * rewrite Hodd. nia.
      * nia.
  - unfold Py.round_shift.
    destruct (Z.leb_spec (L + 1 - 53) 0) as [?|_]; [lia|].
    rewrite Z.shiftr_div_pow2, !Z.shiftl_mul_pow2 by lia.
    assert (0 < 2 ^ (L + 1 - 53)) as HS by (apply Z.pow_pos_nonneg; lia).
    assert (2 ^ L = 2 ^ 52 * 2 ^ (L + 1 - 53)) as EL'
      by (rewrite <- Z.pow_add_r by lia; f_equal; lia).
    assert (2 ^ 1024 <= 2 ^ L) as Hbig by (apply Z.pow_le_mono_r; lia).
    pose proof (Z.div_mod b (2 ^ (L + 1 - 53)) ltac:(lia)) as Hdm.
    pose proof (Z.mod_pos_bound b (2 ^ (L + 1 - 53)) HS) as Hm.
    set (S := 2 ^ (L + 1 - 53)) in *. clearbody S.
    set (q := b / S) in *. clearbody q.
    assert (2 ^ 52 <= q) as Hq by nia.
    destruct (_ || _); nia.
Qed.

Lemma float_of_int_overflow b :
  2 ^ 1024 - 2 ^ 970 <= b ->
  Py.float_of_int b = Raise (Exn OverflowError "int too large to convert to float").
Proof.
  intros Hb. unfold Py.float_of_int.
  assert (0 < 2 ^ 970) as HP by (apply Z.pow_pos_nonneg; lia).
  assert (2 ^ 970 < 2 ^ 1024) by (apply Z.pow_lt_mono_r; lia).
  rewrite (Z.abs_eq b) by lia.
  pose proof (round53_overflow b Hb).
  destruct (Z.leb_spec (2 ^ 1024) (Py.round53 b)); [done | lia].
Qed.

Lemma scale_spec n x i x' i' :
  scale n x i = (x', i') ->
  Py.fnum x' = Py.fnum x /\ (i <= i' <= i + n)%nat.
Proof.
  revert x i. induction n as [|n IH]; intros x i; simpl.
  - intros [= <- <-]. split; [done|lia].
  - destruct (Py.float_ge x 1024).
    + intros H. apply IH in H as [H1 H2]. simpl in H1. split; [done|lia].
    + intros [= <- <-]. split; [done|lia].
Qed.

Lemma format_1f_shape x :
  0 <= Py.fnum x ->
  exists whole frac,
    Py.format_1f x = whole +:+ "." +:+ String frac "" /\
    whole <> "" /\ all_chars Py.isdigit whole = true /\ Py.isdigit frac = true.
Proof.
  intros Hx. unfold Py.format_1f.
  destruct (Z.ltb_spec (Py.fnum x) 0) as [?|_]; [lia|].
  rewrite app_nil_str.
  set (d := 2 ^ Py.fexp x). set (t := 10 * Z.abs (Py.fnum x)).
  assert (0 <= t / d) as Hq.
  { apply Z_div_nonneg_nonneg; [lia|]. apply Z.pow_nonneg; lia. }
  match goal with
  | |- context [if ?c then t / d + 1 else t / d] =>
      set (q' := if c then t / d + 1 else t / d)
  end.
  assert (0 <= q') as Hq' by (subst q'; destruct (orb _ _); lia).
  destruct (str_digits (q' / 10)) as [Hd Hne]; [apply Z.div_pos; lia|].
  destruct (str_one_digit (q' mod 10)) as (c & -> & Hc);
    [apply Z.mod_pos_bound; lia|].
  by exists (Py.str (q' / 10)), c.
Qed.

Lemma format_bytes_with_shape units b :
  units <> [] ->
  0 <= b < 2 ^ 1024 - 2 ^ 970 ->
  exists s, format_bytes_with units b = Ok s /\ size_string units s.
Proof.
  intros Hu Hb. unfold format_bytes_with, Py.float_of_int.
  rewrite (Z.abs_eq b) by lia.
  pose proof (round53_finite b Hb) as Hfin.
  destruct (Z.leb_spec (2 ^ 1024) (Py.round53 b)) as [?|_]; [lia|].
  cbn [rbind].
  destruct (scale _ _ _) as [x' i'] eqn:Hs.
  apply scale_spec in Hs as [Hnum Hi]. cbn [Py.fnum] in Hnum.
  assert (0 <= Py.fnum x') as Hx'.
  { rewrite Hnum. apply Z.mul_nonneg_nonneg; [lia|].
    unfold Py.round53, Py.round_shift.
    destruct (Z.leb _ 0); [lia|]. rewrite Z.shiftl_nonneg.
    pose proof (proj2 (Z.shiftr_nonneg b (Z.log2 b + 1 - 53)) (proj1 Hb)).
    destruct (_ || _); lia. }
  assert (i' < length units)%nat as Hlt by (destruct units; [done|simpl in *; lia]).
  apply lookup_lt_is_Some_2 in Hlt as [u Hu'].
  unfold index. rewrite Hu'. cbn [rbind].
  destruct (format_1f_shape x' Hx') as (whole & frac & -> & ? & ? & ?).
  eexists; split; [done|].
  exists whole, frac, u. rewrite !app_assoc_str.
  repeat split; try done. by eapply list_elem_of_lookup_2.
Qed.

Lemma format_bytes_with_overflow units b :
  2 ^ 1024 - 2 ^ 970 <= b ->
  format_bytes_with units b
    = Raise (Exn OverflowError "int too large to convert to float").
Proof.
  intros Hb. unfold format_bytes_with. by rewrite float_of_int_overflow.
Qed.

(** C1, counterexample: [float(2**1024)] raises [OverflowError], so
    [format_bytes] returns no string for the non-negative integer [2^1024],
    in [if_v4.py] and in [if_8.py] alike. *)
Lemma format_bytes_overflow :
  0 <= 2 ^ 1024 /\
  If_v4.format_bytes If_v4.config (2 ^ 1024)
    = Raise (Exn OverflowError "int too large to convert to float") /\
  If_8.format_bytes (2 ^ 1024)
    = Raise (Exn OverflowError "int too large to convert to float").
Proof. split; [done|]. split; by vm_compute. Qed.

(** C1, amended: for every non-negative integer [b] that [float] can hold
    (below [2^1024 - 2^970]), [format_bytes b] returns a number with exactly
    one fractional digit, a space and a unit of B, KiB, MiB, GiB, TiB, the
    same string in the three drafts; the six sample values of the
    specification come out as stated, the ladder stopping at TiB; and for
    every integer from [2^1024 - 2^970] on, [format_bytes] raises the
    [OverflowError] of [float] in the three drafts. *)
Theorem format_bytes_shape (b : Z) :
  0 <= b < 2 ^ 1024 - 2 ^ 970 ->
  (exists s,
      If_v4.format_bytes If_v4.config b = Ok s /\
      If_8.format_bytes b = Ok s /\
      If_8v2.format_bytes b = Ok s /\
      size_string ["B"; "KiB"; "MiB"; "GiB"; "TiB"] s) /\
  If_v4.format_bytes If_v4.config 0 = Ok "0.0 B" /\
  If_v4.format_bytes If_v4.config 1023 = Ok "1023.0 B" /\
  If_v4.format_bytes If_v4.config 1024 = Ok "1.0 KiB" /\
  If_v4.format_bytes If_v4.config 1536 = Ok "1.5 KiB" /\
  If_v4.format_bytes If_v4.config (1024 ^ 4) = Ok "1.0 TiB" /\
  If_v4.format_bytes If_v4.config (1024 ^ 5) = Ok "1024.0 TiB" /\
  (forall b' : Z,
      2 ^ 1024 - 2 ^ 970 <= b' ->
      If_v4.format_bytes If_v4.config b'
        = Raise (Exn OverflowError "int too large to convert to float") /\
      If_8.format_bytes b'
        = Raise (Exn OverflowError "int too large to convert to float") /\
      If_8v2.format_bytes b'
        = Raise (Exn OverflowError "int too large to convert to float")).
Proof.
  intros Hb. split.
  - destruct (format_bytes_with_shape ["B"; "KiB"; "MiB"; "GiB"; "TiB"] b)
      as (s & Hs & Hshape); [done..|].
    by exists s.
  - do 6 (split; [by vm_compute|]).
    intros b' Hb'. repeat split; by apply format_bytes_with_overflow.
Qed.

(** The formatter at 1536 bytes. *)
Lemma format_bytes_shape_witness :
  exists s,
    If_v4.format_bytes If_v4.config 1536 = Ok s /\
    size_string ["B"; "KiB"; "MiB"; "GiB"; "TiB"] s.
Proof.
  destruct (format_bytes_shape 1536) as [(s & H1 & _ & _ & H2) _].
  - split; [done|]. by vm_compute.
  - by exists s.
Defined.

(** The bound above is the least integer [float] refuses. *)
Example format_bytes_first_overflow :
  If_v4.format_bytes If_v4.config (2 ^ 1024 - 2 ^ 970)
    = Raise (Exn OverflowError "int too large to convert to float").
Proof. by vm_compute. Qed.

(** ** Splitting and stripping *)

Lemma split_at_cons p s : exists h t, Py.split_at p s = h :: t.
Proof.
  induction s as [|c s (h & t & IH)]; simpl; [by eauto|].
  destruct (p c); [by eauto|]. rewrite IH. by eauto.
Qed.

Lemma split_at_none p s :
  all_chars (fun c => negb (p c)) s = true -> Py.split_at p s = [s].
Proof.
  induction s as [|c s IH]; simpl; [done|].
  destruct (p c); simpl; [done|]. intros H. by rewrite IH.
Qed.

Lemma split_at_first p s c t :
  all_chars (fun c => negb (p c)) s = true -> p c = true ->
  Py.split_at p (s +:+ String c t) = s :: Py.split_at p t.
Proof.
  intros Hs Hc. induction s as [|a s IH].
  - rewrite app_nil_str. simpl. by rewrite Hc.
  - rewrite app_cons_str. simpl in *.
    destruct (p a); simpl in *; [done|]. by rewrite IH.
Qed.

(** A line [name:fields] with no other colon splits in two. *)
Lemma split_colon name fields :
  free_of ":" name = true -> free_of ":" fields = true ->
  Py.split ":" (name +:+ String ":" fields) = [name; fields].
Proof.
  intros Hn Hf. unfold Py.split.
  rewrite (split_at_first _ name ":" fields); [|done|by apply bool_decide_eq_true].
  by rewrite split_at_none.
Qed.

(** A line without a colon does not split. *)
Lemma split_no_colon line :
  free_of ":" line = true -> Py.split ":" line = [line].
Proof. apply split_at_none. Qed.

Lemma app_nil_r_str (s : string) : s +:+ "" = s.
Proof. induction s as [|c s IH]; [done|]. by rewrite app_cons_str, IH. Qed.

(** The first two pieces of a line with a colon: the name and the fields. *)
Lemma split_colon_more name fields more :
  free_of ":" name = true -> free_of ":" fields = true ->
  exists rest,
    Py.split ":" (name +:+ String ":" (fields +:+ beyond more))
      = name :: fields :: rest.
Proof.
  intros Hn Hf. unfold Py.split.
  rewrite (split_at_first _ name ":"); [|done|by apply bool_decide_eq_true].
  destruct more as [text|]; simpl beyond.
  - rewrite (app_cons_str ":" "" text), app_nil_str.
    rewrite (split_at_first _ fields ":"); [|done|by apply bool_decide_eq_true].
    by eexists.
  - rewrite app_nil_r_str, split_at_none by done. by eexists.
Qed.

Lemma rstrip_cons_nonspace c s :
  Py.isspace c = false -> Py.rstrip (String c s) = String c (Py.rstrip s).
Proof. intros H. simpl. by rewrite H. Qed.

Lemma rstrip_app_nonspace s c t :
  Py.isspace c = false ->
  Py.rstrip (s +:+ String c t) = s +:+ String c (Py.rstrip t).
Proof.
  intros Hc. induction s as [|a s IH].
  - rewrite !app_nil_str. by apply rstrip_cons_nonspace.
  - rewrite !app_cons_str. simpl. rewrite IH.
    destruct s; rewrite ?app_nil_str, ?app_cons_str; simpl; by rewrite andb_false_r.
Qed.

Lemma lstrip_app_nonspace s c t :
  Py.isspace c = false ->
  Py.lstrip (s +:+ String c t) = Py.lstrip s +:+ String c t.
Proof.
  intros Hc. induction s as [|a s IH].
  - rewrite !app_nil_str. simpl. by rewrite Hc.
  - rewrite !app_cons_str. simpl. by destruct (Py.isspace a).
Qed.

Lemma strip_app_nonspace s c t :
  Py.isspace c = false ->
  Py.strip (s +:+ String c t) = Py.lstrip s +:+ String c (Py.rstrip t).
Proof.
  intros Hc. unfold Py.strip.
  by rewrite rstrip_app_nonspace, lstrip_app_nonspace.
Qed.

Lemma lstrip_idem s : Py.lstrip (Py.lstrip s) = Py.lstrip s.
Proof.
  induction s as [|a s IH]; simpl; [done|].
  destruct (Py.isspace a) eqn:E; [done|]. simpl. by rewrite E.
Qed.

Lemma rstrip_lstrip s : Py.rstrip (Py.lstrip s) = Py.lstrip (Py.rstrip s).
Proof.
  induction s as [|a s IH]; [done|].
  cbn [Py.lstrip Py.rstrip].
  destruct (Py.isspace a) eqn:E.
  - rewrite IH. destruct (Py.rstrip s) eqn:Er; simpl; [done|]. by rewrite E.
  - cbn [andb]. cbn [Py.lstrip Py.rstrip]. by rewrite E.
Qed.

Lemma strip_lstrip s : Py.strip (Py.lstrip s) = Py.strip s.
Proof. unfold Py.strip. by rewrite rstrip_lstrip, lstrip_idem. Qed.

Lemma free_of_lstrip c s : free_of c s = true -> free_of c (Py.lstrip s) = true.
Proof.
  unfold free_of. induction s as [|a s IH]; simpl; [done|].
  destruct (Py.isspace a); [|done]. intros [_ H]%andb_prop. auto.
Qed.

Lemma free_of_rstrip c s : free_of c s = true -> free_of c (Py.rstrip s) = true.
Proof.
  unfold free_of. induction s as [|a s IH]; simpl; [done|].
  intros [Ha H]%andb_prop.
  destruct (_ && _); [done|]. simpl. by rewrite Ha, IH.
Qed.

(** Trailing white space adds empty pieces only. *)
Lemma split_at_rstrip s :
  match Py.split_at Py.isspace (Py.rstrip s), Py.split_at Py.isspace s with
  | h1 :: t1, h2 :: t2 => h1 = h2 /\ List.filter nonempty t1 = List.filter nonempty t2
  | _, _ => False
  end.
Proof.
  induction s as [|a s IH]; [done|].
  cbn [Py.rstrip]. set (r := Py.rstrip s) in *.
  destruct (Py.split_at Py.isspace r) as [|h1 t1] eqn:E1; [done|].
  destruct (Py.split_at Py.isspace s) as [|h2 t2] eqn:E2; [done|].
  destruct IH as [-> Ht].
  assert (forall x, Py.split_at Py.isspace (String a x) =
            if Py.isspace a then "" :: Py.split_at Py.isspace x
            else match Py.split_at Py.isspace x with
                 | [] => [String a ""]
                 | h :: t => String a h :: t
                 end) as Hcons by done.
  destruct (Py.isspace a) eqn:Ea; cbn [andb].
  - destruct (Py.is_empty r) eqn:Er.
    + destruct r; [|done]. simpl in E1. injection E1 as <- <-.
      rewrite Hcons, E2. split; [done|]. simpl. by rewrite <- Ht.
    + rewrite !Hcons, E1, E2. split; [done|]. simpl. by rewrite Ht.
  - by rewrite !Hcons, E1, E2.
Qed.

Lemma split_ws_rstrip s : Py.split_ws (Py.rstrip s) = Py.split_ws s.
Proof.
  unfold Py.split_ws. pose proof (split_at_rstrip s) as H.
  destruct (Py.split_at Py.isspace (Py.rstrip s)) as [|h1 t1]; [done|].
  destruct (Py.split_at Py.isspace s) as [|h2 t2]; [done|].
  destruct H as [-> Ht]. simpl. unfold nonempty in Ht. by rewrite Ht.
Qed.

(** A string with a character that is no white space does not strip to the
    empty string. *)
Lemma strip_nonempty s c t :
  Py.isspace c = false -> Py.is_empty (Py.strip (s +:+ String c t)) = false.
Proof.
  intros Hc. rewrite strip_app_nonspace by done.
  by destruct (Py.lstrip s).
Qed.

(** ** The printing monad *)

Lemma bind_ok {A B} (a : A) (k : A -> io B) : bind (lift (Ok a)) k = k a.
Proof. unfold bind, lift. by destruct (k a). Qed.

Lemma bind_ret {A B} (a : A) (k : A -> io B) : bind (ret a) k = k a.
Proof. apply bind_ok. Qed.

Lemma bind_raise {A B} e (k : A -> io B) : bind (lift (Raise e)) k = lift (Raise e).
Proof. done. Qed.


Lemma bind_assoc {A B C} (m : io A) (k : A -> io B) (k' : B -> io C) :
  bind (bind m k) k' = bind m (fun a => bind (k a) k').
Proof.
  destruct m as [out [a|e]]; simpl; [|done].
  destruct (k a) as [out1 [b|e]]; simpl; [|done].
  destruct (k' b) as [out2 r]. by rewrite app_assoc.
Qed.

Lemma for_each_app {A} (l1 l2 : list A) (f : A -> io unit) :
  for_each (l1 ++ l2) f = (for_each l1 f >> for_each l2 f).
Proof.
  induction l1 as [|x l1 IH].
  - symmetry. apply (bind_ret tt).
  - cbn [for_each app]. by rewrite IH, bind_assoc.
Qed.


(** ** One line of the statistics table *)

Lemma index_ok {A} (l : list A) i x : l !! i = Some x -> index l i = Ok x.
Proof. unfold index. by intros ->. Qed.

Lemma index_none {A} (l : list A) i :
  l !! i = None -> index l i = Raise (Exn IndexError "list index out of range").
Proof. unfold index. by intros ->. Qed.

Lemma int_of_ok s n : Py.int s = Some n -> int_of s = Ok n.
Proof. unfold int_of. by intros ->. Qed.

Lemma field_inv fields i n :
  field fields i = Some n ->
  exists t, Py.split_ws fields !! i = Some t /\ Py.int t = Some n.
Proof.
  unfold field. destruct (Py.split_ws fields !! i) as [t|]; [|done].
  simpl. by eauto.
Qed.

Lemma try_except_ret {A} (a : A) cs h : try_except (ret a) cs h = ret a.
Proof. done. Qed.

Lemma colon_nonspace : Py.isspace ":" = false.
Proof. done. Qed.

Lemma traffic_line_8v2 name fields rx tx :
  data_line name fields rx tx ->
  If_8v2.traffic_line (name +:+ ":" +:+ fields)
    = If_8v2.report (Py.strip name) rx tx.
Proof.
  intros [Hn Hf (t0 & H0 & Hrx)%field_inv (t8 & H8 & Htx)%field_inv].
  unfold If_8v2.traffic_line. rewrite (app_cons_str ":" "" fields), app_nil_str.
  rewrite (strip_nonempty name ":" fields colon_nonspace).
  rewrite (split_colon name fields) by done.
  change (length [name; fields] <? 2)%nat with false. cbv iota.
  rewrite (index_ok _ 0 name), bind_ok by done.
  rewrite (index_ok _ 1 fields), bind_ok by done.
  assert ((length (Py.split_ws fields) <? 9)%nat = false) as ->.
  { apply Nat.ltb_ge. apply lookup_lt_Some in H8. lia. }
  rewrite (index_ok _ _ _ H0), bind_ok, (int_of_ok _ _ Hrx), bind_ok.
  rewrite (index_ok _ _ _ H8). rewrite bind_ok, (int_of_ok _ _ Htx), bind_ok.
  by rewrite try_except_ret, bind_ret.
Qed.

Lemma traffic_line_v4 cfg col name fields rx tx :
  data_line name fields rx tx ->
  If_v4.traffic_line cfg col (Py.strip (name +:+ ":" +:+ fields))
    = if If_v4.filtered_out cfg (Py.strip name) then ret tt
      else try_except
             (If_v4.report cfg col
                {| If_v4.name := Py.strip name;
                   If_v4.rx_bytes := rx; If_v4.tx_bytes := tx |})
             [IndexError; ValueError] (fun _ => ret tt).
Proof.
  intros [Hn Hf (t0 & H0 & Hrx)%field_inv (t8 & H8 & Htx)%field_inv].
  unfold If_v4.traffic_line. rewrite (app_cons_str ":" "" fields), app_nil_str.
  rewrite (strip_app_nonspace name ":" fields colon_nonspace).
  rewrite (split_colon (Py.lstrip name) (Py.rstrip fields))
    by auto using free_of_lstrip, free_of_rstrip.
  rewrite (index_ok _ 0 (Py.lstrip name)), bind_ok by done.
  rewrite (index_ok _ 1 (Py.rstrip fields)), bind_ok by done.
  rewrite strip_lstrip, split_ws_rstrip.
  destruct (If_v4.filtered_out cfg (Py.strip name)); [done|].
  rewrite (index_ok _ _ _ H0), bind_ok, (int_of_ok _ _ Hrx), bind_ok.
  rewrite (index_ok _ _ _ H8), bind_ok, (int_of_ok _ _ Htx), bind_ok.
  done.
Qed.

(** ** The traffic pipeline *)

(** With the table in place, [display_traffic_stats] is its loop over the
    lines that follow the first two. *)
Lemma display_traffic_stats_8v2_lines h content :
  fs h "/proc/net/dev" = Text content ->
  If_8v2.display_traffic_stats h
    = try_except_Exception
        (print (If_8v2.GREY_COLOR +:+ If_8v2.NEWLINE +:+ "Traffic Statistics:"
                  +:+ If_8v2.RESET_COLOR) >>
         for_each (drop 2 (Py.readlines content)) If_8v2.traffic_line)
        (fun e => print ("Error reading traffic stats: " +:+ exn_str e)).
Proof.
  intros Hfs.
  unfold If_8v2.display_traffic_stats, path_exists, open_and.
  rewrite Hfs. cbn [negb]. cbv iota. by rewrite bind_ok.
Qed.

Lemma display_traffic_stats_v4_lines cfg col h content :
  fs h (If_v4.PROC_NET_DEV cfg) = Text content ->
  If_v4.display_traffic_stats cfg col h
    = try_except_Exception
        (print (If_v4.GREY col +:+ If_v4.NEWLINE +:+ "Traffic Statistics:"
                  +:+ If_v4.RESET col) >>
         for_each (If_v4.stripped (drop 2 (Py.readlines content)))
                  (If_v4.traffic_line cfg col))
        (fun e => print (If_v4.RED col +:+ "Error reading stats: " +:+ exn_str e
                           +:+ If_v4.RESET col)).
Proof.
  intros Hfs.
  unfold If_v4.display_traffic_stats, path_exists, open_and.
  rewrite Hfs. cbn [negb]. cbv iota. by rewrite bind_ok.
Qed.

Lemma stripped_app l1 l2 :
  If_v4.stripped (l1 ++ l2) = If_v4.stripped l1 ++ If_v4.stripped l2.
Proof. unfold If_v4.stripped. by rewrite List.filter_app, fmap_app. Qed.

(** A line with a colon is not blank: the comprehension keeps it,
    stripped. *)
Lemma stripped_cons_colon name fields l :
  If_v4.stripped ((name +:+ ":" +:+ fields) :: l)
    = Py.strip (name +:+ ":" +:+ fields) :: If_v4.stripped l.
Proof.
  unfold If_v4.stripped. simpl.
  rewrite (app_cons_str ":" "" fields), app_nil_str.
  by rewrite (strip_nonempty name ":" fields colon_nonspace).
Qed.

(** ** Zero counters *)

(** C3, counterexample: [if_v4.py] has no "No traffic" marker; it prints
    every counter through [format_bytes], so a counter of 0 shows as
    "0.0 B". *)
Lemma v4_zero_counter_formatted :
  If_v4.display_traffic_stats If_v4.config If_v4.Colors_initial
    (table_host (table "Inter-|  Receive..." " face |bytes ..."
                       ("  eth0:" +:+ zero_fields)))
  = ([ESC +:+ "[38;5;250m" +:+ If_v4.NEWLINE +:+ "Traffic Statistics:"
        +:+ ESC +:+ "[0m";
      ESC +:+ "[38;5;130m" +:+ "  eth0:" +:+ ESC +:+ "[0m";
      "    RX: " +:+ ESC +:+ "[38;5;250m" +:+ "0.0 B" +:+ ESC +:+ "[0m";
      "    TX: " +:+ ESC +:+ "[38;5;250m" +:+ "0.0 B" +:+ ESC +:+ "[0m"],
     Ok tt).
Proof. by vm_compute. Qed.

Lemma report_8v2 iface rx tx srx stx :
  If_8v2.format_bytes rx = Ok srx -> If_8v2.format_bytes tx = Ok stx ->
  If_8v2.report iface rx tx
    = ([If_8v2.SEP_COLOR +:+ "  " +:+ iface +:+ ":" +:+ If_8v2.RESET_COLOR;
        "    RX: "
          +:+ (if rx =? 0 then If_8v2.GREY_COLOR +:+ "No traffic"
               else If_8v2.GREY_COLOR +:+ srx)
          +:+ If_8v2.RESET_COLOR;
        "    TX: "
          +:+ (if tx =? 0 then If_8v2.GREY_COLOR +:+ "No traffic"
               else If_8v2.GREY_COLOR +:+ stx)
          +:+ If_8v2.RESET_COLOR],
       Ok tt).
Proof. unfold If_8v2.report. intros -> ->. by rewrite !bind_ok. Qed.

Lemma report_v4 cfg col t srx stx :
  If_v4.format_bytes cfg (If_v4.rx_bytes t) = Ok srx ->
  If_v4.format_bytes cfg (If_v4.tx_bytes t) = Ok stx ->
  If_v4.report cfg col t
    = ([If_v4.SEPIA col +:+ "  " +:+ If_v4.name t +:+ ":" +:+ If_v4.RESET col;
        "    RX: " +:+ If_v4.GREY col +:+ srx +:+ If_v4.RESET col;
        "    TX: " +:+ If_v4.GREY col +:+ stx +:+ If_v4.RESET col],
       Ok tt).
Proof.
  unfold If_v4.report, If_v4.rx_human, If_v4.tx_human. intros -> ->. done.
Qed.

(** C3, amended: in [if_8v2.py], for every entry of the statistics table, a
    receive or transmit counter that is exactly 0 is printed as the marker
    "No traffic", never as "0.0 B", and any other counter as its formatted
    size.  [if_v4.py] prints the formatted size in every case, which for a
    counter of 0 is "0.0 B". *)
Theorem no_traffic_marker (name fields : string) (rx tx : Z) (srx stx : string) :
  data_line name fields rx tx ->
  If_8v2.format_bytes rx = Ok srx ->
  If_8v2.format_bytes tx = Ok stx ->
  (exists rx_line tx_line,
      If_8v2.traffic_line (name +:+ ":" +:+ fields)
        = ([If_8v2.SEP_COLOR +:+ "  " +:+ Py.strip name +:+ ":"
              +:+ If_8v2.RESET_COLOR; rx_line; tx_line], Ok tt) /\
      (rx = 0 ->
       rx_line = "    RX: " +:+ If_8v2.GREY_COLOR +:+ "No traffic"
                   +:+ If_8v2.RESET_COLOR /\
       rx_line <> "    RX: " +:+ If_8v2.GREY_COLOR +:+ "0.0 B"
                    +:+ If_8v2.RESET_COLOR) /\
      (tx = 0 ->
       tx_line = "    TX: " +:+ If_8v2.GREY_COLOR +:+ "No traffic"
                   +:+ If_8v2.RESET_COLOR /\
       tx_line <> "    TX: " +:+ If_8v2.GREY_COLOR +:+ "0.0 B"
                    +:+ If_8v2.RESET_COLOR) /\
      (rx <> 0 ->
       rx_line = "    RX: " +:+ If_8v2.GREY_COLOR +:+ srx +:+ If_8v2.RESET_COLOR) /\
      (tx <> 0 ->
       tx_line = "    TX: " +:+ If_8v2.GREY_COLOR +:+ stx +:+ If_8v2.RESET_COLOR)) /\
  (forall col,
      If_v4.filtered_out If_v4.config (Py.strip name) = false ->
      If_v4.traffic_line If_v4.config col (Py.strip (name +:+ ":" +:+ fields))
        = ([If_v4.SEPIA col +:+ "  " +:+ Py.strip name +:+ ":" +:+ If_v4.RESET col;
            "    RX: " +:+ If_v4.GREY col +:+ srx +:+ If_v4.RESET col;
            "    TX: " +:+ If_v4.GREY col +:+ stx +:+ If_v4.RESET col], Ok tt) /\
      (rx = 0 -> srx = "0.0 B") /\ (tx = 0 -> stx = "0.0 B")).
Proof.
  intros Hline Hrx Htx. split.
  - rewrite (traffic_line_8v2 name fields rx tx Hline).
    rewrite (report_8v2 _ rx tx srx stx Hrx Htx).
    eexists _, _. split; [done|].
    split; [|split; [|split]].
    + intros ->. split; [done|]. intros H. by vm_compute in H.
    + intros ->. split; [done|]. intros H. by vm_compute in H.
    + intros H%Z.eqb_neq. by rewrite H.
    + intros H%Z.eqb_neq. by rewrite H.
  - intros col Hf.
    rewrite (traffic_line_v4 _ col name fields rx tx Hline), Hf.
    rewrite (report_v4 _ col _ srx stx) by done.
    split; [done|].
    split; intros ->; [vm_compute in Hrx | vm_compute in Htx]; congruence.
Qed.

(** A line with nothing received and 1536 bytes sent. *)
Lemma no_traffic_marker_witness :
  If_8v2.traffic_line ("  eth0" +:+ ":" +:+ " 0 0 0 0 0 0 0 0 1536 0 0 0 0 0 0 0")
    = ([If_8v2.SEP_COLOR +:+ "  eth0:" +:+ If_8v2.RESET_COLOR;
        "    RX: " +:+ If_8v2.GREY_COLOR +:+ "No traffic" +:+ If_8v2.RESET_COLOR;
        "    TX: " +:+ If_8v2.GREY_COLOR +:+ "1.5 KiB" +:+ If_8v2.RESET_COLOR],
       Ok tt).
Proof.
  destruct (no_traffic_marker "  eth0" " 0 0 0 0 0 0 0 0 1536 0 0 0 0 0 0 0"
              0 1536 "0.0 B" "1.5 KiB")
    as [(rxl & txl & H & Hrx & _ & _ & Htx) _];
    [by split | by vm_compute | by vm_compute |].
  destruct (Hrx eq_refl) as [-> _]. rewrite Htx in H by done.
  rewrite H. by vm_compute.
Defined.

(** ** Malformed lines *)

Lemma int_of_none s :
  Py.int s = None -> exists msg, int_of s = Raise (Exn ValueError msg).
Proof. unfold int_of. intros ->. by eauto. Qed.

(** A turn of the loop of [if_8v2.py] skips the line, silently or with the
    diagnostic, or reports an entry: parsing a line never raises. *)
Lemma traffic_line_8v2_cases line :
  If_8v2.traffic_line line = ([], Ok tt) \/
  If_8v2.traffic_line line
    = (["Skipping invalid stats for interface: " +:+ name_of line], Ok tt) \/
  exists rx tx, If_8v2.traffic_line line = If_8v2.report (name_of line) rx tx.
Proof.
  unfold If_8v2.traffic_line, name_of.
  destruct (Py.is_empty (Py.strip line)); [by left|].
  destruct (split_at_cons (fun c => bool_decide (c = ":"%char)) line)
    as (part0 & parts & Hsp).
  unfold Py.split. rewrite Hsp.
  destruct parts as [|part1 parts]; [by left|].
  change (length (part0 :: part1 :: parts) <? 2)%nat with false. cbv iota.
  rewrite (index_ok _ 0 part0), bind_ok by done.
  rewrite (index_ok _ 1 part1), bind_ok by done.
  destruct (Nat.ltb_spec (length (Py.split_ws part1)) 9) as [Hlen|Hlen];
    [by left|].
  destruct (lookup_lt_is_Some_2 (Py.split_ws part1) 0) as [t0 H0]; [lia|].
  destruct (lookup_lt_is_Some_2 (Py.split_ws part1) 8) as [t8 H8]; [lia|].
  rewrite (index_ok _ _ _ H0), bind_ok.
  destruct (Py.int t0) as [rx|] eqn:Hrx.
  - rewrite (int_of_ok _ _ Hrx), bind_ok, (index_ok _ _ _ H8), bind_ok.
    destruct (Py.int t8) as [tx|] eqn:Htx.
    + rewrite (int_of_ok _ _ Htx), bind_ok, try_except_ret, bind_ret.
      right. right. by exists rx, tx.
    + destruct (int_of_none _ Htx) as [msg ->]. right. by left.
  - destruct (int_of_none _ Hrx) as [msg ->]. right. by left.
Qed.

(** Trimming a line with a colon trims its name on the left and, on the
    right, its fields or what follows them; the tokens of the fields stay. *)
Lemma strip_colon_more name fields more :
  free_of ":" fields = true ->
  exists fields' more',
    Py.strip (name +:+ ":" +:+ fields +:+ beyond more)
      = Py.lstrip name +:+ String ":" (fields' +:+ beyond more') /\
    free_of ":" fields' = true /\
    Py.split_ws fields' = Py.split_ws fields.
Proof.
  intros Hf.
  rewrite (app_cons_str ":" "" (fields +:+ beyond more)), app_nil_str.
  rewrite (strip_app_nonspace name ":" _ colon_nonspace).
  destruct more as [text|]; simpl beyond.
  - rewrite (app_cons_str ":" "" text), app_nil_str.
    rewrite (rstrip_app_nonspace fields ":" text colon_nonspace).
    exists fields, (Some (Py.rstrip text)). simpl beyond.
    by rewrite (app_cons_str ":" "" (Py.rstrip text)), app_nil_str.
  - rewrite app_nil_r_str. exists (Py.rstrip fields), None. simpl beyond.
    rewrite app_nil_r_str. split; [done|].
    split; [by apply free_of_rstrip | by rewrite split_ws_rstrip].
Qed.

Lemma malformed_8v2 k line :
  malformed k line -> If_8v2.traffic_line line = (diagnostic k line, Ok tt).
Proof.
  destruct 1 as [line Hl | name fields more Hn Hf Hlen
                 | name fields more Hn Hf Hlen Hnum].
  - unfold If_8v2.traffic_line.
    destruct (Py.is_empty (Py.strip line)); [done|].
    by rewrite split_no_colon.
  - unfold If_8v2.traffic_line.
    rewrite (app_cons_str ":" "" (fields +:+ beyond more)), app_nil_str.
    rewrite (strip_nonempty name ":" _ colon_nonspace).
    destruct (split_colon_more name fields more Hn Hf) as [rest ->].
    change (length (name :: fields :: rest) <? 2)%nat with false. cbv iota.
    rewrite (index_ok _ 0 name), bind_ok by done.
    rewrite (index_ok _ 1 fields), bind_ok by done.
    by apply Nat.ltb_lt in Hlen as ->.
  - unfold diagnostic, name_of, If_8v2.traffic_line.
    rewrite (app_cons_str ":" "" (fields +:+ beyond more)), app_nil_str.
    rewrite (strip_nonempty name ":" _ colon_nonspace).
    destruct (split_colon_more name fields more Hn Hf) as [rest ->].
    change (length (name :: fields :: rest) <? 2)%nat with false. cbv iota.
    rewrite (index_ok _ 0 name), bind_ok by done.
    rewrite (index_ok _ 1 fields), bind_ok by done.
    apply Nat.ltb_ge in Hlen as Hlen'. rewrite Hlen'.
    destruct (lookup_lt_is_Some_2 (Py.split_ws fields) 0) as [t0 H0]; [lia|].
    destruct (lookup_lt_is_Some_2 (Py.split_ws fields) 8) as [t8 H8]; [lia|].
    unfold field in Hnum. rewrite H0, H8 in Hnum. simpl in Hnum.
    rewrite (index_ok _ _ _ H0), bind_ok.
    destruct (Py.int t0) as [rx|] eqn:Hrx.
    + destruct Hnum as [?|Htx]; [done|].
      rewrite (int_of_ok _ _ Hrx), bind_ok, (index_ok _ _ _ H8), bind_ok.
      destruct (int_of_none _ Htx) as [msg ->]. done.
    + destruct (int_of_none _ Hrx) as [msg ->]. done.
Qed.

Lemma malformed_v4 k line cfg col :
  malformed k line -> k <> NoColon ->
  If_v4.traffic_line cfg col (Py.strip line) = ([], Ok tt).
Proof.
  destruct 1 as [line Hl | name fields more Hn Hf Hlen
                 | name fields more Hn Hf Hlen Hnum];
    intros Hk; [done| |].
  - unfold If_v4.traffic_line.
    destruct (strip_colon_more name fields more Hf)
      as (fields' & more' & -> & Hf' & Hws).
    destruct (split_colon_more (Py.lstrip name) fields' more'
                (free_of_lstrip _ _ Hn) Hf') as [rest ->].
    rewrite (index_ok _ 0 (Py.lstrip name)), bind_ok by done.
    rewrite (index_ok _ 1 fields'), bind_ok by done.
    rewrite strip_lstrip, Hws.
    destruct (If_v4.filtered_out cfg (Py.strip name)); [done|].
    rewrite (index_none _ 8) by (apply lookup_ge_None; lia).
    destruct (Py.split_ws fields !! 0%nat) as [t0|] eqn:H0.
    + rewrite (index_ok _ _ _ H0), bind_ok.
      destruct (Py.int t0) as [rx|] eqn:Hrx.
      * by rewrite (int_of_ok _ _ Hrx), bind_ok.
      * by destruct (int_of_none _ Hrx) as [msg ->].
    + by rewrite (index_none _ _ H0).
  - unfold If_v4.traffic_line.
    destruct (strip_colon_more name fields more Hf)
      as (fields' & more' & -> & Hf' & Hws).
    destruct (split_colon_more (Py.lstrip name) fields' more'
                (free_of_lstrip _ _ Hn) Hf') as [rest ->].
    rewrite (index_ok _ 0 (Py.lstrip name)), bind_ok by done.
    rewrite (index_ok _ 1 fields'), bind_ok by done.
    rewrite strip_lstrip, Hws.
    destruct (If_v4.filtered_out cfg (Py.strip name)); [done|].
    destruct (lookup_lt_is_Some_2 (Py.split_ws fields) 0) as [t0 H0]; [lia|].
    destruct (lookup_lt_is_Some_2 (Py.split_ws fields) 8) as [t8 H8]; [lia|].
    unfold field in Hnum. rewrite H0, H8 in Hnum. simpl in Hnum.
    rewrite (index_ok _ _ _ H0), bind_ok.
    destruct (Py.int t0) as [rx|] eqn:Hrx.
    + destruct Hnum as [?|Htx]; [done|].
      rewrite (int_of_ok _ _ Hrx), bind_ok, (index_ok _ _ _ H8), bind_ok.
      by destruct (int_of_none _ Htx) as [msg ->].
    + by destruct (int_of_none _ Hrx) as [msg ->].
Qed.

Lemma malformed_has_colon k line :
  malformed k line -> k <> NoColon ->
  forall l, If_v4.stripped (line :: l) = Py.strip line :: If_v4.stripped l.
Proof.
  destruct 1; intros Hk l; [done| |];
    apply (stripped_cons_colon name (fields +:+ beyond more)).
Qed.

(** C4, counterexample: [if_8v2.py] skips a line with five fields without any
    diagnostic; in [if_v4.py] a line without a colon ends the whole traffic
    report: the valid eth0 line after it is never printed; and a line whose
    token 8 after the first colon, [2:00], is no numeral is not skipped by
    either draft: the line is cut at every colon, the counters are read
    before the second colon, and an entry with 2 bytes sent is printed. *)
Lemma malformed_line_counterexample :
  malformed TooFewFields ("  lo" +:+ ":" +:+ " 1 2 3 4 5") /\
  If_8v2.traffic_line ("  lo" +:+ ":" +:+ " 1 2 3 4 5") = ([], Ok tt) /\
  malformed NoColon ("no colon here" +:+ LFs) /\
  If_v4.display_traffic_stats If_v4.config If_v4.Colors_initial
    (table_host (table "Inter-|  Receive..." " face |bytes ..."
                       ("no colon here" +:+ LFs +:+ "  eth0:" +:+ eth0_fields)))
  = ([ESC +:+ "[38;5;250m" +:+ If_v4.NEWLINE +:+ "Traffic Statistics:"
        +:+ ESC +:+ "[0m";
      ESC +:+ "[31m" +:+ "Error reading stats: list index out of range"
        +:+ ESC +:+ "[0m"],
     Ok tt) /\
  field " 100 0 0 0 0 0 0 0 2:00 0 0 0 0 0 0 0" 8 = None /\
  If_8v2.traffic_line "  eth0: 100 0 0 0 0 0 0 0 2:00 0 0 0 0 0 0 0"
  = ([If_8v2.SEP_COLOR +:+ "  eth0:" +:+ If_8v2.RESET_COLOR;
      "    RX: " +:+ If_8v2.GREY_COLOR +:+ "100.0 B" +:+ If_8v2.RESET_COLOR;
      "    TX: " +:+ If_8v2.GREY_COLOR +:+ "2.0 B" +:+ If_8v2.RESET_COLOR],
     Ok tt) /\
  If_v4.traffic_line If_v4.config If_v4.Colors_initial
    (Py.strip "  eth0: 100 0 0 0 0 0 0 0 2:00 0 0 0 0 0 0 0")
  = ([ESC +:+ "[38;5;130m" +:+ "  eth0:" +:+ ESC +:+ "[0m";
      "    RX: " +:+ ESC +:+ "[38;5;250m" +:+ "100.0 B" +:+ ESC +:+ "[0m";
      "    TX: " +:+ ESC +:+ "[38;5;250m" +:+ "2.0 B" +:+ ESC +:+ "[0m"],
     Ok tt).
Proof.
  split; [apply (malformed_short "  lo" " 1 2 3 4 5" None);
          [done | done | vm_compute; lia]|].
  split; [by vm_compute|].
  split; [by apply malformed_no_colon|].
  repeat split; by vm_compute.
Qed.

(** C4, amended: in [if_8v2.py] a malformed data line (no colon, fewer than
    9 tokens between the first colon and the next one or the end of the
    line, or a token 0 or 8 there that is no integer) is skipped without
    raising, whatever follows a second colon, and the lines before and after
    it are parsed and printed as if it were absent; a diagnostic is printed
    in the third case only, the first two are skipped silently.  In
    [if_v4.py] a line with a colon and fewer than 9 such tokens or a
    non-numeric token 0 or 8 is skipped silently, the other lines being
    unaffected.  Whatever the line, a turn of the loop of [if_8v2.py] skips
    it or reports an entry. *)
Theorem malformed_line_skipped (k : malformation) (line : string)
    (before after : list string) :
  malformed k line ->
  If_8v2.traffic_line line = (diagnostic k line, Ok tt) /\
  for_each (before ++ line :: after) If_8v2.traffic_line
    = (for_each before If_8v2.traffic_line >>
       (diagnostic k line, Ok tt) >>
       for_each after If_8v2.traffic_line) /\
  (k <> NotNumeric ->
   diagnostic k line = [] /\
   for_each (before ++ line :: after) If_8v2.traffic_line
     = for_each (before ++ after) If_8v2.traffic_line) /\
  (k <> NoColon ->
   forall cfg col,
     If_v4.traffic_line cfg col (Py.strip line) = ([], Ok tt) /\
     for_each (If_v4.stripped (before ++ line :: after)) (If_v4.traffic_line cfg col)
       = for_each (If_v4.stripped (before ++ after)) (If_v4.traffic_line cfg col)) /\
  (forall h content hd1 hd2,
      fs h "/proc/net/dev" = Text content ->
      Py.readlines content = hd1 :: hd2 :: before ++ line :: after ->
      If_8v2.display_traffic_stats h
        = try_except_Exception
            (print (If_8v2.GREY_COLOR +:+ If_8v2.NEWLINE +:+ "Traffic Statistics:"
                      +:+ If_8v2.RESET_COLOR) >>
             for_each before If_8v2.traffic_line >>
             (diagnostic k line, Ok tt) >>
             for_each after If_8v2.traffic_line)
            (fun e => print ("Error reading traffic stats: " +:+ exn_str e)) /\
      (k <> NoColon ->
       forall cfg col,
         If_v4.PROC_NET_DEV cfg = "/proc/net/dev" ->
         If_v4.display_traffic_stats cfg col h
           = try_except_Exception
               (print (If_v4.GREY col +:+ If_v4.NEWLINE +:+ "Traffic Statistics:"
                         +:+ If_v4.RESET col) >>
                for_each (If_v4.stripped (before ++ after))
                         (If_v4.traffic_line cfg col))
               (fun e => print (If_v4.RED col +:+ "Error reading stats: "
                                  +:+ exn_str e +:+ If_v4.RESET col)))) /\
  (forall l,
      If_8v2.traffic_line l = ([], Ok tt) \/
      If_8v2.traffic_line l
        = (["Skipping invalid stats for interface: " +:+ name_of l], Ok tt) \/
      exists rx tx, If_8v2.traffic_line l = If_8v2.report (name_of l) rx tx).
Proof.
  intros Hm. pose proof (malformed_8v2 k line Hm) as H8.
  assert (for_each (before ++ line :: after) If_8v2.traffic_line
          = (for_each before If_8v2.traffic_line >>
             (diagnostic k line, Ok tt) >>
             for_each after If_8v2.traffic_line)) as Hloop8
    by (rewrite for_each_app; cbn [for_each]; by rewrite H8).
  assert (k <> NoColon ->
          forall cfg col,
            If_v4.traffic_line cfg col (Py.strip line) = ([], Ok tt) /\
            for_each (If_v4.stripped (before ++ line :: after))
                     (If_v4.traffic_line cfg col)
              = for_each (If_v4.stripped (before ++ after))
                         (If_v4.traffic_line cfg col)) as Hloop4.
  { intros Hk cfg col. pose proof (malformed_v4 k line cfg col Hm Hk) as H4.
    split; [done|].
    rewrite !stripped_app, (malformed_has_colon k line Hm Hk), !for_each_app.
    cbn [for_each]. rewrite H4. by rewrite (bind_ret tt). }
  split; [done|]. split; [done|].
  split; [|split; [done|split; [|apply traffic_line_8v2_cases]]].
  - intros Hk. assert (diagnostic k line = []) as Hd by (by destruct k).
    split; [done|]. rewrite Hloop8, Hd, for_each_app.
    by rewrite (bind_ret tt).
  - intros h content hd1 hd2 Hfs Hlines. split.
    + rewrite (display_traffic_stats_8v2_lines h content Hfs), Hlines.
      by rewrite !skipn_cons, drop_0, Hloop8.
    + intros Hk cfg col Hp. rewrite <- Hp in Hfs.
      rewrite (display_traffic_stats_v4_lines cfg col h content Hfs), Hlines.
      rewrite !skipn_cons, drop_0. by rewrite (proj2 (Hloop4 Hk cfg col)).
Qed.

(** A line with three fields, between a line with a non-numeric field and
    a valid one. *)
Lemma malformed_line_skipped_witness :
  for_each (["  lo: 1 2 3 4 5"; "  eth0: 7 0 0 0 0 0 0 0 x 0"]
              ++ ("  wlan0" +:+ ":" +:+ " 1 2 3") :: ["  eth1: 1 0 0 0 0 0 0 0 2 0"])
           If_8v2.traffic_line
  = (["Skipping invalid stats for interface: eth0";
      If_8v2.SEP_COLOR +:+ "  eth1:" +:+ If_8v2.RESET_COLOR;
      "    RX: " +:+ If_8v2.GREY_COLOR +:+ "1.0 B" +:+ If_8v2.RESET_COLOR;
      "    TX: " +:+ If_8v2.GREY_COLOR +:+ "2.0 B" +:+ If_8v2.RESET_COLOR],
     Ok tt).
Proof.
  destruct (malformed_line_skipped TooFewFields ("  wlan0" +:+ ":" +:+ " 1 2 3")
              ["  lo: 1 2 3 4 5"; "  eth0: 7 0 0 0 0 0 0 0 x 0"]
              ["  eth1: 1 0 0 0 0 0 0 0 2 0"]) as (_ & H & _).
  - apply (malformed_short "  wlan0" " 1 2 3" None);
      [done | done | vm_compute; lia].
  - rewrite H. by vm_compute.
Defined.

(** ** MTU resolution *)

Lemma unpack_H_cases b :
  (exists v, Py.unpack_H b = Ok v /\ 0 <= v <= 65535) \/
  (exists msg, Py.unpack_H b = Raise (Exn StructError msg)).
Proof.
  destruct b as [|lo [|hi [|]]]; try (right; by eauto).
  left. eexists; split; [done|].
  unfold Py.byte_val.
  pose proof (Byte.to_N_bounded lo). pose proof (Byte.to_N_bounded hi). lia.
Qed.

(** The device-control query fails with [OSError] or [struct.error] only. *)
Lemma get_mtu_ioctl_cases h interface :
  (exists v, If_v4.get_mtu_ioctl h interface = Ok v /\ 0 <= v <= 65535) \/
  (exists e, If_v4.get_mtu_ioctl h interface = Raise e /\
             handles [OSError; StructError] e = true).
Proof.
  unfold If_v4.get_mtu_ioctl.
  destruct (socket_socket h) as [[]|msg]; simpl; [|right; by eauto].
  destruct (fcntl_ioctl h _) as [reply|msg]; simpl; [|right; by eauto].
  destruct (unpack_H_cases (Py.slice 16 18 reply)) as [(v & -> & Hv)|(msg & ->)];
    [left|right]; by eauto.
Qed.

(** The sysfs read fails with [OSError] or [ValueError] only. *)
Lemma get_mtu_sysfs_cases cfg h interface :
  (exists v, If_v4.get_mtu_sysfs cfg h interface = Ok v) \/
  (exists e, If_v4.get_mtu_sysfs cfg h interface = Raise e /\
             handles [OSError; ValueError] e = true).
Proof.
  unfold If_v4.get_mtu_sysfs, open_and.
  destruct (fs h _) as [|msg|content]; simpl; try (right; by eauto).
  unfold int_of. destruct (Py.int _); [left|right]; by eauto.
Qed.

(** [get_mtu] of [if_v4.py] prints nothing and never raises. *)
Lemma get_mtu_v4_spec cfg h interface :
  If_v4.get_mtu cfg h interface = ret (resolved_mtu cfg h interface).
Proof.
  unfold If_v4.get_mtu, resolved_mtu.
  destruct (get_mtu_ioctl_cases h interface) as [(v & -> & _)|(e & -> & He)];
    [done|].
  rewrite bind_raise. unfold try_except at 1, lift at 1. rewrite He.
  destruct (get_mtu_sysfs_cases cfg h interface) as [(v & ->)|(e' & -> & He')];
    [done|].
  rewrite bind_raise. unfold try_except, lift. by rewrite He'.
Qed.

(** ** One interface *)

Lemma get_interface_info_v4_ok cfg col h interface addrs ipv4 :
  netifaces_ifaddresses h interface = Ok addrs ->
  index (default [∅] (addrs !! AF_INET)) 0 = Ok ipv4 ->
  If_v4.get_interface_info cfg col h interface
    = ([If_v4.SEPIA col +:+ interface +:+ ":" +:+ If_v4.RESET col]
         ++ address_lines ipv4
         ++ (if truthy (resolved_mtu cfg h interface)
             then ["    MTU: " +:+ str_of (resolved_mtu cfg h interface)]
             else []),
       Ok tt).
Proof.
  intros Ha Hi. unfold If_v4.get_interface_info, If_v4.interface_details.
  rewrite Ha, bind_ok, Hi, bind_ok, get_mtu_v4_spec, bind_ret.
  by destruct (truthy (resolved_mtu cfg h interface)).
Qed.

Lemma get_interface_info_v4_raise cfg col h interface e :
  netifaces_ifaddresses h interface = Raise e ->
  If_v4.get_interface_info cfg col h interface
    = ([If_v4.SEPIA col +:+ interface +:+ ":" +:+ If_v4.RESET col;
        If_v4.RED col +:+ "    Error: " +:+ exn_str e +:+ If_v4.RESET col],
       Ok tt).
Proof. intros Ha. unfold If_v4.get_interface_info, If_v4.interface_details. by rewrite Ha. Qed.

(** The handler at the interface boundary catches whatever is raised. *)
Lemma get_interface_info_v4_total cfg col h interface :
  exists out, If_v4.get_interface_info cfg col h interface = (out, Ok tt).
Proof.
  destruct (netifaces_ifaddresses h interface) as [addrs|e] eqn:Ha.
  - destruct (index (default [∅] (addrs !! AF_INET)) 0) as [ipv4|e] eqn:Hi.
    + rewrite (get_interface_info_v4_ok _ _ _ _ addrs ipv4) by done. by eauto.
    + unfold If_v4.get_interface_info, If_v4.interface_details. rewrite Ha, bind_ok, Hi. by eauto.
  - rewrite (get_interface_info_v4_raise _ _ _ _ e) by done. by eauto.
Qed.

Lemma get_mtu_8v2_cases h interface :
  (exists v, If_8v2.get_mtu h interface = ([], Ok (Some v)) /\ 0 <= v <= 65535) \/
  (exists msg,
      If_8v2.get_mtu h interface
        = (["Error retrieving MTU for interface '" +:+ interface +:+ "': " +:+ msg],
           Ok None)) \/
  (exists msg, If_8v2.get_mtu h interface = ([], Raise (Exn StructError msg))).
Proof.
  unfold If_8v2.get_mtu.
  destruct (socket_socket h) as [[]|msg]; simpl; [|right; left; by eauto].
  destruct (fcntl_ioctl h _) as [reply|msg]; simpl; [|right; left; by eauto].
  destruct (unpack_H_cases (Py.slice 16 18 reply)) as [(v & -> & Hv)|(msg & ->)];
    [left|right; right]; by eauto.
Qed.

Lemma get_interface_info_8v2_ok h interface addrs ipv4 :
  netifaces_ifaddresses h interface = Ok addrs ->
  index (default [∅] (addrs !! AF_INET)) 0 = Ok ipv4 ->
  exists rest,
    If_8v2.get_interface_info h interface
      = ([If_8v2.SEP_COLOR +:+ interface +:+ ":" +:+ If_8v2.RESET_COLOR]
           ++ address_lines ipv4 ++ rest,
         Ok tt) /\
    forall out v,
      If_8v2.get_mtu h interface = (out, Ok v) ->
      rest = out ++ [if truthy v then "    MTU: " +:+ str_of v
                     else "    MTU: Unable to retrieve"].
Proof.
  intros Ha Hi. unfold If_8v2.get_interface_info, If_8v2.interface_details.
  rewrite Ha, bind_ok, Hi, bind_ok.
  destruct (get_mtu_8v2_cases h interface)
    as [(v & -> & _)|[(msg & ->)|(msg & ->)]].
  - rewrite (bind_ret (Some v)). destruct (truthy (Some v)) eqn:Ht.
    + eexists. split; [reflexivity|]. intros out v' [= <- <-]. by rewrite Ht.
    + eexists. split; [reflexivity|]. intros out v' [= <- <-]. by rewrite Ht.
  - eexists. split; [reflexivity|]. by intros out v' [= <- <-].
  - eexists. split; [reflexivity|]. by intros out v' [=].
Qed.

Lemma get_interface_info_8v2_raise h interface e :
  netifaces_ifaddresses h interface = Raise e ->
  If_8v2.get_interface_info h interface
    = ([If_8v2.SEP_COLOR +:+ interface +:+ ":" +:+ If_8v2.RESET_COLOR;
        "    Error retrieving interface information: " +:+ exn_str e],
       Ok tt).
Proof. intros Ha. unfold If_8v2.get_interface_info, If_8v2.interface_details. by rewrite Ha. Qed.

Lemma get_interface_info_8v2_total h interface :
  exists out, If_8v2.get_interface_info h interface = (out, Ok tt).
Proof.
  destruct (netifaces_ifaddresses h interface) as [addrs|e] eqn:Ha.
  - destruct (index (default [∅] (addrs !! AF_INET)) 0) as [ipv4|e] eqn:Hi.
    + destruct (get_interface_info_8v2_ok _ _ addrs ipv4 Ha Hi) as (rest & -> & _).
      by eauto.
    + unfold If_8v2.get_interface_info, If_8v2.interface_details. rewrite Ha, bind_ok, Hi. by eauto.
  - rewrite (get_interface_info_8v2_raise _ _ e) by done. by eauto.
Qed.

(** ** The loop over the interfaces *)

(** A loop whose turns all return runs to its end and prints what the turns
    print, in order. *)
Lemma for_each_total {A} (l : list A) (f : A -> io unit) :
  (forall x, exists out, f x = (out, Ok tt)) ->
  for_each l f = (concat ((fun x => (f x).1) <$> l), Ok tt).
Proof.
  intros Hf. induction l as [|x l IH]; [done|].
  cbn [for_each]. rewrite IH, fmap_cons. destruct (Hf x) as [out Hx].
  cbn [concat]. by rewrite Hx.
Qed.

Lemma concat_skipped {A} (p : A -> bool) (f : A -> io unit) (l : list A) :
  concat ((fun x => (if p x then ret tt else f x).1) <$> l)
    = concat ((fun x => (f x).1) <$> List.filter (fun x => negb (p x)) l).
Proof.
  induction l as [|x l IH]; [done|].
  rewrite fmap_cons. cbn [List.filter concat]. rewrite IH.
  by destruct (p x).
Qed.

Lemma display_network_info_8v2 h interfaces :
  netifaces_interfaces h = Ok interfaces ->
  If_8v2.display_network_info h
    = ((If_8v2.GREY_COLOR +:+ "Network Interfaces:" +:+ If_8v2.RESET_COLOR)
         :: concat ((fun i => (If_8v2.get_interface_info h i).1) <$> interfaces),
       Ok tt).
Proof.
  intros Hi. unfold If_8v2.display_network_info. rewrite Hi, bind_ok.
  by rewrite for_each_total by apply get_interface_info_8v2_total.
Qed.

Lemma display_network_info_v4 cfg col h interfaces :
  netifaces_interfaces h = Ok interfaces ->
  If_v4.display_network_info cfg col h
    = ((If_v4.GREY col +:+ "Network Interfaces:" +:+ If_v4.RESET col)
         :: concat ((fun i => (If_v4.get_interface_info cfg col h i).1)
                      <$> kept cfg interfaces),
       Ok tt).
Proof.
  intros Hi. unfold If_v4.display_network_info. rewrite Hi, bind_ok.
  rewrite for_each_total.
  - by rewrite concat_skipped.
  - intros i. destruct (If_v4.filtered_out cfg i); [by eauto|].
    apply get_interface_info_v4_total.
Qed.

(** ** A missing statistics source *)

Lemma display_traffic_stats_v4_absent cfg col h :
  fs h (If_v4.PROC_NET_DEV cfg) = Absent ->
  If_v4.display_traffic_stats cfg col h
    = ([If_v4.RED col +:+ "Error: " +:+ If_v4.PROC_NET_DEV cfg +:+ " not found"
          +:+ If_v4.RESET col], Ok tt).
Proof.
  intros Hfs. unfold If_v4.display_traffic_stats, path_exists. by rewrite Hfs.
Qed.

(** C8, counterexample: with the statistics source absent on a Linux host,
    the run does not end with status 0 when the interfaces cannot be
    enumerated: [main] prints the heading and the critical error, never
    reaches the traffic pipeline, prints no message about the missing
    source, and ends with status 1. *)
Lemma stats_source_absent_enumeration_fails :
  String.prefix "linux" (sys_platform no_enumeration_host) = true /\
  fs no_enumeration_host (If_v4.PROC_NET_DEV If_v4.config) = Absent /\
  If_v4.main If_v4.config no_enumeration_host
    = ([ESC +:+ "[38;5;250m" +:+ "Network Interfaces:" +:+ ESC +:+ "[0m";
        ESC +:+ "[31m" +:+ "Critical error: [Errno 24] Too many open files"
          +:+ ESC +:+ "[0m"],
       1).
Proof. repeat split; by vm_compute. Qed.

(** C8, amended: on Linux, when the interfaces could be enumerated (the
    enumeration returned [interfaces]) and the statistics source does not
    exist, the traffic pipeline of [if_v4.py] prints one message and does
    nothing else, and the run ends with exit code 0 after the output of the
    network pipeline. *)
Theorem stats_source_absent (cfg : If_v4.Config) (h : host) (interfaces : list string) :
  String.prefix "linux" (sys_platform h) = true ->
  fs h (If_v4.PROC_NET_DEV cfg) = Absent ->
  netifaces_interfaces h = Ok interfaces ->
  (forall col,
      If_v4.display_traffic_stats cfg col h
        = ([If_v4.RED col +:+ "Error: " +:+ If_v4.PROC_NET_DEV cfg
              +:+ " not found" +:+ If_v4.RESET col], Ok tt)) /\
  If_v4.main cfg h
    = ((If_v4.display_network_info cfg (main_colors cfg) h).1
         ++ [If_v4.RED (main_colors cfg) +:+ "Error: " +:+ If_v4.PROC_NET_DEV cfg
               +:+ " not found" +:+ If_v4.RESET (main_colors cfg)],
       0).
Proof.
  intros Hp Hfs Hi. split; [intros col; by apply display_traffic_stats_v4_absent|].
  unfold If_v4.main. rewrite Hp. cbn [negb]. fold (main_colors cfg).
  rewrite (display_network_info_v4 cfg _ h interfaces Hi).
  by rewrite (display_traffic_stats_v4_absent cfg _ h Hfs).
Qed.

(** A run on a host without statistics table. *)
Lemma stats_source_absent_witness :
  If_v4.main If_v4.config bare_host
    = ([ESC +:+ "[38;5;250m" +:+ "Network Interfaces:" +:+ ESC +:+ "[0m";
        ESC +:+ "[38;5;130m" +:+ "eth0:" +:+ ESC +:+ "[0m";
        "    inet: N/A"; "    netmask: N/A"; "    broadcast: N/A";
        ESC +:+ "[31m" +:+ "Error: /proc/net/dev not found" +:+ ESC +:+ "[0m"],
       0).
Proof.
  destruct (stats_source_absent If_v4.config bare_host ["lo"; "eth0"])
    as [_ ->]; [done..|].
  by vm_compute.
Defined.

(** ** The two methods of MTU resolution *)

(** C5, counterexample: when both methods fail, [if_v4.py] prints no MTU
    line; the text "Unable to retrieve" is not in its output. *)
Lemma v4_no_unable_sentinel :
  If_v4.get_mtu If_v4.config (no_ioctl_host Absent) "eth0"
    = ([], Ok None) /\
  If_v4.get_interface_info If_v4.config If_v4.Colors_initial
      (no_ioctl_host Absent) "eth0"
    = ([ESC +:+ "[38;5;130m" +:+ "eth0:" +:+ ESC +:+ "[0m";
        "    inet: N/A"; "    netmask: N/A"; "    broadcast: N/A"],
       Ok tt).
Proof. split; by vm_compute. Qed.

(** C5, amended: [get_mtu] of [if_v4.py] first tries the device-control
    query and reads the sysfs node only if that query fails; when the query
    fails and the node contains "1500" it resolves 1500; it never raises to
    its caller.  When both methods fail it returns [None], and
    [get_interface_info] then prints no MTU line at all. *)
Theorem mtu_resolution (cfg : If_v4.Config) (col : If_v4.Colors) (h : host)
    (interface : string) :
  If_v4.get_mtu cfg h interface = ret (resolved_mtu cfg h interface) /\
  (forall v,
      If_v4.get_mtu_ioctl h interface = Ok v ->
      If_v4.get_mtu cfg h interface = ret (Some v)) /\
  (forall e,
      If_v4.get_mtu_ioctl h interface = Raise e ->
      (forall v,
          If_v4.get_mtu_sysfs cfg h interface = Ok v ->
          If_v4.get_mtu cfg h interface = ret (Some v)) /\
      (fs h (If_v4.SYSFS_NET_PATH cfg +:+ "/" +:+ interface +:+ "/mtu") = Text "1500" ->
       If_v4.get_mtu cfg h interface = ret (Some 1500)) /\
      (forall e',
          If_v4.get_mtu_sysfs cfg h interface = Raise e' ->
          If_v4.get_mtu cfg h interface = ret None /\
          forall addrs ipv4,
            netifaces_ifaddresses h interface = Ok addrs ->
            index (default [∅] (addrs !! AF_INET)) 0 = Ok ipv4 ->
            If_v4.get_interface_info cfg col h interface
              = ([If_v4.SEPIA col +:+ interface +:+ ":" +:+ If_v4.RESET col]
                   ++ address_lines ipv4, Ok tt))).
Proof.
  pose proof (get_mtu_v4_spec cfg h interface) as Hm.
  split; [done|]. split.
  - intros v Hv. rewrite Hm. unfold resolved_mtu. by rewrite Hv.
  - intros e He. split; [|split].
    + intros v Hv. rewrite Hm. unfold resolved_mtu. by rewrite He, Hv.
    + intros Hfs. rewrite Hm. unfold resolved_mtu, If_v4.get_mtu_sysfs, open_and.
      by rewrite He, Hfs.
    + intros e' He'.
      assert (resolved_mtu cfg h interface = None) as Hr
        by (unfold resolved_mtu; by rewrite He, He').
      split; [by rewrite Hm, Hr|].
      intros addrs ipv4 Ha Hi.
      rewrite (get_interface_info_v4_ok cfg col h interface addrs ipv4 Ha Hi).
      rewrite Hr. by rewrite app_nil_r.
Qed.

(** A host that refuses the query and publishes "1500" in sysfs. *)
Lemma mtu_resolution_witness :
  If_v4.get_mtu If_v4.config (no_ioctl_host (Text "1500")) "eth0"
    = ret (Some 1500).
Proof.
  destruct (mtu_resolution If_v4.config If_v4.Colors_initial
              (no_ioctl_host (Text "1500")) "eth0") as (_ & _ & H).
  destruct (H (Exn OSError "[Errno 1] Operation not permitted") eq_refl)
    as (_ & H1500 & _).
  by apply H1500.
Defined.

(** ** Missing addresses and the interface boundary *)

(** Whatever the [try] block raises, after printing [out], becomes one more
    line of the interface. *)
Lemma get_interface_info_v4_caught cfg col h interface out e :
  If_v4.interface_details cfg h interface = (out, Raise e) ->
  If_v4.get_interface_info cfg col h interface
    = ((If_v4.SEPIA col +:+ interface +:+ ":" +:+ If_v4.RESET col)
         :: out ++ [If_v4.RED col +:+ "    Error: " +:+ exn_str e +:+ If_v4.RESET col],
       Ok tt).
Proof. intros Hd. unfold If_v4.get_interface_info. by rewrite Hd. Qed.

Lemma get_interface_info_8v2_caught h interface out e :
  If_8v2.interface_details h interface = (out, Raise e) ->
  If_8v2.get_interface_info h interface
    = ((If_8v2.SEP_COLOR +:+ interface +:+ ":" +:+ If_8v2.RESET_COLOR)
         :: out ++ ["    Error retrieving interface information: " +:+ exn_str e],
       Ok tt).
Proof. intros Hd. unfold If_8v2.get_interface_info. by rewrite Hd. Qed.

Lemma index_no_ipv4 (addrs : gmap Z (list addr_entry)) :
  addrs !! AF_INET = None -> index (default [∅] (addrs !! AF_INET)) 0 = Ok ∅.
Proof. by intros ->. Qed.

(** C7: for an interface without IPv4 entry in the address table, inet,
    netmask and broadcast are each printed as "N/A" and the interface does
    not fail; an exception raised by the address lookup, and more generally
    whatever the [try] block raises, is printed as an error line of that
    interface; [get_interface_info] never raises; and so
    [display_network_info] goes through every interface of the enumeration
    (every one the filter keeps, in [if_v4.py]). *)
Theorem missing_ipv4_reported (h : host) (interface : string)
    (addrs : gmap Z (list addr_entry)) :
  netifaces_ifaddresses h interface = Ok addrs ->
  addrs !! AF_INET = None ->
  (forall cfg col, exists mtu_lines,
      If_v4.get_interface_info cfg col h interface
        = ([If_v4.SEPIA col +:+ interface +:+ ":" +:+ If_v4.RESET col;
            "    inet: N/A"; "    netmask: N/A"; "    broadcast: N/A"]
             ++ mtu_lines, Ok tt)) /\
  (exists mtu_lines,
      If_8v2.get_interface_info h interface
        = ([If_8v2.SEP_COLOR +:+ interface +:+ ":" +:+ If_8v2.RESET_COLOR;
            "    inet: N/A"; "    netmask: N/A"; "    broadcast: N/A"]
             ++ mtu_lines, Ok tt)) /\
  (forall h' i e,
      netifaces_ifaddresses h' i = Raise e ->
      (forall cfg col,
          If_v4.get_interface_info cfg col h' i
            = ([If_v4.SEPIA col +:+ i +:+ ":" +:+ If_v4.RESET col;
                If_v4.RED col +:+ "    Error: " +:+ exn_str e +:+ If_v4.RESET col],
               Ok tt)) /\
      If_8v2.get_interface_info h' i
        = ([If_8v2.SEP_COLOR +:+ i +:+ ":" +:+ If_8v2.RESET_COLOR;
            "    Error retrieving interface information: " +:+ exn_str e],
           Ok tt)) /\
  (forall h' i out e,
      (forall cfg col,
          If_v4.interface_details cfg h' i = (out, Raise e) ->
          If_v4.get_interface_info cfg col h' i
            = ((If_v4.SEPIA col +:+ i +:+ ":" +:+ If_v4.RESET col)
                 :: out ++ [If_v4.RED col +:+ "    Error: " +:+ exn_str e
                              +:+ If_v4.RESET col],
               Ok tt)) /\
      (If_8v2.interface_details h' i = (out, Raise e) ->
       If_8v2.get_interface_info h' i
         = ((If_8v2.SEP_COLOR +:+ i +:+ ":" +:+ If_8v2.RESET_COLOR)
              :: out ++ ["    Error retrieving interface information: "
                           +:+ exn_str e],
            Ok tt))) /\
  (forall h' i,
      (forall cfg col, exists out,
          If_v4.get_interface_info cfg col h' i = (out, Ok tt)) /\
      (exists out, If_8v2.get_interface_info h' i = (out, Ok tt))) /\
  (forall h' interfaces,
      netifaces_interfaces h' = Ok interfaces ->
      (forall cfg col,
          If_v4.display_network_info cfg col h'
            = ((If_v4.GREY col +:+ "Network Interfaces:" +:+ If_v4.RESET col)
                 :: concat ((fun i => (If_v4.get_interface_info cfg col h' i).1)
                              <$> kept cfg interfaces),
               Ok tt)) /\
      If_8v2.display_network_info h'
        = ((If_8v2.GREY_COLOR +:+ "Network Interfaces:" +:+ If_8v2.RESET_COLOR)
             :: concat ((fun i => (If_8v2.get_interface_info h' i).1)
                          <$> interfaces),
           Ok tt)).
Proof.
  intros Ha Hno. pose proof (index_no_ipv4 addrs Hno) as Hi.
  split; [|split; [|split; [|split; [|split]]]].
  - intros cfg col. eexists.
    by rewrite (get_interface_info_v4_ok cfg col h interface addrs ∅ Ha Hi).
  - destruct (get_interface_info_8v2_ok h interface addrs ∅ Ha Hi)
      as (rest & -> & _).
    by exists rest.
  - intros h' i e He. split.
    + intros cfg col. by apply get_interface_info_v4_raise.
    + by apply get_interface_info_8v2_raise.
  - intros h' i out e. split.
    + intros cfg col. apply get_interface_info_v4_caught.
    + apply get_interface_info_8v2_caught.
  - intros h' i. split.
    + intros cfg col. apply get_interface_info_v4_total.
    + apply get_interface_info_8v2_total.
  - intros h' interfaces Hifs. split.
    + intros cfg col. by apply display_network_info_v4.
    + by apply display_network_info_8v2.
Qed.

(** A host whose first interface makes the address lookup raise: the second
    one is reported all the same. *)
Lemma missing_ipv4_reported_witness :
  If_8v2.display_network_info faulty_host
    = ([If_8v2.GREY_COLOR +:+ "Network Interfaces:" +:+ If_8v2.RESET_COLOR;
        If_8v2.SEP_COLOR +:+ "tun0:" +:+ If_8v2.RESET_COLOR;
        "    Error retrieving interface information: You must specify a valid interface name.";
        If_8v2.SEP_COLOR +:+ "eth0:" +:+ If_8v2.RESET_COLOR;
        "    inet: N/A"; "    netmask: N/A"; "    broadcast: N/A";
        "Error retrieving MTU for interface 'eth0': [Errno 19] No such device";
        "    MTU: Unable to retrieve"],
       Ok tt).
Proof.
  destruct (missing_ipv4_reported faulty_host "eth0" ∅ eq_refl eq_refl)
    as (_ & _ & _ & _ & _ & H).
  destruct (H faulty_host ["tun0"; "eth0"] eq_refl) as [_ ->].
  by vm_compute.
Defined.

(** ** An MTU of zero *)

(** No header line is the line "MTU: 0". *)
Lemma name_colon_not_mtu_line (s : string) : s +:+ ":" <> "    MTU: 0".
Proof.
  intros H.
  repeat (destruct s as [|? s];
          [rewrite app_nil_str in H; discriminate H
          |rewrite app_cons_str in H; injection H as _ H]).
  destruct s; [rewrite app_nil_str in H|rewrite app_cons_str in H];
    discriminate H.
Qed.

Lemma header_8v2_not_mtu_line interface :
  If_8v2.SEP_COLOR +:+ interface +:+ ":" +:+ If_8v2.RESET_COLOR <> "    MTU: 0".
Proof. intros H. vm_compute in H. discriminate H. Qed.

Lemma header_v4_not_mtu_line cfg interface :
  If_v4.SEPIA (main_colors cfg) +:+ interface +:+ ":"
    +:+ If_v4.RESET (main_colors cfg) <> "    MTU: 0".
Proof.
  unfold main_colors. destruct (If_v4.COLOR_OUTPUT cfg); cbn [negb].
  - intros H. vm_compute in H. discriminate H.
  - cbn [If_v4.disable If_v4.SEPIA If_v4.RESET]. rewrite app_nil_str.
    change (":" +:+ "") with ":". apply name_colon_not_mtu_line.
Qed.

Lemma address_lines_not_mtu_line ipv4 tail :
  "    MTU: 0" ∉ tail -> "    MTU: 0" ∉ address_lines ipv4 ++ tail.
Proof.
  intros Ht H. unfold address_lines in H.
  repeat (apply elem_of_cons in H as [H|H]; [by inversion H|]).
  done.
Qed.

(** C10: an MTU resolved as 0 is rendered as a failed lookup is: [if_v4.py]
    prints no MTU line, [if_8v2.py] prints "MTU: Unable to retrieve"; the
    line "MTU: 0", which the value 0 would give, is not in the output. *)
Theorem zero_mtu_unavailable (h : host) (interface : string)
    (addrs : gmap Z (list addr_entry)) (ipv4 : addr_entry) :
  netifaces_ifaddresses h interface = Ok addrs ->
  index (default [∅] (addrs !! AF_INET)) 0 = Ok ipv4 ->
  (forall cfg col mtu,
      If_v4.get_mtu cfg h interface = ret mtu ->
      mtu = Some 0 \/ mtu = None ->
      If_v4.get_interface_info cfg col h interface
        = ([If_v4.SEPIA col +:+ interface +:+ ":" +:+ If_v4.RESET col]
             ++ address_lines ipv4, Ok tt)) /\
  (forall out mtu,
      If_8v2.get_mtu h interface = (out, Ok mtu) ->
      mtu = Some 0 \/ mtu = None ->
      If_8v2.get_interface_info h interface
        = ([If_8v2.SEP_COLOR +:+ interface +:+ ":" +:+ If_8v2.RESET_COLOR]
             ++ address_lines ipv4 ++ out ++ ["    MTU: Unable to retrieve"],
           Ok tt)) /\
  "    MTU: " +:+ str_of (Some 0) = "    MTU: 0" /\
  (forall cfg,
      If_v4.get_mtu cfg h interface = ret (Some 0) ->
      "    MTU: 0" ∉ (If_v4.get_interface_info cfg (main_colors cfg) h interface).1) /\
  (forall out,
      If_8v2.get_mtu h interface = (out, Ok (Some 0)) ->
      "    MTU: 0" ∉ (If_8v2.get_interface_info h interface).1).
Proof.
  intros Ha Hi.
  assert (forall cfg col mtu,
             If_v4.get_mtu cfg h interface = ret mtu ->
             mtu = Some 0 \/ mtu = None ->
             If_v4.get_interface_info cfg col h interface
             = ([If_v4.SEPIA col +:+ interface +:+ ":" +:+ If_v4.RESET col]
                  ++ address_lines ipv4, Ok tt)) as H4.
  { intros cfg col mtu Hm Hz.
    rewrite (get_interface_info_v4_ok cfg col h interface addrs ipv4 Ha Hi).
    rewrite get_mtu_v4_spec in Hm. injection Hm as ->.
    by destruct Hz as [-> | ->]. }
  assert (forall out mtu,
             If_8v2.get_mtu h interface = (out, Ok mtu) ->
             mtu = Some 0 \/ mtu = None ->
             If_8v2.get_interface_info h interface
             = ([If_8v2.SEP_COLOR +:+ interface +:+ ":" +:+ If_8v2.RESET_COLOR]
                  ++ address_lines ipv4 ++ out ++ ["    MTU: Unable to retrieve"],
                Ok tt)) as H8.
  { intros out mtu Hm Hz.
    destruct (get_interface_info_8v2_ok h interface addrs ipv4 Ha Hi)
      as (rest & -> & Hrest).
    rewrite (Hrest out mtu Hm). by destruct Hz as [-> | ->]. }
  split; [done|]. split; [done|]. split; [done|]. split.
  - intros cfg Hm. rewrite (H4 cfg _ (Some 0) Hm) by (by left).
    cbn [fst app]. apply not_elem_of_cons. split.
    + intros H. by apply (header_v4_not_mtu_line cfg interface).
    + rewrite <- (app_nil_r (address_lines ipv4)).
      apply address_lines_not_mtu_line, not_elem_of_nil.
  - intros out Hm. rewrite (H8 out (Some 0) Hm) by (by left).
    assert (out = []) as ->.
    { destruct (get_mtu_8v2_cases h interface)
        as [(v & Hv & _)|[(msg & Hv)|(msg & Hv)]]; rewrite Hv in Hm; congruence. }
    cbn [fst app]. apply not_elem_of_cons. split.
    + intros H. by apply (header_8v2_not_mtu_line interface).
    + apply address_lines_not_mtu_line. by intros H%list_elem_of_singleton.
Qed.

(** ** The device-control path *)

Lemma byte_val_of_Z n : Py.byte_val (Py.byte_of_Z n) = n mod 256.
Proof.
  unfold Py.byte_val, Py.byte_of_Z.
  pose proof (Z.mod_pos_bound n 256 ltac:(lia)) as Hb.
  destruct (Byte.of_N (Z.to_N (n mod 256))) as [b|] eqn:E.
  - apply Byte.to_of_N in E. rewrite E. lia.
  - apply Byte.of_N_None_iff in E. lia.
Qed.

Lemma length_pack_s width b : length (Py.pack_s width b) = width.
Proof.
  unfold Py.pack_s. rewrite length_take, length_app, length_replicate. lia.
Qed.

(** Bytes 16 and 17 of the kernel's answer, for a request of at least 18
    bytes: the two low bytes of the MTU. *)
Lemma slice_linux_reply request mtu :
  (18 <= length request)%nat ->
  Py.slice 16 18
    (take (length request) (take 16 request ++ int32_le mtu ++ drop 20 request))
  = [Py.byte_of_Z mtu; Py.byte_of_Z (mtu / 256)].
Proof.
  intros Hlen. unfold Py.slice.
  rewrite skipn_firstn_comm. 
  rewrite drop_app_length' by (rewrite length_take; lia).
  rewrite take_take. 
  replace ((18 - 16) `min` (length request - 16))%nat with 2%nat by lia.
  done.
Qed.

Lemma unpack_low_bytes mtu :
  Py.unpack_H [Py.byte_of_Z mtu; Py.byte_of_Z (mtu / 256)] = Ok (mtu mod 65536).
Proof.
  unfold Py.unpack_H. rewrite !byte_val_of_Z. f_equal.
  pose proof (Z.div_mod mtu 256 ltac:(lia)).
  pose proof (Z.div_mod (mtu / 256) 256 ltac:(lia)).
  pose proof (Z.mod_pos_bound mtu 256 ltac:(lia)).
  pose proof (Z.mod_pos_bound (mtu / 256) 256 ltac:(lia)).
  apply Z.mod_unique with (q := mtu / 256 / 256); lia.
Qed.

Lemma get_mtu_ioctl_linux h interface mtu_of mtu :
  socket_socket h = Done tt ->
  fcntl_ioctl h = linux_SIOCGIFMTU mtu_of ->
  mtu_of (Py.pack_s 16 (Py.encode interface)) = Some mtu ->
  If_v4.get_mtu_ioctl h interface = Ok (mtu mod 65536).
Proof.
  intros Hs Hk Hm. unfold If_v4.get_mtu_ioctl. rewrite Hs, Hk. cbn [os_result rbind].
  set (request := Py.pack_s 16 (Py.encode interface) ++ Py.pack_H 0).
  assert (take 16 request = Py.pack_s 16 (Py.encode interface)) as Hname
    by (apply take_app_length'; by rewrite length_pack_s).
  assert (length request = 18%nat) as Hlen
    by (unfold request; by rewrite length_app, length_pack_s).
  unfold linux_SIOCGIFMTU. rewrite Hname, Hm. cbn [os_result rbind].
  rewrite <- Hname, slice_linux_reply by lia.
  apply unpack_low_bytes.
Qed.

Lemma take_pack_s b : take 16 (Py.pack_s 256 (take 16 b)) = Py.pack_s 16 b.
Proof.
  unfold Py.pack_s. rewrite take_take. change (16 `min` 256)%nat with 16%nat.
  destruct (Nat.le_gt_cases 16 (length b)) as [Hl|Hl].
  - rewrite !take_app_le by (rewrite ?length_take; lia).
    by rewrite take_take, Nat.min_id.
  - rewrite (take_ge b 16) by lia.
    rewrite !take_app_ge by lia.
    f_equal. rewrite !take_replicate. f_equal. lia.
Qed.

Lemma get_mtu_8v2_linux h interface mtu_of mtu :
  socket_socket h = Done tt ->
  fcntl_ioctl h = linux_SIOCGIFMTU mtu_of ->
  mtu_of (Py.pack_s 16 (Py.encode interface)) = Some mtu ->
  If_8v2.get_mtu h interface = ret (Some (mtu mod 65536)).
Proof.
  intros Hs Hk Hm. unfold If_8v2.get_mtu. rewrite Hs, Hk.
  cbn [os_result]. rewrite bind_ok.
  set (request := Py.pack_s 256 (take 16 (Py.encode interface))).
  pose proof (take_pack_s (Py.encode interface)) as Hname. fold request in Hname.
  assert (length request = 256%nat) as Hlen by apply length_pack_s.
  unfold linux_SIOCGIFMTU. rewrite Hname, Hm. cbn [os_result].
  rewrite bind_ok.
  rewrite <- Hname, slice_linux_reply by lia.
  by rewrite unpack_low_bytes, bind_ok.
Qed.

(** C9: the device-control path unpacks bytes 16 and 17 of the reply as an
    unsigned 16-bit integer: whatever it returns lies in [0, 65535], and on
    Linux it is the kernel's MTU modulo [2^16], so that an MTU of 65536 is
    reported as 0. *)
Theorem ioctl_mtu_16_bits (h : host) (interface : string) :
  (forall reply,
      socket_socket h = Done tt ->
      fcntl_ioctl h (Py.pack_s 16 (Py.encode interface) ++ Py.pack_H 0) = Done reply ->
      If_v4.get_mtu_ioctl h interface = Py.unpack_H (Py.slice 16 18 reply)) /\
  (forall v, If_v4.get_mtu_ioctl h interface = Ok v -> 0 <= v <= 65535) /\
  (forall out v,
      If_8v2.get_mtu h interface = (out, Ok (Some v)) -> 0 <= v <= 65535) /\
  (forall mtu_of mtu,
      socket_socket h = Done tt ->
      fcntl_ioctl h = linux_SIOCGIFMTU mtu_of ->
      mtu_of (Py.pack_s 16 (Py.encode interface)) = Some mtu ->
      If_v4.get_mtu_ioctl h interface = Ok (mtu mod 2 ^ 16) /\
      If_8v2.get_mtu h interface = ret (Some (mtu mod 2 ^ 16)) /\
      (mtu = 65536 ->
       If_v4.get_mtu_ioctl h interface = Ok 0 /\
       If_8v2.get_mtu h interface = ret (Some 0))).
Proof.
  split; [|split; [|split]].
  - intros reply Hs Hr. unfold If_v4.get_mtu_ioctl. by rewrite Hs, Hr.
  - intros v Hv.
    destruct (get_mtu_ioctl_cases h interface) as [(v' & Hv' & Hb)|(e & He & _)];
      congruence.
  - intros out v Hv.
    destruct (get_mtu_8v2_cases h interface)
      as [(v' & Hv' & Hb)|[(msg & Hv')|(msg & Hv')]]; congruence.
  - intros mtu_of mtu Hs Hk Hm.
    pose proof (get_mtu_ioctl_linux h interface mtu_of mtu Hs Hk Hm) as H4.
    pose proof (get_mtu_8v2_linux h interface mtu_of mtu Hs Hk Hm) as H8.
    change (2 ^ 16) with 65536.
    split; [done|]. split; [done|]. intros ->. by rewrite H4, H8.
Qed.

(** The loopback interface with its MTU of 65536. *)
Lemma ioctl_mtu_16_bits_witness :
  If_v4.get_mtu_ioctl lo_host "lo" = Ok 0 /\
  If_8v2.get_mtu lo_host "lo" = ret (Some 0).
Proof.
  destruct (ioctl_mtu_16_bits lo_host "lo") as (_ & _ & _ & H).
  destruct (H _ 65536 eq_refl eq_refl) as (_ & _ & H0); [by vm_compute|].
  by apply H0.
Defined.

(** The loopback interface, whose MTU of 65536 the device-control path
    reads as 0. *)
Lemma zero_mtu_unavailable_witness :
  If_v4.get_interface_info If_v4.config If_v4.Colors_initial lo_host "lo"
    = ([ESC +:+ "[38;5;130m" +:+ "lo:" +:+ ESC +:+ "[0m";
        "    inet: 127.0.0.1"; "    netmask: 255.0.0.0"; "    broadcast: N/A"],
       Ok tt) /\
  If_8v2.get_interface_info lo_host "lo"
    = ([If_8v2.SEP_COLOR +:+ "lo:" +:+ If_8v2.RESET_COLOR;
        "    inet: 127.0.0.1"; "    netmask: 255.0.0.0"; "    broadcast: N/A";
        "    MTU: Unable to retrieve"],
       Ok tt).
Proof.
  destruct (zero_mtu_unavailable lo_host "lo"
              {[ AF_INET := [ {[ "addr" := "127.0.0.1"; "netmask" := "255.0.0.0" ]} ] ]}
              {[ "addr" := "127.0.0.1"; "netmask" := "255.0.0.0" ]}
              eq_refl eq_refl) as (H4 & H8 & _).
  split.
  - rewrite (H4 If_v4.config If_v4.Colors_initial (Some 0)); [by vm_compute| |by left].
    by vm_compute.
  - rewrite (H8 [] (Some 0)); [by vm_compute| |by left].
    by vm_compute.
Defined.

(** ** The filter *)

Lemma filtered_out_spec cfg (allowed : gset string) iface :
  If_v4.FILTER_INTERFACES cfg = Some allowed -> allowed ≠ ∅ ->
  If_v4.filtered_out cfg iface = bool_decide (iface ∉ allowed).
Proof.
  intros Hf Hne. unfold If_v4.filtered_out. rewrite Hf.
  by rewrite (bool_decide_eq_true_2 _ Hne).
Qed.

Lemma try_except_handled {A} e cs (k : exn -> io A) :
  handles cs e = true -> try_except (lift (Raise e)) cs k = k e.
Proof. unfold try_except, lift. intros ->. by destruct (k e). Qed.

Lemma report_v4_head cfg col t :
  exists rest r,
    If_v4.report cfg col t
      = ((If_v4.SEPIA col +:+ "  " +:+ If_v4.name t +:+ ":" +:+ If_v4.RESET col)
           :: rest, r).
Proof.
  unfold If_v4.report. 
  destruct (If_v4.rx_human cfg t) as [srx|e]; [|by eexists _, _].
  rewrite bind_ok.
  destruct (If_v4.tx_human cfg t) as [stx|e]; by eexists _, _.
Qed.

(** Whatever a turn of the traffic loop prints starts with the header of an
    interface the filter lets through. *)
Lemma traffic_line_v4_output cfg col line out r :
  If_v4.traffic_line cfg col line = (out, r) ->
  out = [] \/
  exists iface rest,
    If_v4.filtered_out cfg iface = false /\
    out = (If_v4.SEPIA col +:+ "  " +:+ iface +:+ ":" +:+ If_v4.RESET col) :: rest.
Proof.
  unfold If_v4.traffic_line.
  destruct (split_at_cons (fun c => bool_decide (c = ":"%char)) line)
    as (part0 & parts & Hsp).
  unfold Py.split. rewrite Hsp.
  rewrite (index_ok _ 0 part0), bind_ok by done.
  destruct (index (part0 :: parts) 1) as [part1|e];
    [|rewrite bind_raise; intros [= <- <-]; by left].
  rewrite bind_ok.
  destruct (If_v4.filtered_out cfg (Py.strip part0)) eqn:Hf;
    [intros [= <- <-]; by left|].
  destruct (index (Py.split_ws part1) 0) as [s0|e] eqn:H0.
  2:{ rewrite bind_raise. unfold index in H0. destruct (_ !! _); [done|].
      injection H0 as <-. rewrite try_except_handled by done.
      intros [= <- <-]. by left. }
  rewrite bind_ok.
  destruct (int_of s0) as [rx|e] eqn:Hrx.
  2:{ rewrite bind_raise. unfold int_of in Hrx. destruct (Py.int s0); [done|].
      injection Hrx as <-. rewrite try_except_handled by done.
      intros [= <- <-]. by left. }
  rewrite bind_ok.
  destruct (index (Py.split_ws part1) 8) as [s8|e] eqn:H8.
  2:{ rewrite bind_raise. unfold index in H8. destruct (_ !! _); [done|].
      injection H8 as <-. rewrite try_except_handled by done.
      intros [= <- <-]. by left. }
  rewrite bind_ok.
  destruct (int_of s8) as [tx|e] eqn:Htx.
  2:{ rewrite bind_raise. unfold int_of in Htx. destruct (Py.int s8); [done|].
      injection Htx as <-. rewrite try_except_handled by done.
      intros [= <- <-]. by left. }
  rewrite bind_ok.
  destruct (report_v4_head cfg col
              (If_v4.update (If_v4.InterfaceTraffic_init (Py.strip part0)) rx tx))
    as (rest & r' & ->).
  intros H. right. exists (Py.strip part0). 
  unfold try_except in H. destruct r' as [[]|e].
  - injection H as <- <-. by eauto.
  - destruct (handles _ e); injection H as <- <-; by eauto.
Qed.

Lemma traffic_line_v4_filtered cfg col name fields :
  free_of ":" name = true ->
  If_v4.filtered_out cfg (Py.strip name) = true ->
  If_v4.traffic_line cfg col (Py.strip (name +:+ ":" +:+ fields)) = ([], Ok tt).
Proof.
  intros Hn Hf. unfold If_v4.traffic_line.
  rewrite (app_cons_str ":" "" fields), app_nil_str.
  rewrite (strip_app_nonspace name ":" fields colon_nonspace).
  unfold Py.split.
  rewrite (split_at_first _ (Py.lstrip name) ":" (Py.rstrip fields));
    [|by apply free_of_lstrip|by apply bool_decide_eq_true].
  destruct (split_at_cons (fun c => bool_decide (c = ":"%char)) (Py.rstrip fields))
    as (part1 & parts & ->).
  rewrite (index_ok _ 0 (Py.lstrip name)), bind_ok by done.
  rewrite (index_ok _ 1 part1), bind_ok by done.
  by rewrite strip_lstrip, Hf.
Qed.

Lemma kept_members cfg (allowed : gset string) interfaces :
  If_v4.FILTER_INTERFACES cfg = Some allowed -> allowed ≠ ∅ ->
  kept cfg interfaces = members allowed interfaces.
Proof.
  intros Hf Hne. unfold kept, members. apply List.filter_ext. intros i.
  rewrite (filtered_out_spec cfg allowed i Hf Hne).
  by rewrite bool_decide_not, negb_involutive.
Qed.

(** C6: with a non-empty filter configured, the network pipeline of
    [if_v4.py] reports the members of the filter only, in enumeration order,
    so an interface outside the set adds nothing; in the traffic pipeline
    whatever a line causes to be printed is the entry of a member, and the
    line of an interface outside the set prints nothing and leaves the other
    lines as they are. *)
Theorem filter_restricts_output (cfg : If_v4.Config) (col : If_v4.Colors)
    (h : host) (allowed : gset string) :
  If_v4.FILTER_INTERFACES cfg = Some allowed ->
  allowed ≠ ∅ ->
  (forall interfaces,
      netifaces_interfaces h = Ok interfaces ->
      If_v4.display_network_info cfg col h
        = ((If_v4.GREY col +:+ "Network Interfaces:" +:+ If_v4.RESET col)
             :: concat ((fun i => (If_v4.get_interface_info cfg col h i).1)
                          <$> members allowed interfaces),
           Ok tt)) /\
  (forall iface before after,
      iface ∉ allowed ->
      members allowed (before ++ iface :: after) = members allowed (before ++ after)) /\
  (forall line out r,
      If_v4.traffic_line cfg col line = (out, r) ->
      out = [] \/
      exists iface rest,
        iface ∈ allowed /\
        out = (If_v4.SEPIA col +:+ "  " +:+ iface +:+ ":" +:+ If_v4.RESET col)
                :: rest) /\
  (forall name fields before after,
      free_of ":" name = true ->
      Py.strip name ∉ allowed ->
      If_v4.traffic_line cfg col (Py.strip (name +:+ ":" +:+ fields)) = ([], Ok tt) /\
      for_each (If_v4.stripped (before ++ (name +:+ ":" +:+ fields) :: after))
               (If_v4.traffic_line cfg col)
        = for_each (If_v4.stripped (before ++ after)) (If_v4.traffic_line cfg col)).
Proof.
  intros Hf Hne. split; [|split; [|split]].
  - intros interfaces Hi.
    rewrite (display_network_info_v4 cfg col h interfaces Hi).
    by rewrite (kept_members cfg allowed interfaces Hf Hne).
  - intros iface before after Hout. unfold members.
    rewrite !List.filter_app. cbn [List.filter].
    by rewrite (bool_decide_eq_false_2 _ Hout).
  - intros line out r Hl.
    destruct (traffic_line_v4_output cfg col line out r Hl)
      as [->|(iface & rest & Hk & ->)]; [by left|right].
    exists iface, rest. split; [|done].
    rewrite (filtered_out_spec cfg allowed iface Hf Hne) in Hk.
    apply bool_decide_eq_false in Hk. by apply dec_stable.
  - intros name fields before after Hn Hout.
    assert (If_v4.filtered_out cfg (Py.strip name) = true) as Hk.
    { rewrite (filtered_out_spec cfg allowed _ Hf Hne). by apply bool_decide_eq_true. }
    pose proof (traffic_line_v4_filtered cfg col name fields Hn Hk) as Hl.
    split; [done|].
    rewrite !stripped_app, stripped_cons_colon, !for_each_app.
    cbn [for_each]. rewrite Hl. by rewrite (bind_ret tt).
Qed.

(** The filter [{"eth0"}] on a host that has wlan0 and eth0 in the
    enumeration and in the statistics table: no line of the output is about
    wlan0. *)
Lemma filter_restricts_output_witness :
  If_v4.main config_eth0 two_interfaces_host
    = ([ESC +:+ "[38;5;250m" +:+ "Network Interfaces:" +:+ ESC +:+ "[0m";
        ESC +:+ "[38;5;130m" +:+ "eth0:" +:+ ESC +:+ "[0m";
        "    inet: N/A"; "    netmask: N/A"; "    broadcast: N/A";
        ESC +:+ "[38;5;250m" +:+ If_v4.NEWLINE +:+ "Traffic Statistics:"
          +:+ ESC +:+ "[0m";
        ESC +:+ "[38;5;130m" +:+ "  eth0:" +:+ ESC +:+ "[0m";
        "    RX: " +:+ ESC +:+ "[38;5;250m" +:+ "100.0 B" +:+ ESC +:+ "[0m";
        "    TX: " +:+ ESC +:+ "[38;5;250m" +:+ "200.0 B" +:+ ESC +:+ "[0m"],
       0) /\
  If_v4.traffic_line config_eth0 If_v4.Colors_initial
      (Py.strip (" wlan0" +:+ ":" +:+ eth0_fields)) = ([], Ok tt) /\
  members {[ "eth0" ]} ["wlan0"; "eth0"] = ["eth0"].
Proof.
  destruct (filter_restricts_output config_eth0 If_v4.Colors_initial
              two_interfaces_host {[ "eth0" ]} eq_refl) as (Hn & Hm & _ & Ht).
  { apply non_empty_singleton_L. }
  split; [by vm_compute|]. split.
  - apply (Ht " wlan0" eth0_fields [] []); [done|].
    change (Py.strip " wlan0") with "wlan0". by intros ?%elem_of_singleton.
  - apply (Hm "wlan0" [] ["eth0"]). by intros ?%elem_of_singleton.
Defined.

(** * Further properties of the three drafts *)

(** ** The byte formatter, exactly *)

Lemma round53_exact a : 0 <= a < 2 ^ 53 -> Py.round53 a = a.
Proof.
  intros [H0 H1]. unfold Py.round53, Py.round_shift.
  assert (Z.log2 a < 53).
  { destruct (Z.eq_dec a 0) as [->|]; [done|]. apply Z.log2_lt_pow2; lia. }
  destruct (Z.leb_spec (Z.log2 a + 1 - 53) 0); [done | lia].
Qed.

(** [m] turns of the loop: every test before turn [m] succeeds, and the loop
    stops there, on the variant or on the test. *)
Lemma scale_steps (m : nat) : forall (r : nat) (x : Py.float) (i : nat),
  (m <= r)%nat ->
  (forall j : nat, (j < m)%nat ->
     1024 * 2 ^ (Py.fexp x + 10 * Z.of_nat j) <= Py.fnum x) ->
  (m = r \/ Py.fnum x < 1024 * 2 ^ (Py.fexp x + 10 * Z.of_nat m)) ->
  scale r x i = (Py.Dy (Py.fnum x) (Py.fexp x + 10 * Z.of_nat m), (i + m)%nat).
Proof.
  induction m as [|m IH]; intros r x i Hle Hgo Hstop.
  - rewrite Z.add_0_r, Nat.add_0_r. destruct x as [n e]. simpl in *.
    destruct r as [|r]; [done|]. simpl. unfold Py.float_ge. simpl.
    destruct Hstop as [|Hstop]; [done|].
    rewrite Z.add_0_r in Hstop.
    destruct (Z.leb_spec (1024 * 2 ^ e) n); [lia | done].
  - destruct r as [|r]; [lia|]. simpl.
    assert (Py.float_ge x 1024 = true) as ->.
    { unfold Py.float_ge. apply Z.leb_le.
      specialize (Hgo 0%nat ltac:(lia)). by rewrite Z.add_0_r in Hgo. }
    rewrite (IH r (Py.float_div1024 x) (S i)); [| lia | |].
    + unfold Py.float_div1024. simpl. do 2 f_equal; lia.
    + intros j Hj. specialize (Hgo (S j) ltac:(lia)). simpl.
      replace (Py.fexp x + 10 + 10 * Z.of_nat j)
        with (Py.fexp x + 10 * Z.of_nat (S j)) by lia. done.
    + destruct Hstop as [|Hstop]; [left; lia | right]. simpl.
      replace (Py.fexp x + 10 + 10 * Z.of_nat m)
        with (Py.fexp x + 10 * Z.of_nat (S m)) by lia. done.
Qed.

Lemma pow_1024 (k : nat) : 2 ^ (10 * Z.of_nat k) = 1024 ^ Z.of_nat k.
Proof. rewrite Z.pow_mul_r by lia. done. Qed.

(** The digits [format_1f] prints are the tenths nearest to the value, the
    even one of two equally near. *)
Lemma format_1f_nearest n e :
  0 <= n -> 0 <= e ->
  exists q,
    Py.format_1f (Py.Dy n e) = Py.str (q / 10) +:+ "." +:+ Py.str (q mod 10) /\
    0 <= q /\
    Z.abs (2 * (q * 2 ^ e - 10 * n)) <= 2 ^ e /\
    (Z.abs (2 * (q * 2 ^ e - 10 * n)) = 2 ^ e -> Z.even q = true).
Proof.
  intros Hn He. unfold Py.format_1f. simpl.
  assert (0 < 2 ^ e) as Hd by (apply Z.pow_pos_nonneg; lia).
  set (d := 2 ^ e) in *. rewrite (Z.abs_eq n) by done.
  pose proof (Z.div_mod (10 * n) d ltac:(lia)) as Hdm.
  pose proof (Z.mod_pos_bound (10 * n) d Hd) as Hr.
  assert (0 <= 10 * n / d) as Hq by (apply Z.div_pos; lia).
  set (q := 10 * n / d) in *. set (r := (10 * n) mod d) in *.
  destruct (Z.ltb_spec n 0) as [|_]; [lia|]. rewrite app_nil_str.
  match goal with |- context [if ?c then q + 1 else q] => destruct c eqn:Hc end.
  - exists (q + 1). split; [done|]. split; [lia|].
    apply orb_true_iff in Hc as [Hc%Z.ltb_lt | [Hc%Z.eqb_eq Ho]%andb_true_iff].
    + split; [lia|]. intros; lia.
    + split; [lia|]. intros _.
      rewrite Z.even_add, <- Z.negb_odd, Ho. done.
  - exists q. split; [done|]. split; [done|].
    apply orb_false_iff in Hc as [Hc%Z.ltb_ge Hc'].
    split; [lia|]. intros Ht.
    apply andb_false_iff in Hc' as [Hc'%Z.eqb_neq | Ho]; [lia|].
    by rewrite <- Z.negb_odd, Ho.
Qed.

Lemma float_of_int_exact b :
  0 <= b < 2 ^ 53 -> Py.float_of_int b = Ok (Py.Dy b 0).
Proof.
  intros Hb. unfold Py.float_of_int.
  rewrite (Z.abs_eq b), round53_exact by lia.
  assert (2 ^ 53 < 2 ^ 1024) by (apply Z.pow_lt_mono_r; lia).
  destruct (Z.leb_spec (2 ^ 1024) b); [lia|].
  do 2 f_equal. destruct (Z.eq_dec b 0) as [->|]; [done|].
  rewrite Z.sgn_pos; lia.
Qed.

(** X1: for a size below 2^53 the formatter picks the largest unit of the
    ladder that does not exceed the size (the last one at most) and prints
    the size in that unit to the nearest tenth, the even tenth of two
    equally near. *)
Theorem format_bytes_nearest_tenth (units : list string) (b : Z) (k : nat)
    (u : string) :
  0 <= b < 2 ^ 53 ->
  units !! k = Some u ->
  k = 0%nat \/ 1024 ^ Z.of_nat k <= b ->
  b < 1024 ^ Z.of_nat (S k) \/ S k = length units ->
  exists q,
    format_bytes_with units b
      = Ok (Py.str (q / 10) +:+ "." +:+ Py.str (q mod 10) +:+ " " +:+ u) /\
    0 <= q /\
    Z.abs (2 * (q * 1024 ^ Z.of_nat k - 10 * b)) <= 1024 ^ Z.of_nat k /\
    (Z.abs (2 * (q * 1024 ^ Z.of_nat k - 10 * b)) = 1024 ^ Z.of_nat k ->
     Z.even q = true).
Proof.
  intros Hb Hu Hlow Hhigh.
  pose proof (lookup_lt_Some _ _ _ Hu) as Hk.
  destruct (format_1f_nearest b (10 * Z.of_nat k)) as (q & Hf & Hq & Hnear & Htie);
    [lia | lia |].
  rewrite pow_1024 in Hnear, Htie.
  exists q. split; [|done].
  unfold format_bytes_with. rewrite float_of_int_exact by done. simpl.
  rewrite (scale_steps k); simpl.
  - rewrite (index_ok _ _ _ Hu). simpl. by rewrite Z.add_0_l, Hf, !app_assoc_str.
  - lia.
  - intros j Hj. destruct Hlow as [->|Hlow]; [lia|].
    rewrite Z.add_0_l, pow_1024.
    assert (1024 ^ Z.of_nat (S j) <= 1024 ^ Z.of_nat k)
      by (apply Z.pow_le_mono_r; lia).
    rewrite Nat2Z.inj_succ, Z.pow_succ_r in * by lia. lia.
  - destruct Hhigh as [Hhigh|Hlast]; [right | left; lia].
    rewrite Z.add_0_l, pow_1024.
    rewrite Nat2Z.inj_succ, Z.pow_succ_r in Hhigh by lia. lia.
Qed.

Lemma format_bytes_nearest_tenth_witness :
  exists q,
    format_bytes_with If_8.units 1587 = Ok (Py.str (q / 10) +:+ "." +:+ Py.str (q mod 10) +:+ " " +:+ "KiB") /\
    0 <= q /\
    Z.abs (2 * (q * 1024 ^ Z.of_nat 1 - 10 * 1587)) <= 1024 ^ Z.of_nat 1 /\
    (Z.abs (2 * (q * 1024 ^ Z.of_nat 1 - 10 * 1587)) = 1024 ^ Z.of_nat 1 ->
     Z.even q = true).
Proof.
  apply (format_bytes_nearest_tenth If_8.units 1587 1 "KiB");
    [lia | reflexivity | right; vm_compute; discriminate | left; vm_compute; reflexivity].
Defined.

(** X2: a negative size is never scaled: it is printed with its sign, one
    zero decimal and the first unit of the ladder. *)
Theorem format_bytes_negative (units : list string) (u0 : string) (b : Z) :
  units !! 0%nat = Some u0 ->
  - 2 ^ 53 < b < 0 ->
  format_bytes_with units b = Ok ("-" +:+ Py.str (- b) +:+ ".0 " +:+ u0).
Proof.
  intros Hu Hb. unfold format_bytes_with, Py.float_of_int.
  rewrite (Z.abs_neq b), round53_exact by lia.
  assert (2 ^ 53 < 2 ^ 1024) by (apply Z.pow_lt_mono_r; lia).
  destruct (Z.leb_spec (2 ^ 1024) (- b)); [lia|]. simpl.
  rewrite Z.sgn_neg by lia. replace (-1 * - b) with b by lia.
  assert (scale (length units - 1) (Py.Dy b 0) 0 = (Py.Dy b 0, 0%nat)) as ->.
  { destruct (length units - 1)%nat; [done|]. simpl. unfold Py.float_ge. simpl.
    change (2 ^ 0) with 1.
    destruct (Z.leb_spec (1024 * 1) b); [lia | done]. }
  rewrite (index_ok _ _ _ Hu). simpl. f_equal.
  unfold Py.format_1f. simpl. change (2 ^ 0) with 1.
  destruct (Z.ltb_spec b 0); [|lia].
  rewrite Z.div_1_r, Z.mod_1_r. simpl.
  rewrite (Z.abs_neq b) by lia.
  replace (10 * - b / 10) with (- b) by (apply Z.div_unique_exact; lia).
  replace ((10 * - b) mod 10) with 0
    by (symmetry; rewrite (Z.mul_comm 10); apply Z.mod_mul; lia).
  by rewrite !app_assoc_str.
Qed.

Lemma format_bytes_negative_witness :
  If_8v2.format_bytes (-5) = Ok "-5.0 B".
Proof.
  apply (format_bytes_negative If_8v2.units "B" (-5)); [reflexivity | lia].
Defined.

(** ** What can leave a turn of the traffic loop *)

Lemma float_of_int_outcome b :
  (exists x, Py.float_of_int b = Ok x) \/ Py.float_of_int b = Raise overflow.
Proof.
  unfold Py.float_of_int.
  destruct (Z.leb _ _); [by right | left; eauto].
Qed.

Lemma format_bytes_with_outcome units b :
  (exists s, format_bytes_with units b = Ok s) \/
  format_bytes_with units b = Raise overflow \/
  (units = [] /\ format_bytes_with units b = Raise out_of_range).
Proof.
  unfold format_bytes_with.
  destruct (float_of_int_outcome b) as [[x ->] | ->]; [|by right; left]. simpl.
  destruct (scale (length units - 1) x 0) as [x' i'] eqn:Hs.
  apply scale_spec in Hs as [_ Hi].
  destruct units as [|u0 units].
  - right; right. split; [done|]. simpl in Hi. by replace i' with 0%nat by lia.
  - left. simpl in Hi.
    destruct (lookup_lt_is_Some_2 (u0 :: units) i') as [u Hu]; [simpl; lia|].
    rewrite (index_ok _ _ _ Hu). simpl. eauto.
Qed.

Lemma report_8v2_outcome iface rx tx :
  (exists out, If_8v2.report iface rx tx = (out, Ok tt)) \/
  If_8v2.report iface rx tx = ([], Raise overflow).
Proof.
  unfold If_8v2.report, If_8v2.format_bytes.
  destruct (format_bytes_with_outcome If_8v2.units rx) as [[srx ->] | [-> | [? _]]];
    [| by right | done].
  destruct (format_bytes_with_outcome If_8v2.units tx) as [[stx ->] | [-> | [? _]]];
    [| by right | done].
  left. rewrite !bind_ok. eauto.
Qed.

Lemma bind_out {A B} (m : io A) (k : A -> io B) out r :
  bind m k = (out, r) ->
  (exists a out1 out2, m = (out1, Ok a) /\ k a = (out2, r) /\ out = out1 ++ out2) \/
  (exists e, m = (out, Raise e) /\ r = Raise e).
Proof.
  destruct m as [out1 [a|e]]; simpl.
  - destruct (k a) as [out2 r'] eqn:Hk. intros [= <- <-]. left. eauto 10.
  - intros [= <- <-]. right. eauto.
Qed.

Lemma for_each_outcome {A} (P : result unit -> Prop) (f : A -> io unit) :
  P (Ok tt) ->
  (forall x out r, f x = (out, r) -> r = Ok tt \/ P r) ->
  forall l out r, for_each l f = (out, r) -> P r.
Proof.
  intros Hok Hf l. induction l as [|x l IH]; intros out r.
  - by intros [= <- <-].
  - simpl. intros [(a & out1 & out2 & Hx & Hl & _) | (e & Hx & ->)]%bind_out.
    + eauto.
    + by destruct (Hf _ _ _ Hx).
Qed.

(** X3: whatever a line of the table holds, a turn of the loop of
    [if_8v2.py] ends normally or with the [OverflowError] of [float]; so
    does the loop. *)
Theorem traffic_8v2_only_overflow_escapes (lines : list string) :
  (forall line,
      (exists out, If_8v2.traffic_line line = (out, Ok tt)) \/
      If_8v2.traffic_line line = ([], Raise overflow)) /\
  (forall out r,
      for_each lines If_8v2.traffic_line = (out, r) ->
      r = Ok tt \/ r = Raise overflow).
Proof.
  assert (forall line,
    (exists out, If_8v2.traffic_line line = (out, Ok tt)) \/
    If_8v2.traffic_line line = ([], Raise overflow)) as Hline.
  { intros line.
    destruct (traffic_line_8v2_cases line) as [-> | [-> | (rx & tx & ->)]];
      [left; eauto | left; eauto |].
    apply report_8v2_outcome. }
  split; [done|].
  apply (for_each_outcome (fun r => r = Ok tt \/ r = Raise overflow)); [by left|].
  intros line out r Hr.
  destruct (Hline line) as [[out' Hl] | Hl]; rewrite Hl in Hr;
    injection Hr as <- <-; [by left | right; by right].
Qed.

Lemma split_single sep line p :
  Py.split sep line = [p] -> free_of sep line = true.
Proof.
  unfold Py.split, free_of. revert p.
  induction line as [|c line IH]; intros p; [done|]. simpl.
  destruct (bool_decide (c = sep)).
  - destruct (split_at_cons (λ c0 : ascii, bool_decide (c0 = sep)) line)
      as (h' & t' & ->). done.
  - destruct (Py.split_at _ line) as [|h' t'] eqn:Hs; [by destruct (split_at_cons (λ c0 : ascii, bool_decide (c0 = sep)) line) as (? & ? & ?); congruence|].
    intros [= <- ->]. simpl. eauto.
Qed.

Lemma report_v4_outcome cfg col t out r :
  If_v4.report cfg col t = (out, r) ->
  r = Ok tt \/ r = Raise overflow \/ r = Raise out_of_range.
Proof.
  unfold If_v4.report, If_v4.rx_human, If_v4.tx_human, If_v4.format_bytes.
  destruct (format_bytes_with_outcome (If_v4.BYTE_UNITS cfg) (If_v4.rx_bytes t))
    as [[srx ->] | [-> | [_ ->]]];
    [| intros [= <- <-]; by right; left | intros [= <- <-]; by right; right].
  destruct (format_bytes_with_outcome (If_v4.BYTE_UNITS cfg) (If_v4.tx_bytes t))
    as [[stx ->] | [-> | [_ ->]]];
    [| intros [= <- <-]; by right; left | intros [= <- <-]; by right; right].
  intros [= <- <-]. by left.
Qed.

(** X4: a turn of the loop of [if_v4.py] ends normally, or with the
    [IndexError] of a line without a colon, before anything is printed, or
    with the [OverflowError] of [float]. *)
Theorem traffic_v4_escapes (cfg : If_v4.Config) (col : If_v4.Colors)
    (line : string) (out : list string) (r : result unit) :
  If_v4.traffic_line cfg col line = (out, r) ->
  r = Ok tt \/
  (r = Raise out_of_range /\ out = [] /\ free_of ":" line = true) \/
  r = Raise overflow.
Proof.
  unfold If_v4.traffic_line.
  destruct (Py.split ":" line) as [|p0 [|p1 rest]] eqn:Hs.
  - by destruct (split_at_cons (λ c : ascii, bool_decide (c = ":"%char)) line)
      as (? & ? & ?); unfold Py.split in Hs; congruence.
  - intros [= <- <-]. right; left. eauto using split_single.
  - rewrite (index_ok _ 0 p0), (index_ok _ 1 p1), !bind_ok by done.
    destruct (If_v4.filtered_out cfg (Py.strip p0)); [intros [= <- <-]; by left|].
    destruct (index (Py.split_ws p1) 0) as [s0|e0] eqn:H0.
    2:{ unfold index in H0. destruct (_ !! _); [done|]. injection H0 as <-.
        intros [= <- <-]. by left. }
    rewrite bind_ok.
    destruct (Py.int s0) as [rx|] eqn:Hrx.
    2:{ destruct (int_of_none _ Hrx) as [msg ->]. intros [= <- <-]. by left. }
    rewrite (int_of_ok _ _ Hrx), bind_ok.
    destruct (index (Py.split_ws p1) 8) as [s8|e8] eqn:H8.
    2:{ unfold index in H8. destruct (_ !! _); [done|]. injection H8 as <-.
        intros [= <- <-]. by left. }
    rewrite bind_ok.
    destruct (Py.int s8) as [tx|] eqn:Htx.
    2:{ destruct (int_of_none _ Htx) as [msg ->]. intros [= <- <-]. by left. }
    rewrite (int_of_ok _ _ Htx), bind_ok.
    destruct (If_v4.report cfg col _) as [out' r'] eqn:Hrep.
    destruct (report_v4_outcome _ _ _ _ _ Hrep) as [-> | [-> | ->]].
    + intros [= <- <-]. by left.
    + intros [= <- <-]. by right; right.
    + intros [= <- <-]. by left.
Qed.

Lemma traffic_v4_escapes_witness :
  @Raise unit out_of_range = Ok tt \/
  (@Raise unit out_of_range = Raise out_of_range /\
   @nil string = [] /\ free_of ":" "no colon here" = true) \/
  @Raise unit out_of_range = Raise overflow.
Proof.
  apply (traffic_v4_escapes If_v4.config If_v4.Colors_initial "no colon here"
           [] (Raise out_of_range)).
  reflexivity.
Defined.

Lemma free_of_strip c s : free_of c s = true -> free_of c (Py.strip s) = true.
Proof. intros. by apply free_of_lstrip, free_of_rstrip. Qed.

Lemma stripped_cons_nonblank line l :
  Py.is_empty (Py.strip line) = false ->
  If_v4.stripped (line :: l) = Py.strip line :: If_v4.stripped l.
Proof. intros H. unfold If_v4.stripped. simpl. by rewrite H. Qed.

Lemma traffic_line_v4_no_colon cfg col line :
  free_of ":" line = true ->
  If_v4.traffic_line cfg col (Py.strip line) = ([], Raise out_of_range).
Proof.
  intros H. unfold If_v4.traffic_line.
  by rewrite (split_no_colon _ (free_of_strip _ _ H)).
Qed.

(** X5: in [if_v4.py] a line of the table that is not blank and has no
    colon ends the traffic report: what the lines before it gave is
    printed, then the error line of the [IndexError], and nothing of the
    lines after it. *)
Theorem traffic_v4_line_without_colon_ends_report (cfg : If_v4.Config)
    (col : If_v4.Colors) (h : host) (content hd1 hd2 line : string)
    (before after out : list string) :
  fs h (If_v4.PROC_NET_DEV cfg) = Text content ->
  Py.readlines content = hd1 :: hd2 :: before ++ line :: after ->
  free_of ":" line = true ->
  Py.is_empty (Py.strip line) = false ->
  for_each (If_v4.stripped before) (If_v4.traffic_line cfg col) = (out, Ok tt) ->
  If_v4.display_traffic_stats cfg col h
    = ((If_v4.GREY col +:+ If_v4.NEWLINE +:+ "Traffic Statistics:"
          +:+ If_v4.RESET col)
         :: out
         ++ [If_v4.RED col +:+ "Error reading stats: list index out of range"
               +:+ If_v4.RESET col],
       Ok tt).
Proof.
  intros Hfs Hlines Hfree Hblank Hbefore.
  rewrite (display_traffic_stats_v4_lines _ _ _ _ Hfs), Hlines.
  rewrite !skipn_cons, drop_0, stripped_app, stripped_cons_nonblank by done.
  rewrite for_each_app, Hbefore. simpl for_each.
  rewrite traffic_line_v4_no_colon by done. simpl.
  by rewrite app_nil_r.
Qed.

Lemma traffic_v4_line_without_colon_ends_report_witness :
  If_v4.display_traffic_stats If_v4.config If_v4.Colors_initial
    (table_host (table "Inter-|  Receive..." " face |bytes ..."
                   ("  eth0:" +:+ eth0_fields +:+ "no colon here" +:+ LFs
                      +:+ " wlan0:" +:+ eth0_fields)))
  = ((If_v4.GREY If_v4.Colors_initial +:+ If_v4.NEWLINE +:+ "Traffic Statistics:"
          +:+ If_v4.RESET If_v4.Colors_initial)
         :: [ESC +:+ "[38;5;130m" +:+ "  eth0:" +:+ ESC +:+ "[0m";
             "    RX: " +:+ ESC +:+ "[38;5;250m" +:+ "100.0 B" +:+ ESC +:+ "[0m";
             "    TX: " +:+ ESC +:+ "[38;5;250m" +:+ "200.0 B" +:+ ESC +:+ "[0m"]
         ++ [If_v4.RED If_v4.Colors_initial
               +:+ "Error reading stats: list index out of range"
               +:+ If_v4.RESET If_v4.Colors_initial],
       Ok tt).
Proof.
  apply (traffic_v4_line_without_colon_ends_report If_v4.config If_v4.Colors_initial
           (table_host (table "Inter-|  Receive..." " face |bytes ..."
                          ("  eth0:" +:+ eth0_fields +:+ "no colon here" +:+ LFs
                             +:+ " wlan0:" +:+ eth0_fields)))
           (table "Inter-|  Receive..." " face |bytes ..."
                  ("  eth0:" +:+ eth0_fields +:+ "no colon here" +:+ LFs
                     +:+ " wlan0:" +:+ eth0_fields))
           ("Inter-|  Receive..." +:+ LFs) (" face |bytes ..." +:+ LFs)
           ("no colon here" +:+ LFs)
           ["  eth0:" +:+ eth0_fields] [" wlan0:" +:+ eth0_fields]);
    vm_compute; reflexivity.
Defined.

(** ** The first draft's traffic report *)

Lemma display_traffic_stats_8_lines h content :
  fs h "/proc/net/dev" = Text content ->
  If_8.display_traffic_stats h
    = (print (If_8.GREY_COLOR +:+ If_8.NEWLINE +:+ "Traffic Statistics:"
                +:+ If_8.RESET_COLOR) >>
       for_each (drop 2 (Py.readlines content)) If_8.traffic_line).
Proof. intros H. unfold If_8.display_traffic_stats. by rewrite H. Qed.

Lemma traffic_line_8_malformed k line :
  malformed k line ->
  (k = NoColon -> Py.is_empty (Py.strip line) = false) ->
  exists e,
    exn_cls e ∈ [IndexError; ValueError] /\
    If_8.traffic_line line = ([], Raise e).
Proof.
  intros Hm Hblank. unfold If_8.traffic_line.
  destruct Hm as [line Hfree | name fields more Hn Hf Hlen
                  | name fields more Hn Hf Hlen Hnum].
  - rewrite Hblank, (split_no_colon _ Hfree) by done.
    exists out_of_range. split; [simpl; repeat constructor | done].
  - rewrite (app_cons_str ":" "" (fields +:+ beyond more)), app_nil_str.
    rewrite (strip_nonempty _ _ _ colon_nonspace).
    destruct (split_colon_more name fields more Hn Hf) as [rest ->].
    rewrite (index_ok _ 0 name), (index_ok _ 1 fields), !bind_ok by done.
    destruct (Py.split_ws fields !! 0%nat) as [s0|] eqn:H0.
    2:{ rewrite (index_none _ _ H0). exists out_of_range. split; [simpl; repeat constructor | done]. }
    rewrite (index_ok _ _ _ H0), bind_ok.
    destruct (Py.int s0) as [rx|] eqn:Hrx.
    2:{ destruct (int_of_none _ Hrx) as [msg ->]. eexists. split; [|done]. simpl; repeat constructor. }
    rewrite (int_of_ok _ _ Hrx), bind_ok.
    rewrite (index_none _ 8) by (apply lookup_ge_None_2; lia).
    exists out_of_range. split; [simpl; repeat constructor | done].
  - rewrite (app_cons_str ":" "" (fields +:+ beyond more)), app_nil_str.
    rewrite (strip_nonempty _ _ _ colon_nonspace).
    destruct (split_colon_more name fields more Hn Hf) as [rest ->].
    rewrite (index_ok _ 0 name), (index_ok _ 1 fields), !bind_ok by done.
    destruct (lookup_lt_is_Some_2 (Py.split_ws fields) 0) as [s0 H0]; [lia|].
    destruct (lookup_lt_is_Some_2 (Py.split_ws fields) 8) as [s8 H8]; [lia|].
    unfold field in Hnum. rewrite H0, H8 in Hnum. simpl in Hnum.
    rewrite (index_ok _ _ _ H0), bind_ok.
    destruct (Py.int s0) as [rx|] eqn:Hrx.
    2:{ destruct (int_of_none _ Hrx) as [msg ->]. eexists. split; [|done]. simpl; repeat constructor. }
    rewrite (int_of_ok _ _ Hrx), bind_ok, (index_ok _ _ _ H8), bind_ok.
    destruct Hnum as [|Htx]; [done|].
    destruct (int_of_none _ Htx) as [msg ->]. eexists. split; [|done]. simpl; repeat constructor.
Qed.

(** X6: the first draft checks nothing: a line of the table that is
    malformed (no colon, a blank line apart; fewer than 9 tokens between the
    first colon and the next one or the end of the line; a token 0 or 8
    there that is no integer) raises [IndexError] or [ValueError] out of
    [display_traffic_stats], after the report of the lines before it, and
    the process ends with status 1. *)
Theorem first_draft_malformed_line_raises (k : malformation) (line : string) :
  malformed k line ->
  (k = NoColon -> Py.is_empty (Py.strip line) = false) ->
  exists e,
    exn_cls e ∈ [IndexError; ValueError] /\
    If_8.traffic_line line = ([], Raise e) /\
    forall h content hd1 hd2 before after out,
      fs h "/proc/net/dev" = Text content ->
      Py.readlines content = hd1 :: hd2 :: before ++ line :: after ->
      for_each before If_8.traffic_line = (out, Ok tt) ->
      If_8.display_traffic_stats h
        = ((If_8.GREY_COLOR +:+ If_8.NEWLINE +:+ "Traffic Statistics:"
              +:+ If_8.RESET_COLOR) :: out, Raise e) /\
      forall shown,
        If_8.display_network_info h = (shown, Ok tt) ->
        If_8.main h
          = (shown ++ (If_8.GREY_COLOR +:+ If_8.NEWLINE +:+ "Traffic Statistics:"
                         +:+ If_8.RESET_COLOR) :: out, 1).
Proof.
  intros Hm Hblank.
  destruct (traffic_line_8_malformed k line Hm Hblank) as (e & Hcls & Hline).
  exists e. do 2 (split; [done|]).
  intros h content hd1 hd2 before after out Hfs Hlines Hbefore.
  assert (If_8.display_traffic_stats h
    = ((If_8.GREY_COLOR +:+ If_8.NEWLINE +:+ "Traffic Statistics:"
          +:+ If_8.RESET_COLOR) :: out, Raise e)) as Hd.
  { rewrite (display_traffic_stats_8_lines _ _ Hfs), Hlines.
    rewrite !skipn_cons, drop_0, for_each_app, Hbefore. simpl for_each.
    rewrite Hline. simpl. by rewrite app_nil_r. }
  split; [done|]. intros shown Hshown.
  unfold If_8.main. by rewrite Hshown, Hd.
Qed.

Lemma first_draft_malformed_line_raises_witness :
  exists e,
    exn_cls e ∈ [IndexError; ValueError] /\
    If_8.traffic_line ("  lo" +:+ ":" +:+ " 1 2 3 4 5") = ([], Raise e).
Proof.
  destruct (first_draft_malformed_line_raises TooFewFields
              ("  lo" +:+ ":" +:+ " 1 2 3 4 5")) as (e & He & Hl & _).
  - apply (malformed_short "  lo" " 1 2 3 4 5" None);
      [done | done | vm_compute; lia].
  - discriminate.
  - exists e. by split.
Defined.

(** A turn of the loop that ends normally in the first draft ends the same
    way in [if_8v2.py]. *)
Lemma traffic_line_8_to_8v2 line out :
  If_8.traffic_line line = (out, Ok tt) ->
  If_8v2.traffic_line line = (out, Ok tt).
Proof.
  unfold If_8.traffic_line, If_8v2.traffic_line.
  destruct (Py.is_empty (Py.strip line)); [done|].
  destruct (Py.split ":" line) as [|p0 [|p1 rest]] eqn:Hs; [done | done |].
  rewrite (index_ok _ 0 p0), (index_ok _ 1 p1), !bind_ok by done.
  change (length (p0 :: p1 :: rest) <? 2)%nat with false. cbv iota.
  destruct (Py.split_ws p1 !! 0%nat) as [s0|] eqn:H0;
    [| by rewrite (index_none _ _ H0)].
  rewrite (index_ok _ _ _ H0), !bind_ok.
  destruct (Py.int s0) as [rx|] eqn:Hrx;
    [| by destruct (int_of_none _ Hrx) as [msg ->]].
  rewrite (int_of_ok _ _ Hrx), !bind_ok.
  destruct (Py.split_ws p1 !! 8%nat) as [s8|] eqn:H8;
    [| by rewrite (index_none _ _ H8)].
  rewrite (index_ok _ _ _ H8), !bind_ok.
  destruct (Py.int s8) as [tx|] eqn:Htx;
    [| by destruct (int_of_none _ Htx) as [msg ->]].
  rewrite (int_of_ok _ _ Htx), !bind_ok.
  apply lookup_lt_Some in H8.
  destruct (Nat.ltb_spec (length (Py.split_ws p1)) 9); [lia|].
  rewrite try_except_ret, bind_ret.
  unfold If_8v2.report.
  change If_8v2.format_bytes with If_8.format_bytes.
  destruct (If_8.format_bytes rx) as [srx|]; [|done].
  destruct (If_8.format_bytes tx) as [stx|]; [|done].
  rewrite !bind_ok. by destruct (rx =? 0), (tx =? 0).
Qed.

Lemma for_each_refine {A} (f g : A -> io unit) :
  (forall x out, f x = (out, Ok tt) -> g x = (out, Ok tt)) ->
  forall l out, for_each l f = (out, Ok tt) -> for_each l g = (out, Ok tt).
Proof.
  intros Hfg l. induction l as [|x l IH]; intros out; [done|]. simpl.
  intros [([] & out1 & out2 & Hx & Hl & ->) | (e & _ & ?)]%bind_out; [|done].
  by rewrite (Hfg _ _ Hx), (IH _ Hl).
Qed.

(** X7: the hardening keeps what worked: whenever the traffic report of the
    first draft ends normally, [if_8v2.py] prints the same lines. *)
Theorem hardened_traffic_report_agrees (h : host) (out : list string) :
  If_8.display_traffic_stats h = (out, Ok tt) ->
  If_8v2.display_traffic_stats h = (out, Ok tt).
Proof.
  unfold If_8.display_traffic_stats.
  destruct (fs h "/proc/net/dev") as [|msg|content] eqn:Hfs.
  - intros <-%(inj (λ o, (o, Ok tt))). unfold If_8v2.display_traffic_stats, path_exists. by rewrite Hfs.
  - done.
  - rewrite (display_traffic_stats_8v2_lines _ _ Hfs).
    intros [([] & out1 & out2 & [= <-] & Hl & ->) | (e & ? & ?)]%bind_out; [|done].
    apply (for_each_refine _ _ traffic_line_8_to_8v2) in Hl.
    change (If_8.GREY_COLOR +:+ If_8.NEWLINE +:+ "Traffic Statistics:" +:+ If_8.RESET_COLOR)
      with (If_8v2.GREY_COLOR +:+ If_8v2.NEWLINE +:+ "Traffic Statistics:" +:+ If_8v2.RESET_COLOR).
    unfold print at 1. simpl. by rewrite Hl.
Qed.

Lemma hardened_traffic_report_agrees_witness :
  If_8v2.display_traffic_stats (table_host sample_table)
    = ([If_8.GREY_COLOR +:+ If_8.NEWLINE +:+ "Traffic Statistics:"
          +:+ If_8.RESET_COLOR;
        If_8.SEP_COLOR +:+ "  eth0:" +:+ If_8.RESET_COLOR;
        "    RX: " +:+ If_8.GREY_COLOR +:+ "100.0 B" +:+ If_8.RESET_COLOR;
        "    TX: " +:+ If_8.GREY_COLOR +:+ "200.0 B" +:+ If_8.RESET_COLOR],
       Ok tt).
Proof.
  apply (hardened_traffic_report_agrees (table_host sample_table)).
  vm_compute. reflexivity.
Defined.

(** X8: a statistics table that exists and cannot be read: the first draft
    lets the [OSError] leave [display_traffic_stats]; the two later drafts
    print one error line with the message and return. *)
Theorem unreadable_table (h : host) (msg : string) :
  fs h "/proc/net/dev" = Unreadable msg ->
  If_8.display_traffic_stats h = ([], Raise (Exn OSError msg)) /\
  If_8v2.display_traffic_stats h
    = (["Error reading traffic stats: " +:+ msg], Ok tt) /\
  forall cfg col,
    If_v4.PROC_NET_DEV cfg = "/proc/net/dev" ->
    If_v4.display_traffic_stats cfg col h
      = ([If_v4.RED col +:+ "Error reading stats: " +:+ msg +:+ If_v4.RESET col],
         Ok tt).
Proof.
  intros Hfs. split; [|split].
  - unfold If_8.display_traffic_stats. by rewrite Hfs.
  - unfold If_8v2.display_traffic_stats, path_exists, open_and. by rewrite Hfs.
  - intros cfg col Hp.
    unfold If_v4.display_traffic_stats, path_exists, open_and. by rewrite Hp, Hfs.
Qed.

Lemma unreadable_table_witness :
  If_8v2.display_traffic_stats locked_table_host
    = (["Error reading traffic stats: [Errno 13] Permission denied: '/proc/net/dev'"],
       Ok tt).
Proof.
  apply (unreadable_table locked_table_host "[Errno 13] Permission denied: '/proc/net/dev'").
  reflexivity.
Defined.

(** X9: a statistics table of at most two lines, the empty file included,
    has no data line: each draft prints the heading of the traffic section
    and nothing else. *)
Theorem table_without_data_lines (h : host) (content : string) :
  fs h "/proc/net/dev" = Text content ->
  (length (Py.readlines content) <= 2)%nat ->
  If_8.display_traffic_stats h
    = ([If_8.GREY_COLOR +:+ If_8.NEWLINE +:+ "Traffic Statistics:"
          +:+ If_8.RESET_COLOR], Ok tt) /\
  If_8v2.display_traffic_stats h
    = ([If_8v2.GREY_COLOR +:+ If_8v2.NEWLINE +:+ "Traffic Statistics:"
          +:+ If_8v2.RESET_COLOR], Ok tt) /\
  forall cfg col,
    If_v4.PROC_NET_DEV cfg = "/proc/net/dev" ->
    If_v4.display_traffic_stats cfg col h
      = ([If_v4.GREY col +:+ If_v4.NEWLINE +:+ "Traffic Statistics:"
            +:+ If_v4.RESET col], Ok tt).
Proof.
  intros Hfs Hlen.
  assert (drop 2 (Py.readlines content) = []) as Hd
    by (apply drop_ge; lia).
  split; [|split].
  - by rewrite (display_traffic_stats_8_lines _ _ Hfs), Hd.
  - by rewrite (display_traffic_stats_8v2_lines _ _ Hfs), Hd.
  - intros cfg col Hp. rewrite <- Hp in Hfs.
    by rewrite (display_traffic_stats_v4_lines _ _ _ _ Hfs), Hd.
Qed.

Lemma table_without_data_lines_witness :
  If_8v2.display_traffic_stats (table_host "")
    = ([If_8v2.GREY_COLOR +:+ If_8v2.NEWLINE +:+ "Traffic Statistics:"
          +:+ If_8v2.RESET_COLOR], Ok tt).
Proof.
  apply (table_without_data_lines (table_host "") ""); [reflexivity | vm_compute; lia].
Defined.

(** ** The exit status *)

Lemma try_except_Exception_total (m : io unit) (k : exn -> io unit) :
  (forall e, exists out, k e = (out, Ok tt)) ->
  exists out, try_except_Exception m k = (out, Ok tt).
Proof.
  intros Hk. destruct m as [out [[]|e]]; simpl; [eauto|].
  destruct (Hk e) as [out' ->]. eauto.
Qed.

Lemma display_traffic_stats_8v2_total h :
  exists out, If_8v2.display_traffic_stats h = (out, Ok tt).
Proof.
  unfold If_8v2.display_traffic_stats.
  destruct (negb _); [by eexists|].
  apply try_except_Exception_total. intros e. by eexists.
Qed.


(** X10: [if_8v2.py] ends with status 0 exactly when the platform is Linux
    and the interfaces could be enumerated; no other failure, of an
    interface or of the statistics table, changes the status.  Elsewhere it
    prints one sentence; when the enumeration fails, the heading only. *)
Theorem main_8v2_exit_status (h : host) :
  ((If_8v2.main h).2 = 0 <->
   String.prefix "linux" (sys_platform h) = true /\
   exists interfaces, netifaces_interfaces h = Ok interfaces) /\
  ((If_8v2.main h).2 = 0 \/ (If_8v2.main h).2 = 1) /\
  (String.prefix "linux" (sys_platform h) = false ->
   If_8v2.main h = (["This script is designed for Linux systems."], 1)) /\
  (forall e,
      String.prefix "linux" (sys_platform h) = true ->
      netifaces_interfaces h = Raise e ->
      If_8v2.main h
        = ([If_8v2.GREY_COLOR +:+ "Network Interfaces:" +:+ If_8v2.RESET_COLOR], 1)).
Proof.
  unfold If_8v2.main.
  destruct (String.prefix "linux" (sys_platform h)) eqn:Hp; simpl.
  - destruct (netifaces_interfaces h) as [interfaces|e] eqn:Hi.
    + rewrite (display_network_info_8v2 _ _ Hi).
      destruct (display_traffic_stats_8v2_total h) as [out ->]. simpl.
      repeat split; eauto; done.
    + unfold If_8v2.display_network_info. rewrite Hi. simpl.
      repeat split; eauto; try done. by intros [_ [? ?]].
  - repeat split; eauto; try done. by intros [? _].
Qed.


(** ** The first draft's interface report *)

Lemma take_16_pack_256 b : take 16 (Py.pack_s 256 b) = Py.pack_s 16 b.
Proof.
  unfold Py.pack_s. rewrite take_take. change (16 `min` 256)%nat with 16%nat.
  destruct (Nat.le_gt_cases 16 (length b)) as [Hl|Hl].
  - by rewrite !take_app_le by lia.
  - rewrite !take_app_ge by lia.
    f_equal. rewrite !take_replicate. f_equal. lia.
Qed.

Lemma get_mtu_8_linux h interface mtu_of mtu :
  socket_socket h = Done tt ->
  fcntl_ioctl h = linux_SIOCGIFMTU mtu_of ->
  mtu_of (Py.pack_s 16 (Py.encode (String.substring 0 15 interface))) = Some mtu ->
  If_8.get_mtu h interface = Ok (mtu mod 65536).
Proof.
  intros Hs Hk Hm. unfold If_8.get_mtu. rewrite Hs, Hk. cbn [os_result rbind].
  set (request := Py.pack_s 256 (Py.encode (String.substring 0 15 interface))).
  pose proof (take_16_pack_256 (Py.encode (String.substring 0 15 interface)))
    as Hname.
  fold request in Hname.
  assert (length request = 256%nat) as Hlen by apply length_pack_s.
  unfold linux_SIOCGIFMTU. rewrite Hname, Hm. cbn [os_result rbind].
  rewrite <- Hname, slice_linux_reply by lia.
  apply unpack_low_bytes.
Qed.

Lemma get_mtu_8_raises h interface e :
  If_8.get_mtu h interface = Raise e -> handles [KeyError] e = false.
Proof.
  unfold If_8.get_mtu.
  destruct (socket_socket h) as [[]|msg]; cbn [os_result rbind];
    [| by intros [= <-]].
  destruct (fcntl_ioctl h _) as [reply|msg]; cbn [os_result rbind];
    [| by intros [= <-]].
  destruct (unpack_H_cases (Py.slice 16 18 reply)) as [(v & -> & _) | (msg & ->)];
    [done | by intros [= <-]].
Qed.

Lemma interface_details_8_complete h interface addrs entry rest ip mask :
  netifaces_ifaddresses h interface = Ok addrs ->
  addrs !! AF_INET = Some (entry :: rest) ->
  entry !! "addr" = Some ip ->
  entry !! "netmask" = Some mask ->
  If_8.interface_details h interface
    = (print (If_8.SEP_COLOR +:+ "    inet: " +:+ ip +:+ If_8.RESET_COLOR) >>
       print (If_8.SEP_COLOR +:+ "    netmask: " +:+ mask +:+ If_8.RESET_COLOR) >>
       print (If_8.SEP_COLOR +:+ "    broadcast: "
                +:+ default "N/A" (entry !! "broadcast") +:+ If_8.RESET_COLOR) >>
       let* mtu := lift (If_8.get_mtu h interface) in
       print (If_8.SEP_COLOR +:+ "    MTU: " +:+ Py.str mtu +:+ If_8.RESET_COLOR)).
Proof.
  intros Ha Hi Hip Hmask. unfold If_8.interface_details, If_8.getitem.
  rewrite Ha, bind_ok, Hi, bind_ok.
  rewrite (index_ok _ 0 entry), bind_ok by done.
  by rewrite Hip, bind_ok, Hmask, bind_ok.
Qed.

(** X12: the first draft reports an interface that has no IPv4 entry, or
    whose first entry lacks the address or the netmask, by its name and
    [No IPv4 address found.]; the MTU is not queried, so that the report does
    not depend on the socket. *)
Theorem first_draft_no_ipv4 (h : host) (interface : string)
    (addrs : gmap Z (list addr_entry)) :
  netifaces_ifaddresses h interface = Ok addrs ->
  addrs !! AF_INET = None \/
  (exists entry rest,
      addrs !! AF_INET = Some (entry :: rest) /\
      (entry !! "addr" = None \/ entry !! "netmask" = None)) ->
  If_8.get_interface_info h interface
    = ([If_8.SEP_COLOR +:+ interface +:+ ":" +:+ If_8.RESET_COLOR;
        "    No IPv4 address found."], Ok tt).
Proof.
  intros Ha Hcase.
  unfold If_8.get_interface_info, If_8.interface_details, If_8.getitem.
  rewrite Ha, bind_ok.
  destruct Hcase as [-> | (entry & rest & -> & Hkey)]; [done|].
  rewrite bind_ok, (index_ok _ 0 entry), bind_ok by done.
  destruct (entry !! "addr") as [ip|]; [|done].
  destruct Hkey as [? | ->]; done.
Qed.

Lemma first_draft_no_ipv4_witness :
  If_8.get_interface_info bare_host "eth0"
    = ([If_8.SEP_COLOR +:+ "eth0" +:+ ":" +:+ If_8.RESET_COLOR;
        "    No IPv4 address found."], Ok tt).
Proof.
  apply (first_draft_no_ipv4 bare_host "eth0" ∅); [reflexivity | by left].
Defined.

(** X13: the first draft on Linux: for an interface whose first IPv4 entry
    has an address and a netmask, the report is the name, the three address
    lines and the kernel's MTU modulo [2^16], every line in the separator
    colour; an MTU of 0 is printed as such. *)
Theorem first_draft_interface_report (h : host) (interface : string)
    (addrs : gmap Z (list addr_entry)) (entry : addr_entry)
    (rest : list addr_entry) (ip mask : string)
    (mtu_of : list byte -> option Z) (mtu : Z) :
  netifaces_ifaddresses h interface = Ok addrs ->
  addrs !! AF_INET = Some (entry :: rest) ->
  entry !! "addr" = Some ip ->
  entry !! "netmask" = Some mask ->
  socket_socket h = Done tt ->
  fcntl_ioctl h = linux_SIOCGIFMTU mtu_of ->
  mtu_of (Py.pack_s 16 (Py.encode (String.substring 0 15 interface))) = Some mtu ->
  If_8.get_interface_info h interface
    = ([If_8.SEP_COLOR +:+ interface +:+ ":" +:+ If_8.RESET_COLOR;
        If_8.SEP_COLOR +:+ "    inet: " +:+ ip +:+ If_8.RESET_COLOR;
        If_8.SEP_COLOR +:+ "    netmask: " +:+ mask +:+ If_8.RESET_COLOR;
        If_8.SEP_COLOR +:+ "    broadcast: "
          +:+ default "N/A" (entry !! "broadcast") +:+ If_8.RESET_COLOR;
        If_8.SEP_COLOR +:+ "    MTU: " +:+ Py.str (mtu mod 2 ^ 16)
          +:+ If_8.RESET_COLOR],
       Ok tt).
Proof.
  intros Ha Hi Hip Hmask Hs Hk Hm. unfold If_8.get_interface_info.
  rewrite (interface_details_8_complete _ _ _ _ _ _ _ Ha Hi Hip Hmask).
  by rewrite (get_mtu_8_linux _ _ _ _ Hs Hk Hm).
Qed.

Lemma first_draft_interface_report_witness :
  If_8.get_interface_info lo_host "lo"
    = ([If_8.SEP_COLOR +:+ "lo" +:+ ":" +:+ If_8.RESET_COLOR;
        If_8.SEP_COLOR +:+ "    inet: " +:+ "127.0.0.1" +:+ If_8.RESET_COLOR;
        If_8.SEP_COLOR +:+ "    netmask: " +:+ "255.0.0.0" +:+ If_8.RESET_COLOR;
        If_8.SEP_COLOR +:+ "    broadcast: " +:+ "N/A" +:+ If_8.RESET_COLOR;
        If_8.SEP_COLOR +:+ "    MTU: " +:+ "0" +:+ If_8.RESET_COLOR],
       Ok tt).
Proof.
  rewrite (first_draft_interface_report lo_host "lo"
           {[ AF_INET := [ {[ "addr" := "127.0.0.1"; "netmask" := "255.0.0.0" ]} ] ]}
           {[ "addr" := "127.0.0.1"; "netmask" := "255.0.0.0" ]} []
           "127.0.0.1" "255.0.0.0"
           (fun name =>
              if bool_decide (Py.byte_val <$> name
                                = Py.byte_val <$> Py.pack_s 16 (Py.encode "lo"))
              then Some 65536 else None)
           65536 eq_refl eq_refl eq_refl eq_refl eq_refl eq_refl);
    by vm_compute.
Defined.

(** X14: in the first draft a failing MTU query ends everything: the
    exception leaves [get_interface_info] after the three address lines,
    the interfaces after this one are not reported, the traffic report is
    not printed, and the process ends with status 1. *)
Theorem first_draft_mtu_failure_ends_run (h : host) (interface : string)
    (addrs : gmap Z (list addr_entry)) (entry : addr_entry)
    (rest : list addr_entry) (ip mask : string) (e : exn)
    (before after out : list string) :
  netifaces_interfaces h = Ok (before ++ interface :: after) ->
  for_each before (If_8.get_interface_info h) = (out, Ok tt) ->
  netifaces_ifaddresses h interface = Ok addrs ->
  addrs !! AF_INET = Some (entry :: rest) ->
  entry !! "addr" = Some ip ->
  entry !! "netmask" = Some mask ->
  If_8.get_mtu h interface = Raise e ->
  If_8.main h
    = ((If_8.GREY_COLOR +:+ "Network Interfaces:" +:+ If_8.RESET_COLOR)
         :: out
         ++ [If_8.SEP_COLOR +:+ interface +:+ ":" +:+ If_8.RESET_COLOR;
             If_8.SEP_COLOR +:+ "    inet: " +:+ ip +:+ If_8.RESET_COLOR;
             If_8.SEP_COLOR +:+ "    netmask: " +:+ mask +:+ If_8.RESET_COLOR;
             If_8.SEP_COLOR +:+ "    broadcast: "
               +:+ default "N/A" (entry !! "broadcast") +:+ If_8.RESET_COLOR],
       1).
Proof.
  intros Hl Hbefore Ha Hi Hip Hmask Hmtu.
  assert (If_8.get_interface_info h interface
    = ([If_8.SEP_COLOR +:+ interface +:+ ":" +:+ If_8.RESET_COLOR;
        If_8.SEP_COLOR +:+ "    inet: " +:+ ip +:+ If_8.RESET_COLOR;
        If_8.SEP_COLOR +:+ "    netmask: " +:+ mask +:+ If_8.RESET_COLOR;
        If_8.SEP_COLOR +:+ "    broadcast: "
          +:+ default "N/A" (entry !! "broadcast") +:+ If_8.RESET_COLOR],
       Raise e)) as Hinfo.
  { unfold If_8.get_interface_info.
    rewrite (interface_details_8_complete _ _ _ _ _ _ _ Ha Hi Hip Hmask), Hmtu.
    unfold try_except, print, bind, lift. simpl.
    by rewrite (get_mtu_8_raises _ _ _ Hmtu). }
  unfold If_8.main, If_8.display_network_info.
  rewrite Hl, bind_ok, for_each_app, Hbefore. simpl for_each.
  by rewrite Hinfo.
Qed.

Lemma first_draft_mtu_failure_ends_run_witness :
  If_8.main no_device_host
    = ((If_8.GREY_COLOR +:+ "Network Interfaces:" +:+ If_8.RESET_COLOR)
         :: [If_8.SEP_COLOR +:+ "lo" +:+ ":" +:+ If_8.RESET_COLOR;
             "    No IPv4 address found."]
         ++ [If_8.SEP_COLOR +:+ "eth0" +:+ ":" +:+ If_8.RESET_COLOR;
             If_8.SEP_COLOR +:+ "    inet: " +:+ "10.0.0.2" +:+ If_8.RESET_COLOR;
             If_8.SEP_COLOR +:+ "    netmask: " +:+ "255.255.255.0"
               +:+ If_8.RESET_COLOR;
             If_8.SEP_COLOR +:+ "    broadcast: " +:+ "10.0.0.255"
               +:+ If_8.RESET_COLOR],
       1).
Proof.
  rewrite (first_draft_mtu_failure_ends_run no_device_host "eth0"
           {[ AF_INET := [ {[ "addr" := "10.0.0.2";
                              "netmask" := "255.255.255.0";
                              "broadcast" := "10.0.0.255" ]} ] ]}
           {[ "addr" := "10.0.0.2"; "netmask" := "255.255.255.0";
              "broadcast" := "10.0.0.255" ]} []
           "10.0.0.2" "255.255.255.0"
           (Exn OSError "[Errno 19] No such device") ["lo"] []
           [If_8.SEP_COLOR +:+ "lo" +:+ ":" +:+ If_8.RESET_COLOR;
            "    No IPv4 address found."]
           eq_refl eq_refl eq_refl eq_refl eq_refl eq_refl eq_refl).
  by vm_compute.
Defined.

(** ** The filter and the unit ladder of [if_v4.py] *)

Lemma for_each_ext {A} (f g : A -> io unit) l :
  (forall x, f x = g x) -> for_each l f = for_each l g.
Proof. intros H. induction l as [|x l IH]; [done|]. simpl. by rewrite H, IH. Qed.

Lemma bind_print {B} s (k : unit -> io B) :
  bind (print s) k = let '(out, r) := k tt in (s :: out, r).
Proof. reflexivity. Qed.

(** X15: an empty filter set filters nothing: Python reads the empty set
    as false, and [if_v4.py] then runs exactly as with the filter [None]. *)
Theorem empty_filter_keeps_everything (cfg : If_v4.Config) (h : host) :
  If_v4.FILTER_INTERFACES cfg = Some ∅ ->
  (forall interface, If_v4.filtered_out cfg interface = false) /\
  If_v4.main cfg h
    = If_v4.main {| If_v4.FILTER_INTERFACES := None;
                    If_v4.COLOR_OUTPUT := If_v4.COLOR_OUTPUT cfg;
                    If_v4.BYTE_UNITS := If_v4.BYTE_UNITS cfg;
                    If_v4.PROC_NET_DEV := If_v4.PROC_NET_DEV cfg;
                    If_v4.SYSFS_NET_PATH := If_v4.SYSFS_NET_PATH cfg |} h.
Proof.
  destruct cfg as [f c u p s]. simpl. intros ->.
  set (cfg := {| If_v4.FILTER_INTERFACES := Some ∅; If_v4.COLOR_OUTPUT := c;
                 If_v4.BYTE_UNITS := u; If_v4.PROC_NET_DEV := p;
                 If_v4.SYSFS_NET_PATH := s |}).
  set (cfg' := {| If_v4.FILTER_INTERFACES := None; If_v4.COLOR_OUTPUT := c;
                  If_v4.BYTE_UNITS := u; If_v4.PROC_NET_DEV := p;
                  If_v4.SYSFS_NET_PATH := s |}).
  assert (forall interface, If_v4.filtered_out cfg interface = false) as Hf.
  { intros i. unfold If_v4.filtered_out. simpl.
    by rewrite bool_decide_eq_false_2 by (intros H; by apply H). }
  split; [done|].
  assert (forall col,
    If_v4.display_network_info cfg col h = If_v4.display_network_info cfg' col h)
    as Hnet.
  { intros col. unfold If_v4.display_network_info.
    rewrite !bind_print.
    destruct (netifaces_interfaces h) as [l|e]; [|done]. rewrite !bind_ok.
    rewrite (for_each_ext _
               (fun interface =>
                  if If_v4.filtered_out cfg' interface then ret tt
                  else If_v4.get_interface_info cfg' col h interface) l); [done|].
    intros i. by rewrite Hf. }
  assert (forall col line,
    If_v4.traffic_line cfg col line = If_v4.traffic_line cfg' col line) as Hline.
  { intros col line. unfold If_v4.traffic_line.
    destruct (index (Py.split ":" line) 0) as [p0|]; [|done]. rewrite !bind_ok.
    destruct (index (Py.split ":" line) 1) as [p1|]; [|done]. rewrite !bind_ok.
    by rewrite Hf. }
  assert (forall col,
    If_v4.display_traffic_stats cfg col h = If_v4.display_traffic_stats cfg' col h)
    as Hstats.
  { intros col. unfold If_v4.display_traffic_stats.
    change (If_v4.PROC_NET_DEV cfg) with p. change (If_v4.PROC_NET_DEV cfg') with p.
    destruct (negb (path_exists h p)); [done|].
    destruct (open_and h p If_v4.data_lines) as [l|e]; [|done].
    rewrite !bind_ok, !bind_print.
    by rewrite (for_each_ext _ (If_v4.traffic_line cfg' col) l (Hline col)). }
  unfold If_v4.main. destruct (negb (String.prefix _ _)); [done|].
  cbv zeta. change (If_v4.COLOR_OUTPUT cfg) with c.
  change (If_v4.COLOR_OUTPUT cfg') with c.
  by rewrite Hnet, Hstats.
Qed.

Lemma empty_filter_keeps_everything_witness :
  If_v4.main config_empty_filter two_interfaces_host
    = (["Network Interfaces:";
        "wlan0:"; "    inet: N/A"; "    netmask: N/A"; "    broadcast: N/A";
        "eth0:"; "    inet: N/A"; "    netmask: N/A"; "    broadcast: N/A";
        If_v4.NEWLINE +:+ "Traffic Statistics:";
        "  wlan0:"; "    RX: 100.0 B"; "    TX: 200.0 B";
        "  eth0:"; "    RX: 100.0 B"; "    TX: 200.0 B"], 0).
Proof.
  destruct (empty_filter_keeps_everything config_empty_filter
              two_interfaces_host eq_refl) as [_ ->].
  by vm_compute.
Defined.

(** X16: with an empty unit ladder [format_bytes] raises [IndexError] for
    every size that [float] takes, and the traffic loop of [if_v4.py]
    swallows it: of an entry only the name line is printed. *)
Theorem empty_unit_ladder_hides_counters (cfg : If_v4.Config)
    (col : If_v4.Colors) (name fields : string) (rx tx : Z) :
  If_v4.BYTE_UNITS cfg = [] ->
  data_line name fields rx tx ->
  If_v4.filtered_out cfg (Py.strip name) = false ->
  Z.abs rx < 2 ^ 1024 - 2 ^ 970 ->
  If_v4.format_bytes cfg rx = Raise out_of_range /\
  If_v4.traffic_line cfg col (Py.strip (name +:+ ":" +:+ fields))
    = ([If_v4.SEPIA col +:+ "  " +:+ Py.strip name +:+ ":" +:+ If_v4.RESET col],
       Ok tt).
Proof.
  intros Hu Hd Hf Hrx.
  assert (If_v4.format_bytes cfg rx = Raise out_of_range) as Hfmt.
  { unfold If_v4.format_bytes, format_bytes_with, Py.float_of_int. rewrite Hu.
    pose proof (round53_finite (Z.abs rx) ltac:(lia)).
    destruct (Z.leb_spec (2 ^ 1024) (Py.round53 (Z.abs rx))); [lia | done]. }
  split; [done|].
  rewrite (traffic_line_v4 _ _ _ _ _ _ Hd), Hf.
  unfold If_v4.report, If_v4.rx_human. simpl If_v4.rx_bytes. by rewrite Hfmt.
Qed.

Lemma empty_unit_ladder_hides_counters_witness :
  If_v4.traffic_line config_no_units If_v4.Colors_initial (Py.strip ("  eth0" +:+ ":" +:+ eth0_fields))
    = ([If_v4.SEPIA If_v4.Colors_initial +:+ "  " +:+ Py.strip "  eth0" +:+ ":"
          +:+ If_v4.RESET If_v4.Colors_initial], Ok tt).
Proof.
  apply (empty_unit_ladder_hides_counters config_no_units If_v4.Colors_initial
           "  eth0" eth0_fields 100 200).
  - reflexivity.
  - by split; vm_compute.
  - reflexivity.
  - vm_compute. reflexivity.
Defined.

(** ** Numerals: [int] reads what [str] writes *)

Lemma read_line s :
  all_chars nonspace s = true -> Py.read (s +:+ LFs) = s +:+ LFs.
Proof.
  unfold Py.read. induction s as [|c s IH]; [done|].
  rewrite app_cons_str. simpl. intros [Hc Hs]%andb_true_iff.
  destruct (decide (c = Py.CR)) as [->|]; [done|].
  destruct (decide (c = Py.LF)) as [->|]; [done|].
  rewrite !bool_decide_eq_false_2 by done. by rewrite IH.
Qed.

Lemma digit_nonspace c : Py.isdigit c = true -> nonspace c = true.
Proof.
  unfold Py.isdigit, nonspace, Py.isspace.
  intros [?%Z.leb_le ?%Z.leb_le]%andb_true_iff.
  apply negb_true_iff, orb_false_iff. split; apply andb_false_iff.
  - right. apply Z.leb_gt. lia.
  - right. apply Z.leb_gt. lia.
Qed.

Lemma digits_nonspace s :
  all_chars Py.isdigit s = true -> all_chars nonspace s = true.
Proof.
  induction s as [|c s IH]; [done|]. simpl.
  intros [Hc Hs]%andb_true_iff. by rewrite (digit_nonspace _ Hc), IH.
Qed.

Lemma digit_not_isspace_int c : Py.isdigit c = true -> Py.isspace_int c = false.
Proof.
  unfold Py.isdigit, Py.isspace_int.
  intros [?%Z.leb_le ?%Z.leb_le]%andb_true_iff.
  apply orb_false_iff. split.
  - apply andb_false_iff. right. apply Z.leb_gt. lia.
  - apply Z.eqb_neq. lia.
Qed.

(** What [int] keeps of a line that holds digits and its newline. *)
Lemma strip_int_line s :
  all_chars Py.isdigit s = true ->
  Py.lstrip_int (Py.rstrip_int (s +:+ LFs)) = s.
Proof.
  intros Hs.
  assert (Py.rstrip_int (s +:+ LFs) = s) as ->.
  { induction s as [|c s IH]; [done|]. rewrite app_cons_str.
    simpl in Hs. apply andb_true_iff in Hs as [Hc Hs].
    cbn [Py.rstrip_int]. by rewrite IH, (digit_not_isspace_int _ Hc). }
  destruct s as [|c s]; [done|]. simpl in *.
  apply andb_true_iff in Hs as [Hc _]. by rewrite (digit_not_isspace_int _ Hc).
Qed.

Ltac digit_value :=
  repeat match goal with
  | |- context [Py.digit_val (Ascii ?a ?b ?c ?d ?e ?f ?g ?h)] =>
      let v := eval vm_compute in (Py.digit_val (Ascii a b c d e f g h)) in
      change (Py.digit_val (Ascii a b c d e f g h)) with v
  | |- context [Py.isdigit (Ascii ?a ?b ?c ?d ?e ?f ?g ?h)] =>
      let v := eval vm_compute in (Py.isdigit (Ascii a b c d e f g h)) in
      change (Py.isdigit (Ascii a b c d e f g h)) with v
  end.

Lemma parse_digits_acc d p :
  Py.parse_digits (NilEmpty.string_of_uint d) (Z.pos p) true
    = Some (Z.pos (Pos.of_uint_acc d p)).
Proof.
  revert p. induction d; intros p; [done|..];
    cbn [NilEmpty.string_of_uint Py.parse_digits Pos.of_uint_acc];
    digit_value; cbv iota beta; rewrite <- IHd; f_equal; lia.
Qed.

Lemma parse_digits_zero d b :
  d <> Decimal.Nil \/ b = true ->
  Py.parse_digits (NilEmpty.string_of_uint d) 0 b = Some (Z.of_N (Pos.of_uint d)).
Proof.
  revert b. induction d; intros b Hb;
    [by destruct Hb as [? | ->] | ..];
    cbn [NilEmpty.string_of_uint Py.parse_digits Pos.of_uint];
    digit_value; cbv iota beta;
    [by apply IHd; right | apply parse_digits_acc ..].
Qed.

Lemma count_digits_uint d :
  Py.count_digits (NilEmpty.string_of_uint d) = Z.of_nat (Decimal.nb_digits d).
Proof.
  induction d; [done|..];
    cbn [NilEmpty.string_of_uint Py.count_digits Decimal.nb_digits];
    digit_value; cbv iota; rewrite IHd; lia.
Qed.

Lemma of_uint_acc_lower d acc :
  Z.pos acc * 10 ^ Z.of_nat (Decimal.nb_digits d) <= Z.pos (Pos.of_uint_acc d acc).
Proof.
  revert acc. induction d; intros acc;
    cbn [Decimal.nb_digits Pos.of_uint_acc]; [simpl; lia|..];
    rewrite Nat2Z.inj_succ, Z.pow_succ_r by lia;
    match goal with
    | |- _ <= Z.pos (Pos.of_uint_acc _ ?a) => specialize (IHd a)
    end;
    assert (0 < 10 ^ Z.of_nat (Decimal.nb_digits d))
      by (apply Z.pow_pos_nonneg; lia);
    nia.
Qed.

(** A positive number below [10^k] is written with at most [k] digits. *)
Lemma to_uint_digits p k :
  0 <= k -> Z.pos p < 10 ^ k ->
  Z.of_nat (Decimal.nb_digits (Pos.to_uint p)) <= k.
Proof.
  intros Hk Hp.
  pose proof (DecimalPos.Unsigned.of_to p) as Hval.
  pose proof (DecimalPos.Unsigned.to_of (Pos.to_uint p)) as Hnorm.
  rewrite Hval in Hnorm. cbn [N.to_uint] in Hnorm.
  pose proof (DecimalPos.Unsigned.to_uint_nonnil p) as Hnil.
  pose proof (DecimalPos.Unsigned.to_uint_nonzero p) as Hzero.
  destruct (Pos.to_uint p) as [|l|l|l|l|l|l|l|l|l|l]; [done| |..].
  { exfalso. change (Decimal.unorm (Decimal.D0 l)) with (Decimal.unorm l) in Hnorm.
    assert (l <> Decimal.Nil) as Hl by (by intros ->).
    pose proof (DecimalFacts.nb_digits_unorm l Hl) as Hle.
    rewrite <- Hnorm in Hle. simpl in Hle. lia. }
  all: cbn [Pos.of_uint] in Hval; injection Hval as <-;
      cbn [Decimal.nb_digits]; rewrite Nat2Z.inj_succ.
    all: match type of Hp with
         | Z.pos (Pos.of_uint_acc _ ?a) < _ =>
             pose proof (of_uint_acc_lower l a) as Hlow
         end.
    all: assert (10 ^ Z.of_nat (Decimal.nb_digits l) < 10 ^ k) as Hlt
           by (assert (0 < 10 ^ Z.of_nat (Decimal.nb_digits l))
                 by (apply Z.pow_pos_nonneg; lia); nia).
    all: apply Z.pow_lt_mono_r_iff in Hlt; lia.
Qed.

(** A numeral without a sign and within the digit limit, as a line of a
    file. *)
Lemma int_digits_line s :
  all_chars Py.isdigit s = true ->
  Py.count_digits s <= Py.max_str_digits ->
  Py.int (s +:+ LFs) = Py.parse_digits s 0 false.
Proof.
  intros Hs Hcount. unfold Py.int. rewrite (strip_int_line _ Hs).
  assert (Py.int_digits s = Py.parse_digits s 0 false) as Hd.
  { unfold Py.int_digits.
    destruct (Z.ltb_spec Py.max_str_digits (Py.count_digits s)); [lia | done]. }
  destruct s as [|c r]; [done|]. simpl in Hs.
  apply andb_true_iff in Hs as [Hc _].
  destruct c as [[] [] [] [] [] [] [] []];
    try (vm_compute in Hc; discriminate Hc); exact Hd.
Qed.

(** [int(str(n))] is [n] for a number below [10^4300], also with the
    newline a file ends with. *)
Lemma int_str_line n :
  0 <= n < 10 ^ Py.max_str_digits -> Py.int (Py.str n +:+ LFs) = Some n.
Proof.
  intros [Hn0 Hn1].
  pose proof (DecimalZ.of_to n) as Hn.
  assert (Py.count_digits (Py.str n) <= Py.max_str_digits) as Hcount.
  { unfold Py.str. destruct n as [|p|p]; [done | | lia]. simpl.
    pose proof (DecimalPos.Unsigned.to_uint_nonnil p) as Hnil.
    assert (NilZero.string_of_uint (Pos.to_uint p)
              = NilEmpty.string_of_uint (Pos.to_uint p)) as ->
      by by destruct (Pos.to_uint p).
    rewrite count_digits_uint. by apply to_uint_digits. }
  rewrite (int_digits_line _ (proj1 (str_digits n Hn0)) Hcount).
  unfold Py.str.
  destruct n as [|p|p]; [done | | lia]. simpl in *.
  pose proof (DecimalPos.Unsigned.to_uint_nonnil p) as Hnil.
  unfold Z.of_uint in Hn.
  assert (NilZero.string_of_uint (Pos.to_uint p)
            = NilEmpty.string_of_uint (Pos.to_uint p)) as ->
    by by destruct (Pos.to_uint p).
  rewrite (parse_digits_zero _ false) by by left.
  by rewrite Hn.
Qed.

(** X17: the sysfs fallback reads back what the kernel writes: when the
    node of the interface holds the decimal numeral of [n], a number below
    [10^4300] (the digit limit of [int]), and a newline, [get_mtu_sysfs]
    returns [n], and so does [get_mtu] once the device-control query has
    failed. *)
Theorem sysfs_mtu_round_trip (cfg : If_v4.Config) (h : host)
    (interface : string) (n : Z) :
  0 <= n < 10 ^ 4300 ->
  fs h (If_v4.SYSFS_NET_PATH cfg +:+ "/" +:+ interface +:+ "/mtu")
    = Text (Py.str n +:+ LFs) ->
  If_v4.get_mtu_sysfs cfg h interface = Ok n /\
  (forall e,
      If_v4.get_mtu_ioctl h interface = Raise e ->
      If_v4.get_mtu cfg h interface = ret (Some n)).
Proof.
  intros Hn Hfs.
  assert (If_v4.get_mtu_sysfs cfg h interface = Ok n) as Hsys.
  { unfold If_v4.get_mtu_sysfs, open_and. rewrite Hfs. cbn [rbind].
    rewrite (read_line _ (digits_nonspace _ (proj1 (str_digits n (proj1 Hn))))).
    apply int_of_ok, int_str_line, Hn. }
  split; [done|]. intros e He.
  rewrite get_mtu_v4_spec. unfold resolved_mtu. by rewrite He, Hsys.
Qed.

Lemma sysfs_mtu_round_trip_witness :
  If_v4.get_mtu If_v4.config (no_ioctl_host (Text (Py.str 9000 +:+ LFs))) "eth0"
    = ret (Some 9000).
Proof.
  destruct (sysfs_mtu_round_trip If_v4.config
              (no_ioctl_host (Text (Py.str 9000 +:+ LFs))) "eth0" 9000)
    as [_ H]; [| reflexivity |].
  - split; [lia|]. apply (Z.lt_le_trans _ (10 ^ 4)); [lia|].
    apply Z.pow_le_mono_r; lia.
  - apply (H (Exn OSError "[Errno 1] Operation not permitted")). reflexivity.
Defined.

(** X18: on Linux the two later drafts report the interface with the
    kernel's MTU modulo [2^16] when that is not 0: after the name and the
    three address lines comes the line [MTU: <value>]. *)
Theorem linux_mtu_reported (h : host) (interface : string)
    (addrs : gmap Z (list addr_entry)) (ipv4 : addr_entry)
    (mtu_of : list byte -> option Z) (mtu : Z) :
  netifaces_ifaddresses h interface = Ok addrs ->
  index (default [∅] (addrs !! AF_INET)) 0 = Ok ipv4 ->
  socket_socket h = Done tt ->
  fcntl_ioctl h = linux_SIOCGIFMTU mtu_of ->
  mtu_of (Py.pack_s 16 (Py.encode interface)) = Some mtu ->
  mtu mod 2 ^ 16 <> 0 ->
  (forall cfg col,
      If_v4.get_interface_info cfg col h interface
        = ([If_v4.SEPIA col +:+ interface +:+ ":" +:+ If_v4.RESET col]
             ++ address_lines ipv4
             ++ ["    MTU: " +:+ Py.str (mtu mod 2 ^ 16)], Ok tt)) /\
  If_8v2.get_interface_info h interface
    = ([If_8v2.SEP_COLOR +:+ interface +:+ ":" +:+ If_8v2.RESET_COLOR]
         ++ address_lines ipv4
         ++ ["    MTU: " +:+ Py.str (mtu mod 2 ^ 16)], Ok tt).
Proof.
  intros Ha Hi Hs Hk Hm Hnz.
  assert (truthy (Some (mtu mod 2 ^ 16)) = true) as Ht
    by (simpl; by apply negb_true_iff, Z.eqb_neq).
  split.
  - intros cfg col.
    rewrite (get_interface_info_v4_ok _ _ _ _ _ _ Ha Hi).
    unfold resolved_mtu. rewrite (get_mtu_ioctl_linux _ _ _ _ Hs Hk Hm).
    change 65536 with (2 ^ 16). by rewrite Ht.
  - destruct (get_interface_info_8v2_ok _ _ _ _ Ha Hi) as (rest & -> & Hrest).
    rewrite (Hrest [] (Some (mtu mod 2 ^ 16))).
    + by rewrite Ht.
    + apply (get_mtu_8v2_linux _ _ _ _ Hs Hk Hm).
Qed.

Lemma linux_mtu_reported_witness :
  If_8v2.get_interface_info eth0_host "eth0"
    = ([If_8v2.SEP_COLOR +:+ "eth0" +:+ ":" +:+ If_8v2.RESET_COLOR;
        "    inet: 10.0.0.2"; "    netmask: 255.255.255.0";
        "    broadcast: 10.0.0.255"; "    MTU: 1500"], Ok tt).
Proof.
  destruct (linux_mtu_reported eth0_host "eth0"
              {[ AF_INET := [ {[ "addr" := "10.0.0.2";
                                 "netmask" := "255.255.255.0";
                                 "broadcast" := "10.0.0.255" ]} ] ]}
              {[ "addr" := "10.0.0.2"; "netmask" := "255.255.255.0";
                 "broadcast" := "10.0.0.255" ]}
              (fun name =>
                 if bool_decide (Py.byte_val <$> name
                                   = Py.byte_val <$> Py.pack_s 16 (Py.encode "eth0"))
                 then Some 1500 else None)
              1500 eq_refl eq_refl eq_refl eq_refl) as [_ ->];
    by vm_compute.
Defined.

(** ** The first draft on well-formed tables *)

(** On a data line the first draft does what [if_8v2.py] does. *)
Lemma traffic_line_8_data name fields rx tx :
  data_line name fields rx tx ->
  If_8.traffic_line (name +:+ ":" +:+ fields)
    = If_8v2.traffic_line (name +:+ ":" +:+ fields).
Proof.
  intros Hd. rewrite (traffic_line_8v2 _ _ _ _ Hd).
  destruct Hd as [Hn Hf (t0 & H0 & Hrx)%field_inv (t8 & H8 & Htx)%field_inv].
  unfold If_8.traffic_line. rewrite (app_cons_str ":" "" fields), app_nil_str.
  rewrite (strip_nonempty name ":" fields colon_nonspace).
  rewrite (split_colon name fields) by done.
  rewrite (index_ok _ 0 name), bind_ok by done.
  rewrite (index_ok _ 1 fields), bind_ok by done.
  rewrite (index_ok _ _ _ H0), bind_ok, (int_of_ok _ _ Hrx), bind_ok.
  rewrite (index_ok _ _ _ H8), bind_ok, (int_of_ok _ _ Htx), bind_ok.
  unfold If_8v2.report. change If_8v2.format_bytes with If_8.format_bytes.
  destruct (If_8.format_bytes rx) as [srx|]; [|done].
  destruct (If_8.format_bytes tx) as [stx|]; [|done].
  rewrite !bind_ok. by destruct (rx =? 0), (tx =? 0).
Qed.

(** X19: on a table whose lines are blank or well-formed data lines the
    first draft and [if_8v2.py] run the same loop: same lines printed, same
    outcome; the checks of the later draft change nothing there. *)
Theorem first_draft_agrees_on_well_formed_tables (lines : list string) :
  Forall (fun line => Py.is_empty (Py.strip line) = true \/ well_formed line) lines ->
  for_each lines If_8.traffic_line = for_each lines If_8v2.traffic_line.
Proof.
  induction 1 as [|line lines Hline _ IH]; [done|]. simpl. rewrite IH.
  destruct Hline as [Hblank | (name & fields & rx & tx & -> & Hd)].
  - unfold If_8.traffic_line, If_8v2.traffic_line. by rewrite Hblank.
  - by rewrite (traffic_line_8_data _ _ _ _ Hd).
Qed.

Lemma first_draft_agrees_on_well_formed_tables_witness :
  for_each [LFs; "  eth0" +:+ ":" +:+ eth0_fields] If_8.traffic_line
    = for_each [LFs; "  eth0" +:+ ":" +:+ eth0_fields] If_8v2.traffic_line.
Proof.
  apply first_draft_agrees_on_well_formed_tables.
  constructor; [by left|]. constructor; [|constructor].
  right. exists "  eth0", eth0_fields, 100, 200. split; [done|].
  by split; vm_compute.
Defined.

(** * The parser on whole tables *)

Lemma float_of_int_in_range b :
  float_range b -> exists x, Py.float_of_int b = Ok x.
Proof.
  intros Hb. unfold Py.float_of_int.
  pose proof (round53_finite (Z.abs b) ltac:(unfold float_range in Hb; lia)).
  destruct (Z.leb_spec (2 ^ 1024) (Py.round53 (Z.abs b))); [lia | eauto].
Qed.

Lemma format_bytes_with_in_range units b :
  float_range b ->
  (exists s, format_bytes_with units b = Ok s) \/
  (units = [] /\ format_bytes_with units b = Raise out_of_range).
Proof.
  intros Hb.
  destruct (format_bytes_with_outcome units b) as [? | [Ho | ?]]; [by left | | by right].
  unfold format_bytes_with in Ho.
  destruct (float_of_int_in_range b Hb) as [x Hx]. rewrite Hx in Ho.
  cbn [rbind] in Ho. destruct (scale _ _ _) as [x' i']. unfold index in Ho.
  by destruct (units !! i').
Qed.

(** A passable line lets the loop of [if_8v2.py] go on. *)
Lemma passable_8v2 line :
  passable line -> exists out, If_8v2.traffic_line line = (out, Ok tt).
Proof.
  intros [Hblank | (name & fields & rx & tx & -> & Hd & Hrx & Htx)].
  - unfold If_8v2.traffic_line. rewrite Hblank. by eexists.
  - rewrite (traffic_line_8v2 _ _ _ _ Hd).
    destruct (format_bytes_with_in_range If_8v2.units rx Hrx) as [[srx Hs] | [? _]];
      [|done].
    destruct (format_bytes_with_in_range If_8v2.units tx Htx) as [[stx Ht] | [? _]];
      [|done].
    rewrite (report_8v2 _ _ _ _ _ Hs Ht). by eexists.
Qed.

(** The stripped lines of passable lines let the loop of [if_v4.py] go
    on. *)
Lemma passable_v4 cfg col lines :
  Forall passable lines ->
  exists out,
    for_each (If_v4.stripped lines) (If_v4.traffic_line cfg col) = (out, Ok tt).
Proof.
  induction 1 as [|line lines Hline _ [out IH]]; [by eexists|].
  destruct Hline as [Hblank | (name & fields & rx & tx & -> & Hd & Hrx & Htx)].
  - unfold If_v4.stripped in *. simpl. rewrite Hblank. by eexists.
  - rewrite stripped_cons_colon. cbn [for_each].
    rewrite (traffic_line_v4 _ _ _ _ _ _ Hd), IH.
    destruct (If_v4.filtered_out cfg (Py.strip name)); [by eexists|].
    unfold If_v4.report, If_v4.rx_human, If_v4.tx_human, If_v4.format_bytes.
    cbn [If_v4.rx_bytes If_v4.tx_bytes If_v4.name].
    destruct (format_bytes_with_in_range (If_v4.BYTE_UNITS cfg) rx Hrx)
      as [[srx ->] | [_ ->]]; [|by eexists].
    destruct (format_bytes_with_in_range (If_v4.BYTE_UNITS cfg) tx Htx)
      as [[stx ->] | [_ ->]]; by eexists.
Qed.

Lemma passable_8v2_loop lines :
  Forall passable lines ->
  exists out, for_each lines If_8v2.traffic_line = (out, Ok tt).
Proof.
  induction 1 as [|line lines Hline _ [out IH]]; [by eexists|].
  destruct (passable_8v2 _ Hline) as [out1 H1].
  cbn [for_each]. rewrite H1, IH. by eexists.
Qed.

(** What is printed once the lines up to an entry have been processed
    normally: the heading, their output, the entry, and then whatever the
    other lines give. *)
Lemma report_then_rest (heading : string) (shown entry : list string)
    (m : io unit) (f : exn -> string) :
  exists rest,
    try_except_Exception
      (print heading >> (shown, Ok tt) >> (entry, Ok tt) >> m)
      (fun e => print (f e))
      = (heading :: shown ++ entry ++ rest, Ok tt).
Proof.
  destruct m as [out [[]|e]].
  - by exists out.
  - exists (out ++ [f e]). simpl. by rewrite <- !app_assoc.
Qed.

(** C2, amended: the traffic parser skips the first two lines of the
    statistics table ([hd1], [hd2]) and, for a data line [<name>: <fields>]
    among the remaining ones, reports the interface under the text left of
    the colon, trimmed, with token 0 after the colon as receive total and
    token 8 as transmit total; [before] and [after] are the lines around
    it.  When the lines before it have been processed normally and [float]
    accepts its counters, the entry is printed after their output:
    [if_8v2.py] prints it, [if_v4.py] (with a unit ladder that is not
    empty) prints it unless its filter drops the interface.  Blank lines
    and data lines whose counters [float] accepts are processed normally by
    both drafts.  The sample line of the
    specification is a data line: it yields 100 and 200 for eth0. *)
Theorem traffic_parser_fields (h : host)
    (content hd1 hd2 name fields : string) (before after : list string) (rx tx : Z) :
  fs h "/proc/net/dev" = Text content ->
  Py.readlines content = hd1 :: hd2 :: before ++ (name +:+ ":" +:+ fields) :: after ->
  data_line name fields rx tx ->
  If_8v2.display_traffic_stats h
    = try_except_Exception
        (print (If_8v2.GREY_COLOR +:+ If_8v2.NEWLINE +:+ "Traffic Statistics:"
                  +:+ If_8v2.RESET_COLOR) >>
         for_each before If_8v2.traffic_line >>
         If_8v2.report (Py.strip name) rx tx >>
         for_each after If_8v2.traffic_line)
        (fun e => print ("Error reading traffic stats: " +:+ exn_str e)) /\
  (forall cfg col,
      If_v4.PROC_NET_DEV cfg = "/proc/net/dev" ->
      If_v4.display_traffic_stats cfg col h
        = try_except_Exception
            (print (If_v4.GREY col +:+ If_v4.NEWLINE +:+ "Traffic Statistics:"
                      +:+ If_v4.RESET col) >>
             for_each (If_v4.stripped before) (If_v4.traffic_line cfg col) >>
             (if If_v4.filtered_out cfg (Py.strip name) then ret tt
              else try_except
                     (If_v4.report cfg col
                        {| If_v4.name := Py.strip name;
                           If_v4.rx_bytes := rx; If_v4.tx_bytes := tx |})
                     [IndexError; ValueError] (fun _ => ret tt)) >>
             for_each (If_v4.stripped after) (If_v4.traffic_line cfg col))
            (fun e => print (If_v4.RED col +:+ "Error reading stats: "
                               +:+ exn_str e +:+ If_v4.RESET col))) /\
  (forall shown,
      for_each before If_8v2.traffic_line = (shown, Ok tt) ->
      float_range rx -> float_range tx ->
      exists srx stx rest,
        If_8v2.format_bytes rx = Ok srx /\
        If_8v2.format_bytes tx = Ok stx /\
        If_8v2.display_traffic_stats h
          = ((If_8v2.GREY_COLOR +:+ If_8v2.NEWLINE +:+ "Traffic Statistics:"
                +:+ If_8v2.RESET_COLOR)
               :: shown
               ++ [If_8v2.SEP_COLOR +:+ "  " +:+ Py.strip name +:+ ":"
                     +:+ If_8v2.RESET_COLOR;
                   "    RX: "
                     +:+ (if rx =? 0 then If_8v2.GREY_COLOR +:+ "No traffic"
                          else If_8v2.GREY_COLOR +:+ srx)
                     +:+ If_8v2.RESET_COLOR;
                   "    TX: "
                     +:+ (if tx =? 0 then If_8v2.GREY_COLOR +:+ "No traffic"
                          else If_8v2.GREY_COLOR +:+ stx)
                     +:+ If_8v2.RESET_COLOR]
               ++ rest,
             Ok tt)) /\
  (forall cfg col shown,
      If_v4.PROC_NET_DEV cfg = "/proc/net/dev" ->
      If_v4.BYTE_UNITS cfg <> [] ->
      If_v4.filtered_out cfg (Py.strip name) = false ->
      for_each (If_v4.stripped before) (If_v4.traffic_line cfg col)
        = (shown, Ok tt) ->
      float_range rx -> float_range tx ->
      exists srx stx rest,
        If_v4.format_bytes cfg rx = Ok srx /\
        If_v4.format_bytes cfg tx = Ok stx /\
        If_v4.display_traffic_stats cfg col h
          = ((If_v4.GREY col +:+ If_v4.NEWLINE +:+ "Traffic Statistics:"
                +:+ If_v4.RESET col)
               :: shown
               ++ [If_v4.SEPIA col +:+ "  " +:+ Py.strip name +:+ ":"
                     +:+ If_v4.RESET col;
                   "    RX: " +:+ If_v4.GREY col +:+ srx +:+ If_v4.RESET col;
                   "    TX: " +:+ If_v4.GREY col +:+ stx +:+ If_v4.RESET col]
               ++ rest,
             Ok tt)) /\
  (Forall passable before ->
   (exists shown, for_each before If_8v2.traffic_line = (shown, Ok tt)) /\
   (forall cfg col, exists shown,
       for_each (If_v4.stripped before) (If_v4.traffic_line cfg col)
         = (shown, Ok tt))) /\
  data_line "  eth0" eth0_fields 100 200 /\ Py.strip "  eth0" = "eth0".
Proof.
  intros Hfs Hlines Hline.
  assert (If_8v2.display_traffic_stats h
    = try_except_Exception
        (print (If_8v2.GREY_COLOR +:+ If_8v2.NEWLINE +:+ "Traffic Statistics:"
                  +:+ If_8v2.RESET_COLOR) >>
         for_each before If_8v2.traffic_line >>
         If_8v2.report (Py.strip name) rx tx >>
         for_each after If_8v2.traffic_line)
        (fun e => print ("Error reading traffic stats: " +:+ exn_str e))) as H8.
  { rewrite (display_traffic_stats_8v2_lines h content Hfs).
    rewrite Hlines. rewrite !skipn_cons, drop_0. rewrite for_each_app. cbn [for_each].
    by rewrite (traffic_line_8v2 name fields rx tx). }
  assert (forall cfg col,
      If_v4.PROC_NET_DEV cfg = "/proc/net/dev" ->
      If_v4.display_traffic_stats cfg col h
        = try_except_Exception
            (print (If_v4.GREY col +:+ If_v4.NEWLINE +:+ "Traffic Statistics:"
                      +:+ If_v4.RESET col) >>
             for_each (If_v4.stripped before) (If_v4.traffic_line cfg col) >>
             (if If_v4.filtered_out cfg (Py.strip name) then ret tt
              else try_except
                     (If_v4.report cfg col
                        {| If_v4.name := Py.strip name;
                           If_v4.rx_bytes := rx; If_v4.tx_bytes := tx |})
                     [IndexError; ValueError] (fun _ => ret tt)) >>
             for_each (If_v4.stripped after) (If_v4.traffic_line cfg col))
            (fun e => print (If_v4.RED col +:+ "Error reading stats: "
                               +:+ exn_str e +:+ If_v4.RESET col))) as H4.
  { intros cfg col Hp. rewrite <- Hp in Hfs.
    rewrite (display_traffic_stats_v4_lines cfg col h content Hfs).
    rewrite Hlines. rewrite !skipn_cons, drop_0.
    rewrite stripped_app, stripped_cons_colon, for_each_app.
    cbn [for_each].
    by rewrite (traffic_line_v4 cfg col name fields rx tx). }
  split; [done|]. split; [done|]. split; [|split; [|split]].
  - intros shown Hbefore Hrx Htx.
    destruct (format_bytes_with_in_range If_8v2.units rx Hrx)
      as [[srx Hs] | [? _]]; [|done].
    destruct (format_bytes_with_in_range If_8v2.units tx Htx)
      as [[stx Ht] | [? _]]; [|done].
    destruct (report_then_rest
                (If_8v2.GREY_COLOR +:+ If_8v2.NEWLINE +:+ "Traffic Statistics:"
                   +:+ If_8v2.RESET_COLOR)
                shown (If_8v2.report (Py.strip name) rx tx).1
                (for_each after If_8v2.traffic_line)
                (fun e => "Error reading traffic stats: " +:+ exn_str e))
      as [rest Hrest].
    exists srx, stx, rest. do 2 (split; [done|]).
    rewrite H8, Hbefore. rewrite (report_8v2 _ _ _ _ _ Hs Ht) in Hrest |- *.
    exact Hrest.
  - intros cfg col shown Hp Hunits Hfilter Hbefore Hrx Htx.
    destruct (format_bytes_with_in_range (If_v4.BYTE_UNITS cfg) rx Hrx)
      as [[srx Hs] | [? _]]; [|done].
    destruct (format_bytes_with_in_range (If_v4.BYTE_UNITS cfg) tx Htx)
      as [[stx Ht] | [? _]]; [|done].
    exists srx, stx.
    rewrite (H4 cfg col Hp), Hbefore, Hfilter.
    rewrite (report_v4 cfg col
               {| If_v4.name := Py.strip name;
                  If_v4.rx_bytes := rx; If_v4.tx_bytes := tx |} srx stx Hs Ht).
    destruct (report_then_rest
                (If_v4.GREY col +:+ If_v4.NEWLINE +:+ "Traffic Statistics:"
                   +:+ If_v4.RESET col)
                shown
                [If_v4.SEPIA col +:+ "  " +:+ Py.strip name +:+ ":"
                   +:+ If_v4.RESET col;
                 "    RX: " +:+ If_v4.GREY col +:+ srx +:+ If_v4.RESET col;
                 "    TX: " +:+ If_v4.GREY col +:+ stx +:+ If_v4.RESET col]
                (for_each (If_v4.stripped after) (If_v4.traffic_line cfg col))
                (fun e => If_v4.RED col +:+ "Error reading stats: " +:+ exn_str e
                            +:+ If_v4.RESET col))
      as [rest Hrest].
    exists rest. do 2 (split; [done|]). exact Hrest.
  - intros Hpass. split; [by apply passable_8v2_loop|].
    intros cfg col. by apply passable_v4.
  - split; [|done]. by split.
Qed.

(** The sample table of the specification: both drafts print eth0 with
    100 bytes received and 200 bytes sent. *)
Lemma traffic_parser_fields_witness :
  If_8v2.display_traffic_stats (table_host sample_table)
    = ([If_8v2.GREY_COLOR +:+ If_8v2.NEWLINE +:+ "Traffic Statistics:"
          +:+ If_8v2.RESET_COLOR;
        If_8v2.SEP_COLOR +:+ "  eth0:" +:+ If_8v2.RESET_COLOR;
        "    RX: " +:+ If_8v2.GREY_COLOR +:+ "100.0 B" +:+ If_8v2.RESET_COLOR;
        "    TX: " +:+ If_8v2.GREY_COLOR +:+ "200.0 B" +:+ If_8v2.RESET_COLOR],
       Ok tt) /\
  If_v4.display_traffic_stats If_v4.config If_v4.Colors_initial
      (table_host sample_table)
    = ([ESC +:+ "[38;5;250m" +:+ If_v4.NEWLINE +:+ "Traffic Statistics:"
          +:+ ESC +:+ "[0m";
        ESC +:+ "[38;5;130m" +:+ "  eth0:" +:+ ESC +:+ "[0m";
        "    RX: " +:+ ESC +:+ "[38;5;250m" +:+ "100.0 B" +:+ ESC +:+ "[0m";
        "    TX: " +:+ ESC +:+ "[38;5;250m" +:+ "200.0 B" +:+ ESC +:+ "[0m"],
       Ok tt).
Proof.
  destruct (traffic_parser_fields (table_host sample_table) sample_table
              ("Inter-|  Receive..." +:+ LFs)
              (" face |bytes ..." +:+ LFs)
              "  eth0" eth0_fields [] [] 100 200) as (H8 & H4 & _);
    [done | by vm_compute | by split | ].
  split.
  - rewrite H8. by vm_compute.
  - rewrite (H4 If_v4.config If_v4.Colors_initial eq_refl). by vm_compute.
Defined.

(** C2, counterexample: a data line of the stated shape is not always
    read.  A line before it that holds a counter of [2^1024] ends the loop of
    either draft with the [OverflowError] of [float]; in [if_v4.py] a line
    without a colon before it ends the loop as well.  In each of the three
    runs the table holds the sample line of eth0 and no entry of eth0 is
    printed. *)
Lemma traffic_parser_stops_early :
  data_line "  eth0" eth0_fields 100 200 /\
  If_8v2.display_traffic_stats
    (table_host (table "Inter-|  Receive..." " face |bytes ..."
                       (oversize_line +:+ "  eth0:" +:+ eth0_fields)))
  = ([If_8v2.GREY_COLOR +:+ If_8v2.NEWLINE +:+ "Traffic Statistics:"
        +:+ If_8v2.RESET_COLOR;
      "Error reading traffic stats: int too large to convert to float"],
     Ok tt) /\
  If_v4.display_traffic_stats If_v4.config If_v4.Colors_initial
    (table_host (table "Inter-|  Receive..." " face |bytes ..."
                       (oversize_line +:+ "  eth0:" +:+ eth0_fields)))
  = ([ESC +:+ "[38;5;250m" +:+ If_v4.NEWLINE +:+ "Traffic Statistics:"
        +:+ ESC +:+ "[0m";
      ESC +:+ "[38;5;130m" +:+ "  wlan0:" +:+ ESC +:+ "[0m";
      ESC +:+ "[31m"
        +:+ "Error reading stats: int too large to convert to float"
        +:+ ESC +:+ "[0m"],
     Ok tt) /\
  If_v4.display_traffic_stats If_v4.config If_v4.Colors_initial
    (table_host (table "Inter-|  Receive..." " face |bytes ..."
                       ("garbled" +:+ LFs +:+ "  eth0:" +:+ eth0_fields)))
  = ([ESC +:+ "[38;5;250m" +:+ If_v4.NEWLINE +:+ "Traffic Statistics:"
        +:+ ESC +:+ "[0m";
      ESC +:+ "[31m" +:+ "Error reading stats: list index out of range"
        +:+ ESC +:+ "[0m"],
     Ok tt).
Proof.
  split; [by split|]. repeat split; by vm_compute.
Qed.
